(** * AWS Glue Schema Registry, Python client: serialization contract

    A shallow embedding of [glue_schema_registry/model.py], [client.py],
    [avro_serializer.py] and [json_serializer.py].

    Python values are a small inductive type, exceptions are values of an
    error monad, and the libraries the package calls into (boto3, json,
    fastavro, the UTF-8 codec) are a record of functions the serializers are
    parameterised by.  [Ref] gives one executable instance of that record. *)

From Stdlib Require Import Strings.String Strings.Ascii Strings.Byte.
From Stdlib Require Import ZArith NArith List Bool Lia.
Import ListNotations.

Set Warnings "-register-all".

Open Scope string_scope.
Open Scope Z_scope.

(* ================================================================== *)
(** * Python values, exceptions and the error monad                    *)
(* ================================================================== *)

Module Py.

(** The values that reach the Record type and the wire: JSON documents, boto3
    responses and decoded Avro rows.  A [float] is carried as its decimal
    literal, no float arithmetic is modelled.  Dicts keep insertion order. *)
Inductive PyVal : Type :=
| PNone
| PBool (b : bool)
| PInt (z : Z)
| PFloat (lit : string)
| PStr (s : string)
| PList (xs : list PyVal)
| PDict (items : list (string * PyVal)).

(** Exception classes.  [ClientError code] is botocore's [ClientError] (and
    its per-error-code subclasses); every class here derives from
    [Exception]. *)
Inductive ExcClass : Type :=
| ClientError (code : string)
| BotoCoreError (name : string)
| SchemaRegistryException
| ValueError
| KeyError
| TypeError
| AttributeError
| JSONDecodeError
| UnicodeDecodeError
| UnicodeEncodeError
| EOFError
| OverflowError
| RecursionError
| SchemaParseException.

(** An exception object: its class and [str(e)]. *)
Record PyExc : Type := mkExc { exc_class : ExcClass; exc_str : string }.

Inductive Res (A : Type) : Type :=
| Ok (a : A)
| Raise (e : PyExc).
Arguments Ok {A} a.
Arguments Raise {A} e.

Definition bind {A B : Type} (m : Res A) (k : A -> Res B) : Res B :=
  match m with
  | Ok a => k a
  | Raise e => Raise e
  end.

Definition bytes : Type := list byte.

(** [isinstance(e, ClientError)] *)
Definition is_ClientError (e : PyExc) : bool :=
  match exc_class e with
  | ClientError _ => true
  | _ => false
  end.

(** [try: body / except ClientError as e: raise SchemaRegistryException(f"{msg}{e}")] *)
Definition except_ClientError {A : Type} (msg : string) (body : Res A) : Res A :=
  match body with
  | Ok a => Ok a
  | Raise e =>
      if is_ClientError e
      then Raise (mkExc SchemaRegistryException (msg ++ exc_str e))
      else Raise e
  end.

(** [try: body / except Exception as e: raise SchemaRegistryException(f"{msg}{e}")] *)
Definition except_Exception {A : Type} (msg : string) (body : Res A) : Res A :=
  match body with
  | Ok a => Ok a
  | Raise e => Raise (mkExc SchemaRegistryException (msg ++ exc_str e))
  end.

Definition type_name (v : PyVal) : string :=
  match v with
  | PNone => "NoneType"
  | PBool _ => "bool"
  | PInt _ => "int"
  | PFloat _ => "float"
  | PStr _ => "str"
  | PList _ => "list"
  | PDict _ => "dict"
  end.

Fixpoint lookup (items : list (string * PyVal)) (key : string) : option PyVal :=
  match items with
  | [] => None
  | (k, v) :: rest => if String.eqb k key then Some v else lookup rest key
  end.

(** [d[key] = v] on a dict: replaces in place, or appends a new key. *)
Fixpoint store (items : list (string * PyVal)) (key : string) (v : PyVal)
  : list (string * PyVal) :=
  match items with
  | [] => [(key, v)]
  | (k, w) :: rest =>
      if String.eqb k key then (k, v) :: rest else (k, w) :: store rest key v
  end.

Definition keys (items : list (string * PyVal)) : list string := map fst items.

Definition squote : string := "'".

(** [obj[key]] with a string key. *)
Definition getitem (obj : PyVal) (key : string) : Res PyVal :=
  match obj with
  | PDict items =>
      match lookup items key with
      | Some v => Ok v
      | None => Raise (mkExc KeyError (squote ++ key ++ squote))
      end
  | PStr _ => Raise (mkExc TypeError "string indices must be integers")
  | PList _ => Raise (mkExc TypeError "list indices must be integers or slices, not str")
  | _ => Raise (mkExc TypeError
                  (squote ++ type_name obj ++ "' object is not subscriptable"))
  end.

(** [obj.get(key, default)] *)
Definition get (obj : PyVal) (key : string) (default : PyVal) : Res PyVal :=
  match obj with
  | PDict items =>
      match lookup items key with
      | Some v => Ok v
      | None => Ok default
      end
  | _ => Raise (mkExc AttributeError
                  (squote ++ type_name obj ++ "' object has no attribute 'get'"))
  end.

(** [isinstance(v, int)]: [bool] is a subclass of [int]. *)
Definition isinstance_int (v : PyVal) : bool :=
  match v with
  | PInt _ | PBool _ => true
  | _ => false
  end.

(** The integer an [int] instance denotes ([True] is 1, [False] is 0). *)
Definition int_value (v : PyVal) : Z :=
  match v with
  | PInt z => z
  | PBool true => 1
  | _ => 0
  end.

End Py.
Import Py.

Notation "x <- m ;; k" := (bind m (fun x => k))
  (at level 61, m at next level, right associativity).

(* ================================================================== *)
(** * model.py                                                         *)
(* ================================================================== *)

Module model.

(** [@dataclass class SalesforceAudit]: the annotations are not enforced by
    Python, so every field holds an arbitrary value. *)
Record SalesforceAudit : Type := mkSalesforceAudit {
  event_id : PyVal;
  event_name : PyVal;
  timestamp : PyVal;
  event_details : PyVal
}.

Definition __post_init__ (self : SalesforceAudit) : Res unit :=
  if negb (isinstance_int (timestamp self))
  then Raise (mkExc ValueError "timestamp must be an integer")
  else if int_value (timestamp self) <? 0
  then Raise (mkExc ValueError "timestamp must be non-negative")
  else Ok tt.

(** [SalesforceAudit(event_id, event_name, timestamp, event_details)]: the
    generated [__init__] stores the fields and calls [__post_init__]. *)
Definition new (event_id event_name timestamp event_details : PyVal)
  : Res SalesforceAudit :=
  let self := mkSalesforceAudit event_id event_name timestamp event_details in
  _ <- __post_init__ self ;;
  Ok self.

Definition to_dict (self : SalesforceAudit) : PyVal :=
  PDict [ ("eventId", event_id self);
          ("eventName", event_name self);
          ("timestamp", timestamp self);
          ("eventDetails", event_details self) ].

Definition from_dict (data : PyVal) : Res SalesforceAudit :=
  a <- get data "eventId" (PStr "") ;;
  b <- get data "eventName" (PStr "") ;;
  c <- get data "timestamp" (PInt 0) ;;
  d <- get data "eventDetails" (PStr "") ;;
  new a b c d.

(** The validity invariant of the spec: an integer timestamp, not negative. *)
Definition valid_timestamp (v : PyVal) : bool :=
  isinstance_int v && (0 <=? int_value v).

End model.
Import model.

(* ================================================================== *)
(** * client.py                                                        *)
(* ================================================================== *)

Module client.

(** The boto3 [glue] client, as far as the serializers reach it.  The
    arguments are [RegistryName], [SchemaName] and, for a version,
    [VersionNumber]. *)
Record GlueClient : Type := mkGlueClient {
  boto_get_schema : string -> string -> Res PyVal;
  boto_get_schema_version : string -> string -> PyVal -> Res PyVal
}.

Record GlueSchemaRegistryClient : Type := mkClient {
  registry_name : string;
  glue_client : GlueClient
}.

Definition get_schema (self : GlueSchemaRegistryClient) (schema_name : string)
  : Res PyVal :=
  except_ClientError "Failed to get schema: "
    (boto_get_schema (glue_client self) (registry_name self) schema_name).

Definition get_schema_version (self : GlueSchemaRegistryClient)
    (schema_name : string) (version_number : PyVal) : Res PyVal :=
  except_ClientError "Failed to get schema version: "
    (boto_get_schema_version (glue_client self) (registry_name self)
       schema_name version_number).

End client.
Import client.

(* ================================================================== *)
(** * The libraries the serializers call                               *)
(* ================================================================== *)

(** [json], [str.encode]/[bytes.decode] and [fastavro].  The package owns
    none of them; the serializers are stated over any implementation. *)
Record Libs : Type := mkLibs {
  Schema : Type;
  json_loads : string -> Res PyVal;
  json_dumps : PyVal -> Res string;
  encode_utf8 : string -> Res bytes;
  decode_utf8 : bytes -> Res string;
  parse_schema : PyVal -> Res Schema;
  schemaless_writer : Schema -> PyVal -> Res bytes;
  schemaless_reader : Schema -> bytes -> Res PyVal
}.

(** [json.loads(v)] for an arbitrary argument. *)
Definition py_json_loads (L : Libs) (v : PyVal) : Res PyVal :=
  match v with
  | PStr s => json_loads L s
  | _ => Raise (mkExc TypeError
                  ("the JSON object must be str, bytes or bytearray, not "
                     ++ type_name v))
  end.

(* ================================================================== *)
(** * avro_serializer.py                                               *)
(* ================================================================== *)

Module AvroSerializer.

(** The dict literal [record] of [serialize]. *)
Definition record_of (audit_event : SalesforceAudit) : PyVal :=
  PDict [ ("eventId", event_id audit_event);
          ("eventName", event_name audit_event);
          ("timestamp", timestamp audit_event);
          ("eventDetails", event_details audit_event) ].

(** The [try] block of [serialize]. *)
Definition serialize_body (L : Libs) (client : GlueSchemaRegistryClient)
    (schema_name : string) (audit_event : SalesforceAudit) : Res bytes :=
  schema_response <- get_schema client schema_name ;;
  latest_version <- getitem schema_response "LatestSchemaVersion" ;;
  schema_version_response <- get_schema_version client schema_name latest_version ;;
  schema_definition <- getitem schema_version_response "SchemaDefinition" ;;
  schema_dict <- py_json_loads L schema_definition ;;
  avro_schema <- parse_schema L schema_dict ;;
  let record := record_of audit_event in
  schemaless_writer L avro_schema record.

Definition serialize (L : Libs) (client : GlueSchemaRegistryClient)
    (schema_name : string) (audit_event : SalesforceAudit) : Res bytes :=
  except_Exception "Failed to serialize SalesforceAudit: "
    (serialize_body L client schema_name audit_event).

(** The [try] block of [deserialize]. *)
Definition deserialize_body (L : Libs) (client : GlueSchemaRegistryClient)
    (schema_name : string) (data : bytes) : Res SalesforceAudit :=
  schema_response <- get_schema client schema_name ;;
  latest_version <- getitem schema_response "LatestSchemaVersion" ;;
  schema_version_response <- get_schema_version client schema_name latest_version ;;
  schema_definition <- getitem schema_version_response "SchemaDefinition" ;;
  schema_dict <- py_json_loads L schema_definition ;;
  avro_schema <- parse_schema L schema_dict ;;
  record <- schemaless_reader L avro_schema data ;;
  a <- getitem record "eventId" ;;
  b <- getitem record "eventName" ;;
  c <- getitem record "timestamp" ;;
  d <- getitem record "eventDetails" ;;
  model.new a b c d.

Definition deserialize (L : Libs) (client : GlueSchemaRegistryClient)
    (schema_name : string) (data : bytes) : Res SalesforceAudit :=
  except_Exception "Failed to deserialize SalesforceAudit: "
    (deserialize_body L client schema_name data).

End AvroSerializer.

(* ================================================================== *)
(** * json_serializer.py                                               *)
(* ================================================================== *)

Module JsonSerializer.

Definition serialize_body (L : Libs) (client : GlueSchemaRegistryClient)
    (schema_name : string) (audit_event : SalesforceAudit) : Res bytes :=
  schema_response <- get_schema client schema_name ;;
  latest_version <- getitem schema_response "LatestSchemaVersion" ;;
  schema_version_response <- get_schema_version client schema_name latest_version ;;
  json_str <- json_dumps L (to_dict audit_event) ;;
  encode_utf8 L json_str.

Definition serialize (L : Libs) (client : GlueSchemaRegistryClient)
    (schema_name : string) (audit_event : SalesforceAudit) : Res bytes :=
  except_Exception "Failed to serialize SalesforceAudit to JSON: "
    (serialize_body L client schema_name audit_event).

Definition deserialize_body (L : Libs) (client : GlueSchemaRegistryClient)
    (schema_name : string) (data : bytes) : Res SalesforceAudit :=
  schema_response <- get_schema client schema_name ;;
  latest_version <- getitem schema_response "LatestSchemaVersion" ;;
  schema_version_response <- get_schema_version client schema_name latest_version ;;
  json_str <- decode_utf8 L data ;;
  data_dict <- json_loads L json_str ;;
  from_dict data_dict.

Definition deserialize (L : Libs) (client : GlueSchemaRegistryClient)
    (schema_name : string) (data : bytes) : Res SalesforceAudit :=
  except_Exception "Failed to deserialize JSON to SalesforceAudit: "
    (deserialize_body L client schema_name data).

End JsonSerializer.

(* ================================================================== *)
(** * A reference instance of the libraries                            *)
(* ================================================================== *)

(** An executable model of the library fragment the package exercises: JSON
    text, UTF-8 and the Avro binary encoding of flat records of strings and
    longs.  Text is limited to code points below 256 (one [ascii] each); a
    well-formed UTF-8 sequence for a larger code point is reported as a
    decode error here. *)
Module Ref.

(** ** Text and UTF-8 *)

Definition code (c : ascii) : Z := Z.of_N (N_of_ascii c).
Definition chr (n : Z) : ascii := ascii_of_N (Z.to_N n).

Definition byte_of_Z (n : Z) : byte :=
  match Byte.of_N (Z.to_N n) with
  | Some b => b
  | None => x00
  end.
Definition Z_of_byte (b : byte) : Z := Z.of_N (Byte.to_N b).

Fixpoint str_encode (s : string) : bytes :=
  match s with
  | EmptyString => []
  | String c rest =>
      let n := code c in
      if n <? 128 then byte_of_Z n :: str_encode rest
      else byte_of_Z (Z.lor 192 (Z.shiftr n 6))
             :: byte_of_Z (Z.lor 128 (Z.land n 63)) :: str_encode rest
  end.

Definition encode_utf8 (s : string) : Res bytes := Ok (str_encode s).

Fixpoint decode_utf8 (data : bytes) : Res string :=
  match data with
  | [] => Ok EmptyString
  | b :: rest =>
      let n := Z_of_byte b in
      if n <? 128 then
        s <- decode_utf8 rest ;; Ok (String (chr n) s)
      else if (n =? 194) || (n =? 195) then
        match rest with
        | b2 :: rest2 =>
            let m := Z_of_byte b2 in
            if Z.land m 192 =? 128 then
              s <- decode_utf8 rest2 ;;
              Ok (String (chr (Z.lor (Z.shiftl (Z.land n 31) 6) (Z.land m 63))) s)
            else Raise (mkExc UnicodeDecodeError "invalid continuation byte")
        | [] => Raise (mkExc UnicodeDecodeError "unexpected end of data")
        end
      else Raise (mkExc UnicodeDecodeError "invalid start byte")
  end.

(** ** json.dumps (default separators, ensure_ascii) *)

Definition dquote : string := String (chr 34) EmptyString.

Definition hex_digit (n : Z) : ascii :=
  if n <? 10 then chr (48 + n) else chr (87 + n).

Definition escape_char (c : ascii) : string :=
  let n := code c in
  if n =? 34 then String (chr 92) dquote
  else if n =? 92 then String (chr 92) (String (chr 92) EmptyString)
  else if n =? 10 then String (chr 92) "n"
  else if n =? 13 then String (chr 92) "r"
  else if n =? 9 then String (chr 92) "t"
  else if n =? 8 then String (chr 92) "b"
  else if n =? 12 then String (chr 92) "f"
  else if (32 <=? n) && (n <=? 126) then String c EmptyString
  else String (chr 92)
         (String "u"%char
            (String "0"%char
               (String "0"%char
                  (String (hex_digit (Z.shiftr n 4))
                     (String (hex_digit (Z.land n 15)) EmptyString))))).

Fixpoint escape (s : string) : string :=
  match s with
  | EmptyString => EmptyString
  | String c rest => escape_char c ++ escape rest
  end.

Definition quote (s : string) : string := dquote ++ escape s ++ dquote.

(** [str(n)] of an integer: its decimal digits, most significant first. *)
Fixpoint digits_of (fuel : nat) (n : Z) (acc : string) : string :=
  match fuel with
  | O => acc
  | S fuel' =>
      let acc' := String (chr (48 + n mod 10)) acc in
      if n <? 10 then acc' else digits_of fuel' (n / 10) acc'
  end.

Definition decimal (n : Z) : string :=
  digits_of (S (Z.to_nat (Z.log2 n))) n EmptyString.

Definition str_of_Z (z : Z) : string :=
  if z <? 0 then String "-"%char (decimal (- z)) else decimal z.

Fixpoint join (sep : string) (parts : list string) : string :=
  match parts with
  | [] => EmptyString
  | [p] => p
  | p :: rest => p ++ sep ++ join sep rest
  end.

Fixpoint dumps (v : PyVal) : string :=
  match v with
  | PNone => "null"
  | PBool true => "true"
  | PBool false => "false"
  | PInt z => str_of_Z z
  | PFloat lit => lit
  | PStr s => quote s
  | PList xs => "[" ++ join ", " (map dumps xs) ++ "]"
  | PDict items =>
      "{" ++ join ", " (map (fun kv => match kv with
                                       | (k, w) => quote k ++ ": " ++ dumps w
                                       end) items) ++ "}"
  end.

Definition json_dumps (v : PyVal) : Res string := Ok (dumps v).

(** ** json.loads *)

Definition decode_error {A : Type} (msg : string) : Res A :=
  Raise (mkExc JSONDecodeError msg).

Definition is_ws (c : ascii) : bool :=
  let n := code c in (n =? 32) || (n =? 9) || (n =? 10) || (n =? 13).

Fixpoint skip_ws (s : string) : string :=
  match s with
  | String c rest => if is_ws c then skip_ws rest else s
  | EmptyString => s
  end.

Definition is_digit (c : ascii) : bool := (48 <=? code c) && (code c <=? 57).

Definition hex_value (c : ascii) : option Z :=
  let n := code c in
  if (48 <=? n) && (n <=? 57) then Some (n - 48)
  else if (97 <=? n) && (n <=? 102) then Some (n - 87)
  else if (65 <=? n) && (n <=? 70) then Some (n - 55)
  else None.

(** The character a one-letter escape stands for. *)
Definition unescape (n : Z) : option ascii :=
  if n =? 34 then Some (chr 34)
  else if n =? 92 then Some (chr 92)
  else if n =? 47 then Some (chr 47)
  else if n =? 98 then Some (chr 8)
  else if n =? 102 then Some (chr 12)
  else if n =? 110 then Some (chr 10)
  else if n =? 114 then Some (chr 13)
  else if n =? 116 then Some (chr 9)
  else None.

(** The body of a string literal, after its opening quote: the decoded text
    and what follows the closing quote. *)
Fixpoint scan_string (s : string) : Res (string * string) :=
  match s with
  | EmptyString => decode_error "Unterminated string starting at"
  | String c rest =>
      let n := code c in
      if n =? 34 then Ok (EmptyString, rest)
      else if n =? 92 then
        match rest with
        | EmptyString => decode_error "Unterminated string starting at"
        | String e rest2 =>
            if code e =? 117 then
              match rest2 with
              | String h1 (String h2 (String h3 (String h4 rest3))) =>
                  match hex_value h1, hex_value h2, hex_value h3, hex_value h4 with
                  | Some a, Some b, Some c3, Some d =>
                      let cp := ((a * 16 + b) * 16 + c3) * 16 + d in
                      if cp <? 256 then
                        p <- scan_string rest3 ;;
                        Ok (String (chr cp) (fst p), snd p)
                      else Raise (mkExc UnicodeDecodeError
                                    "code point outside the modelled text")
                  | _, _, _, _ => decode_error "Invalid \uXXXX escape"
                  end
              | _ => decode_error "Invalid \uXXXX escape"
              end
            else
              match unescape (code e) with
              | Some ch => p <- scan_string rest2 ;; Ok (String ch (fst p), snd p)
              | None => decode_error "Invalid \escape"
              end
        end
      else if n <? 32 then decode_error "Invalid control character at"
      else p <- scan_string rest ;; Ok (String c (fst p), snd p)
  end.

Fixpoint take_digits (s : string) : string * string :=
  match s with
  | String c rest =>
      if is_digit c
      then let p := take_digits rest in (String c (fst p), snd p)
      else (EmptyString, s)
  | EmptyString => (EmptyString, EmptyString)
  end.

Fixpoint digits_value (acc : Z) (s : string) : Z :=
  match s with
  | String c rest => digits_value (acc * 10 + (code c - 48)) rest
  | EmptyString => acc
  end.

Fixpoint strip_prefix (p s : string) : option string :=
  match p, s with
  | EmptyString, _ => Some s
  | String a p', String b s' => if Ascii.eqb a b then strip_prefix p' s' else None
  | String _ _, EmptyString => None
  end.

(** A number literal: an optional minus sign, an integer part (a lone zero,
    or digits not starting with zero), an optional fraction and an optional
    exponent; an [int] when it has neither fraction nor exponent. *)
Definition scan_number (s : string) : Res (PyVal * string) :=
  let neg := match strip_prefix "-" s with Some _ => true | None => false end in
  let s1 := match strip_prefix "-" s with Some r => r | None => s end in
  let ds := take_digits s1 in
  match fst ds with
  | EmptyString => decode_error "Expecting value"
  | String d0 more =>
      let ipart := if code d0 =? 48 then "0" else fst ds in
      let s2 := if code d0 =? 48 then more ++ snd ds else snd ds in
      let fr :=
        match strip_prefix "." s2 with
        | Some r =>
            let fs := take_digits r in
            match fst fs with
            | EmptyString => (EmptyString, s2)
            | _ => ("." ++ fst fs, snd fs)
            end
        | None => (EmptyString, s2)
        end in
      let s3 := snd fr in
      let ex :=
        match s3 with
        | String e r =>
            if (code e =? 101) || (code e =? 69) then
              let sign := match r with
                          | String g r' =>
                              if (code g =? 43) || (code g =? 45)
                              then (String g EmptyString, r')
                              else (EmptyString, r)
                          | EmptyString => (EmptyString, r)
                          end in
              let es := take_digits (snd sign) in
              match fst es with
              | EmptyString => (EmptyString, s3)
              | _ => (String e (fst sign ++ fst es), snd es)
              end
            else (EmptyString, s3)
        | EmptyString => (EmptyString, s3)
        end in
      match fst fr, fst ex with
      | EmptyString, EmptyString =>
          let v := digits_value 0 ipart in
          Ok (PInt (if neg then - v else v), snd ex)
      | _, _ =>
          Ok (PFloat ((if neg then "-" else EmptyString) ++ ipart ++ fst fr ++ fst ex),
              snd ex)
      end
  end.

Definition scan_literal (s : string) : Res (PyVal * string) :=
  match strip_prefix "true" s with
  | Some r => Ok (PBool true, r)
  | None =>
  match strip_prefix "false" s with
  | Some r => Ok (PBool false, r)
  | None =>
  match strip_prefix "null" s with
  | Some r => Ok (PNone, r)
  | None =>
  match strip_prefix "NaN" s with
  | Some r => Ok (PFloat "NaN", r)
  | None =>
  match strip_prefix "Infinity" s with
  | Some r => Ok (PFloat "Infinity", r)
  | None =>
  match strip_prefix "-Infinity" s with
  | Some r => Ok (PFloat "-Infinity", r)
  | None => scan_number s
  end end end end end end.

Definition too_deep {A : Type} : Res A :=
  Raise (mkExc RecursionError "maximum recursion depth exceeded").

Fixpoint parse_value (fuel : nat) (s : string) {struct fuel}
  : Res (PyVal * string) :=
  match fuel with
  | O => too_deep
  | S fuel' =>
      match s with
      | EmptyString => decode_error "Expecting value"
      | String c rest =>
          let n := code c in
          if n =? 34 then
            p <- scan_string rest ;; Ok (PStr (fst p), snd p)
          else if n =? 123 then
            match skip_ws rest with
            | String c2 r2 =>
                if code c2 =? 125 then Ok (PDict [], r2)
                else parse_members fuel' [] (skip_ws rest)
            | EmptyString =>
                decode_error "Expecting property name enclosed in double quotes"
            end
          else if n =? 91 then
            match skip_ws rest with
            | String c2 r2 =>
                if code c2 =? 93 then Ok (PList [], r2)
                else parse_elements fuel' [] (skip_ws rest)
            | EmptyString => decode_error "Expecting value"
            end
          else scan_literal s
      end
  end

with parse_members (fuel : nat) (acc : list (string * PyVal)) (s : string)
       {struct fuel} : Res (PyVal * string) :=
  match fuel with
  | O => too_deep
  | S fuel' =>
      match s with
      | EmptyString =>
          decode_error "Expecting property name enclosed in double quotes"
      | String c rest =>
          if code c =? 34 then
            k <- scan_string rest ;;
            match skip_ws (snd k) with
            | EmptyString => decode_error "Expecting ':' delimiter"
            | String c2 r2 =>
                if code c2 =? 58 then
                  v <- parse_value fuel' (skip_ws r2) ;;
                  let acc' := store acc (fst k) (fst v) in
                  match skip_ws (snd v) with
                  | EmptyString => decode_error "Expecting ',' delimiter"
                  | String c3 r3 =>
                      if code c3 =? 44 then parse_members fuel' acc' (skip_ws r3)
                      else if code c3 =? 125 then Ok (PDict acc', r3)
                      else decode_error "Expecting ',' delimiter"
                  end
                else decode_error "Expecting ':' delimiter"
            end
          else decode_error "Expecting property name enclosed in double quotes"
      end
  end

with parse_elements (fuel : nat) (acc : list PyVal) (s : string)
       {struct fuel} : Res (PyVal * string) :=
  match fuel with
  | O => too_deep
  | S fuel' =>
      v <- parse_value fuel' s ;;
      match skip_ws (snd v) with
      | EmptyString => decode_error "Expecting ',' delimiter"
      | String c3 r3 =>
          if code c3 =? 44 then parse_elements fuel' (acc ++ [fst v]) (skip_ws r3)
          else if code c3 =? 93 then Ok (PList (acc ++ [fst v]), r3)
          else decode_error "Expecting ',' delimiter"
      end
  end.

Definition json_loads (s : string) : Res PyVal :=
  p <- parse_value (2 * String.length s + 2) (skip_ws s) ;;
  match skip_ws (snd p) with
  | EmptyString => Ok (fst p)
  | String _ _ => decode_error "Extra data"
  end.

(** JSON text written with single quotes in place of double quotes, to keep
    literals readable: [json_text "{'a': 1}"] is the text [{"a": 1}]. *)
Fixpoint json_text (s : string) : string :=
  match s with
  | EmptyString => EmptyString
  | String c rest =>
      String (if code c =? 39 then chr 34 else c) (json_text rest)
  end.

(** ** fastavro: schemas, the schemaless writer and reader *)

Inductive AvroType : Type :=
| AvString
| AvLong
| AvInt
| AvBoolean.

(** A parsed schema: a primitive type, or a record of named primitive
    fields in declaration order. *)
Inductive AvroSchema : Type :=
| SPrimitive (t : AvroType)
| SRecord (name : string) (fields : list (string * AvroType)).

Definition schema_error {A : Type} (msg : string) : Res A :=
  Raise (mkExc SchemaParseException msg).

Definition primitive_of (v : PyVal) : Res AvroType :=
  match v with
  | PStr s =>
      if String.eqb s "string" then Ok AvString
      else if String.eqb s "long" then Ok AvLong
      else if String.eqb s "int" then Ok AvInt
      else if String.eqb s "boolean" then Ok AvBoolean
      else schema_error ("Unknown type: " ++ s)
  | _ => schema_error "Unknown type"
  end.

Fixpoint parse_fields (fs : list PyVal) : Res (list (string * AvroType)) :=
  match fs with
  | [] => Ok []
  | f :: rest =>
      match f with
      | PDict items =>
          match lookup items "name", lookup items "type" with
          | Some (PStr n), Some ty =>
              t <- primitive_of ty ;;
              more <- parse_fields rest ;;
              Ok ((n, t) :: more)
          | _, _ => schema_error "record field requires a name and a type"
          end
      | _ => schema_error "record field must be an object"
      end
  end.

Definition parse_schema (v : PyVal) : Res AvroSchema :=
  match v with
  | PStr _ => t <- primitive_of v ;; Ok (SPrimitive t)
  | PDict items =>
      match lookup items "type" with
      | Some (PStr ty) =>
          if String.eqb ty "record" then
            match lookup items "name", lookup items "fields" with
            | Some (PStr n), Some (PList fs) =>
                fields <- parse_fields fs ;; Ok (SRecord n fields)
            | _, _ => schema_error "record schema requires a name and fields"
            end
          else t <- primitive_of (PStr ty) ;; Ok (SPrimitive t)
      | _ => schema_error "schema requires a type"
      end
  | _ => schema_error "Unknown type"
  end.

(** Variable-length zig-zag coding of a 64-bit [long]. *)
Fixpoint write_varint (fuel : nat) (n : Z) : bytes :=
  match fuel with
  | O => []
  | S fuel' =>
      if Z.land n (Z.lnot 127) =? 0 then [byte_of_Z n]
      else byte_of_Z (Z.lor (Z.land n 127) 128)
             :: write_varint fuel' (Z.shiftr n 7)
  end.

Definition zigzag (n : Z) : Z := Z.lxor (Z.shiftl n 1) (Z.shiftr n 63).
Definition unzigzag (n : Z) : Z := Z.lxor (Z.shiftr n 1) (- Z.land n 1).

Definition write_long (n : Z) : Res bytes :=
  if (- 2 ^ 63 <=? n) && (n <? 2 ^ 63)
  then Ok (write_varint 10 (zigzag n))
  else Raise (mkExc OverflowError "Python int too large to convert to C long").

Definition write_int (n : Z) : Res bytes :=
  if (- 2 ^ 31 <=? n) && (n <? 2 ^ 31)
  then Ok (write_varint 10 (zigzag n))
  else Raise (mkExc OverflowError "value too large to convert to int").

Definition write_data (t : AvroType) (v : PyVal) : Res bytes :=
  match t with
  | AvString =>
      match v with
      | PStr s =>
          let payload := str_encode s in
          len <- write_long (Z.of_nat (List.length payload)) ;;
          Ok (len ++ payload)%list
      | _ => Raise (mkExc TypeError
                      ("expected str, got " ++ type_name v))
      end
  | AvLong =>
      if isinstance_int v then write_long (int_value v)
      else Raise (mkExc TypeError ("an integer is required, got " ++ type_name v))
  | AvInt =>
      if isinstance_int v then write_int (int_value v)
      else Raise (mkExc TypeError ("an integer is required, got " ++ type_name v))
  | AvBoolean =>
      match v with
      | PBool true => Ok [x01]
      | PBool false => Ok [x00]
      | _ => Raise (mkExc TypeError ("expected bool, got " ++ type_name v))
      end
  end.

(** Fields are written in schema order, each looked up by name in the
    datum; keys of the datum the schema does not name are ignored. *)
Fixpoint write_record (fields : list (string * AvroType))
    (datum : list (string * PyVal)) : Res bytes :=
  match fields with
  | [] => Ok []
  | (name, t) :: rest =>
      match lookup datum name with
      | None => Raise (mkExc ValueError ("no value and no default for " ++ name))
      | Some v =>
          b <- write_data t v ;;
          more <- write_record rest datum ;;
          Ok (b ++ more)%list
      end
  end.

Definition schemaless_writer (schema : AvroSchema) (record : PyVal) : Res bytes :=
  match schema with
  | SPrimitive t => write_data t record
  | SRecord _ fields =>
      match record with
      | PDict datum => write_record fields datum
      | _ => Raise (mkExc TypeError ("expected a mapping, got " ++ type_name record))
      end
  end.

Definition eof {A : Type} : Res A :=
  Raise (mkExc EOFError "read past the end of the data").

(** Reads one varint: the accumulated value and the bytes left. *)
Fixpoint read_varint (data : bytes) (shift : Z) (acc : Z) : Res (Z * bytes) :=
  match data with
  | [] => eof
  | b :: rest =>
      let n := Z_of_byte b in
      let acc' := Z.lor acc (Z.shiftl (Z.land n 127) shift) in
      if Z.land n 128 =? 0 then Ok (acc', rest)
      else read_varint rest (shift + 7) acc'
  end.

Definition read_long (data : bytes) : Res (Z * bytes) :=
  p <- read_varint data 0 0 ;;
  Ok (unzigzag (fst p), snd p).

Definition read_data (t : AvroType) (data : bytes) : Res (PyVal * bytes) :=
  match t with
  | AvString =>
      p <- read_long data ;;
      let size := fst p in
      if (size <? 0) || (Z.of_nat (List.length (snd p)) <? size) then eof
      else
        s <- decode_utf8 (firstn (Z.to_nat size) (snd p)) ;;
        Ok (PStr s, skipn (Z.to_nat size) (snd p))
  | AvLong | AvInt =>
      p <- read_long data ;; Ok (PInt (fst p), snd p)
  | AvBoolean =>
      match data with
      | [] => eof
      | b :: rest => Ok (PBool (negb (Z_of_byte b =? 0)), rest)
      end
  end.

Fixpoint read_record (fields : list (string * AvroType)) (data : bytes)
  : Res (list (string * PyVal) * bytes) :=
  match fields with
  | [] => Ok ([], data)
  | (name, t) :: rest =>
      v <- read_data t data ;;
      more <- read_record rest (snd v) ;;
      Ok ((name, fst v) :: fst more, snd more)
  end.

(** Bytes left after the datum are not an error: the reader stops there. *)
Definition schemaless_reader (schema : AvroSchema) (data : bytes) : Res PyVal :=
  match schema with
  | SPrimitive t => p <- read_data t data ;; Ok (fst p)
  | SRecord _ fields => p <- read_record fields data ;; Ok (PDict (fst p))
  end.

Definition libs : Libs :=
  mkLibs AvroSchema json_loads json_dumps encode_utf8 decode_utf8
    parse_schema schemaless_writer schemaless_reader.

(** ** An in-memory registry behind the boto3 calls *)

(** Each schema of the registry: its name, its latest version number and the
    definition text of that version. *)
Definition Registry : Type := list (string * (Z * string)).

Fixpoint find_schema (reg : Registry) (name : string) : option (Z * string) :=
  match reg with
  | [] => None
  | (n, entry) :: rest => if String.eqb n name then Some entry else find_schema rest name
  end.

Definition not_found {A : Type} (operation : string) : Res A :=
  Raise (mkExc (ClientError "EntityNotFoundException")
           ("An error occurred (EntityNotFoundException) when calling the "
              ++ operation ++ " operation: Schema is not found.")).

Definition glue (reg : Registry) : GlueClient :=
  {| boto_get_schema := fun _ name =>
       match find_schema reg name with
       | Some (ver, _) =>
           Ok (PDict [("SchemaName", PStr name); ("LatestSchemaVersion", PInt ver)])
       | None => not_found "GetSchema"
       end;
     boto_get_schema_version := fun _ name version =>
       match find_schema reg name with
       | Some (ver, text) =>
           if isinstance_int version && (int_value version =? ver)
           then Ok (PDict [("SchemaDefinition", PStr text);
                           ("VersionNumber", PInt ver)])
           else not_found "GetSchemaVersion"
       | None => not_found "GetSchemaVersion"
       end |}.

Definition client_of (reg : Registry) : GlueSchemaRegistryClient :=
  {| registry_name := "glue-schema-registry"; glue_client := glue reg |}.

(** A boto3 client whose calls cannot reach the service endpoint. *)
Definition unreachable_glue : GlueClient :=
  {| boto_get_schema := fun _ _ =>
       Raise (mkExc (BotoCoreError "EndpointConnectionError")
                "Could not connect to the endpoint URL");
     boto_get_schema_version := fun _ _ _ =>
       Raise (mkExc (BotoCoreError "EndpointConnectionError")
                "Could not connect to the endpoint URL") |}.

(** A boto3 client that loses the endpoint after [get_schema] has returned. *)
Definition disconnecting_glue (reg : Registry) : GlueClient :=
  {| boto_get_schema := boto_get_schema (glue reg);
     boto_get_schema_version := boto_get_schema_version unreachable_glue |}.

(** The record schema of the four wire names. *)
Definition audit_schema_text : string :=
  json_text
    "{'type': 'record', 'name': 'SalesforceAudit', 'fields': [{'name': 'eventId', 'type': 'string'}, {'name': 'eventName', 'type': 'string'}, {'name': 'timestamp', 'type': 'long'}, {'name': 'eventDetails', 'type': 'string'}]}".

(** A record schema that declares [eventId] only. *)
Definition id_only_schema_text : string :=
  json_text
    "{'type': 'record', 'name': 'SalesforceAudit', 'fields': [{'name': 'eventId', 'type': 'string'}]}".

Definition registry : Registry :=
  [ ("SalesforceAudit", (1, audit_schema_text));
    ("SalesAuditJSON", (1, json_text "{'type': 'object'}"));
    ("IdOnly", (3, id_only_schema_text)) ].

End Ref.

(* ================================================================== *)
(** * The schema fetch shared by the four serializer methods           *)
(* ================================================================== *)

(** The first three statements of every [try] block: [get_schema], the
    [LatestSchemaVersion] entry, [get_schema_version]. *)
Definition fetch_version (client : GlueSchemaRegistryClient) (schema_name : string)
  : Res PyVal :=
  schema_response <- get_schema client schema_name ;;
  latest_version <- getitem schema_response "LatestSchemaVersion" ;;
  get_schema_version client schema_name latest_version.

(** The fourth statement of the two [AvroSerializer] methods added: the
    [SchemaDefinition] entry of the version response. *)
Definition fetch_definition (client : GlueSchemaRegistryClient)
    (schema_name : string) : Res PyVal :=
  schema_version_response <- fetch_version client schema_name ;;
  getitem schema_version_response "SchemaDefinition".

(** The wire names of the four Record fields, in the order of the dict
    literals. *)
Definition wire_names : list string :=
  ["eventId"; "eventName"; "timestamp"; "eventDetails"].

(** [d.get(key, default)] on the items of a dict. *)
Definition lookup_default (items : list (string * PyVal)) (key : string)
    (default : PyVal) : PyVal :=
  match lookup items key with
  | Some v => v
  | None => default
  end.





(* ================================================================== *)
(** * Record objects in a store                                        *)
(* ================================================================== *)

(** A [SalesforceAudit] instance is a mutable Python object (the dataclass
    is not frozen), passed by reference.  The store holds the instances in
    allocation order; [Op] lists the operations of the package and the
    attribute assignment that Python gives every holder of a reference, and
    [step] runs one of them on the store. *)
Module Runtime.

Definition Heap : Type := list SalesforceAudit.
Definition addr : Type := nat.

(** The four attributes the dataclass declares. *)
Inductive Field : Type :=
| F_event_id
| F_event_name
| F_timestamp
| F_event_details.

(** [self.<field> = v]: the dataclass defines no [__setattr__], so the value
    is stored as given and [__post_init__] is not run again. *)
Definition setattr (rec : SalesforceAudit) (f : Field) (v : PyVal)
  : SalesforceAudit :=
  match f with
  | F_event_id =>
      mkSalesforceAudit v (event_name rec) (timestamp rec) (event_details rec)
  | F_event_name =>
      mkSalesforceAudit (event_id rec) v (timestamp rec) (event_details rec)
  | F_timestamp =>
      mkSalesforceAudit (event_id rec) (event_name rec) v (event_details rec)
  | F_event_details =>
      mkSalesforceAudit (event_id rec) (event_name rec) (timestamp rec) v
  end.

(** The store with the instance at [a] replaced. *)
Fixpoint store_at (h : Heap) (a : addr) (rec : SalesforceAudit) : Heap :=
  match h, a with
  | [], _ => []
  | _ :: rest, O => rec :: rest
  | x :: rest, S a' => x :: store_at rest a' rec
  end.

Inductive Op : Type :=
| Assign (self : addr) (field : Field) (v : PyVal)
| CallNew (event_id event_name timestamp event_details : PyVal)
| CallToDict (self : addr)
| CallFromDict (data : PyVal)
| CallGetSchema (c : GlueSchemaRegistryClient) (schema_name : string)
| CallGetSchemaVersion (c : GlueSchemaRegistryClient) (schema_name : string)
    (version_number : PyVal)
| CallAvroSerialize (c : GlueSchemaRegistryClient) (schema_name : string)
    (audit_event : addr)
| CallAvroDeserialize (c : GlueSchemaRegistryClient) (schema_name : string)
    (data : bytes)
| CallJsonSerialize (c : GlueSchemaRegistryClient) (schema_name : string)
    (audit_event : addr)
| CallJsonDeserialize (c : GlueSchemaRegistryClient) (schema_name : string)
    (data : bytes).

Inductive Outcome : Type :=
| Returned (v : PyVal)
| ReturnedBytes (b : bytes)
| ReturnedRecord (a : addr)
| Raised (e : PyExc)
| Dangling.

(** A constructor call that returns allocates the new instance; one that
    raises leaves the store as it was. *)
Definition alloc (h : Heap) (r : Res SalesforceAudit) : Heap * Outcome :=
  match r with
  | Ok rec => ((h ++ [rec])%list, ReturnedRecord (List.length h))
  | Raise e => (h, Raised e)
  end.

Definition of_value (r : Res PyVal) : Outcome :=
  match r with
  | Ok v => Returned v
  | Raise e => Raised e
  end.

Definition of_bytes (r : Res bytes) : Outcome :=
  match r with
  | Ok b => ReturnedBytes b
  | Raise e => Raised e
  end.

(** A method that only reads the attributes of [self]. *)
Definition reading (h : Heap) (self : addr) (k : SalesforceAudit -> Outcome)
  : Heap * Outcome :=
  match nth_error h self with
  | Some rec => (h, k rec)
  | None => (h, Dangling)
  end.

(** An assignment to an attribute of [self]. *)
Definition assigning (h : Heap) (self : addr) (f : Field) (v : PyVal)
  : Heap * Outcome :=
  match nth_error h self with
  | Some rec => (store_at h self (setattr rec f v), Returned PNone)
  | None => (h, Dangling)
  end.

Definition step (L : Libs) (h : Heap) (op : Op) : Heap * Outcome :=
  match op with
  | Assign self f v => assigning h self f v
  | CallNew a b t d => alloc h (model.new a b t d)
  | CallToDict self => reading h self (fun rec => Returned (to_dict rec))
  | CallFromDict data => alloc h (from_dict data)
  | CallGetSchema c n => (h, of_value (get_schema c n))
  | CallGetSchemaVersion c n v => (h, of_value (get_schema_version c n v))
  | CallAvroSerialize c n self =>
      reading h self (fun rec => of_bytes (AvroSerializer.serialize L c n rec))
  | CallAvroDeserialize c n data =>
      alloc h (AvroSerializer.deserialize L c n data)
  | CallJsonSerialize c n self =>
      reading h self (fun rec => of_bytes (JsonSerializer.serialize L c n rec))
  | CallJsonDeserialize c n data =>
      alloc h (JsonSerializer.deserialize L c n data)
  end.

Fixpoint run (L : Libs) (h : Heap) (ops : list Op) : Heap :=
  match ops with
  | [] => h
  | op :: rest => run L (fst (step L h op)) rest
  end.

Definition valid (rec : SalesforceAudit) : Prop :=
  valid_timestamp (timestamp rec) = true.

(** The operations that are calls into the package: all but the attribute
    assignment. *)
Definition package_op (op : Op) : bool :=
  match op with
  | Assign _ _ _ => false
  | _ => true
  end.

End Runtime.

(* ================================================================== *)
(** * client.py: the remaining methods                                 *)
(* ================================================================== *)

Module registry.

(** [class Compatibility(Enum)] *)
Inductive Compatibility : Type :=
| BACKWARD
| BACKWARD_ALL
| DISABLED
| FORWARD
| FORWARD_ALL
| FULL
| FULL_ALL
| NONE.

(** [compatibility.value] *)
Definition value (c : Compatibility) : string :=
  match c with
  | BACKWARD => "BACKWARD"
  | BACKWARD_ALL => "BACKWARD_ALL"
  | DISABLED => "DISABLED"
  | FORWARD => "FORWARD"
  | FORWARD_ALL => "FORWARD_ALL"
  | FULL => "FULL"
  | FULL_ALL => "FULL_ALL"
  | NONE => "NONE"
  end.

(** The other calls of the boto3 [glue] client.  The arguments are, in
    order: [RegistryName]; then [SchemaName], [DataFormat],
    [SchemaDefinition] and [Compatibility] for [create_schema];
    [SchemaName], [Compatibility] and [Description] for [update_schema];
    [SchemaName] and [SchemaDefinition] for [register_schema_version]. *)
Record GlueAdmin : Type := mkGlueAdmin {
  boto_create_schema : string -> string -> string -> string -> string -> Res PyVal;
  boto_list_schemas : string -> Res PyVal;
  boto_update_schema : string -> string -> string -> PyVal -> Res PyVal;
  boto_register_schema_version : string -> string -> string -> Res PyVal
}.

(** A [GlueSchemaRegistryClient] seen with all the calls of its boto3
    client: [this] carries [registry_name] and the two calls of
    [get_schema] and [get_schema_version]. *)
Record Client : Type := mkFullClient {
  this : GlueSchemaRegistryClient;
  glue_admin : GlueAdmin
}.

Section create.

(** [str.upper] *)
Variable upper : string -> string.

Definition create_schema (self : Client)
    (schema_name data_format schema_definition : string)
    (compatibility : Compatibility) : Res PyVal :=
  except_ClientError "Failed to create schema: "
    (boto_create_schema (glue_admin self) (registry_name (this self))
       schema_name (upper data_format) schema_definition (value compatibility)).

End create.

Definition list_schemas (self : Client) : Res PyVal :=
  except_ClientError "Failed to list schemas: "
    (response <- boto_list_schemas (glue_admin self) (registry_name (this self)) ;;
     get response "Schemas" (PList [])).

Definition update_schema_compatibility (self : Client) (schema_name : string)
    (compatibility : Compatibility) : Res PyVal :=
  except_ClientError "Failed to update schema compatibility: "
    (schema <- get_schema (this self) schema_name ;;
     description <- get schema "Description" (PStr "") ;;
     boto_update_schema (glue_admin self) (registry_name (this self))
       schema_name (value compatibility) description).

Definition register_schema_version (self : Client)
    (schema_name schema_definition : string) : Res PyVal :=
  except_ClientError "Failed to register schema version: "
    (boto_register_schema_version (glue_admin self) (registry_name (this self))
       schema_name schema_definition).

(** [close]: nothing to release. *)
Definition close (self : Client) : unit := tt.

End registry.

(** The first wire name, in the order [AvroSerializer.deserialize]
    subscripts the decoded row, that the row does not hold. *)
Definition first_missing (items : list (string * PyVal)) : option string :=
  find (fun k => match lookup items k with
                 | Some _ => false
                 | None => true
                 end) wire_names.

(* ================================================================== *)
(** * tests/test_config.py                                             *)
(* ================================================================== *)

Module test_config.

(** [configparser], as far as [TestConfig] uses it: a fresh parser; [read]
    on the text of a file, which fills the parser in place and may raise
    after filling part of it; and [get] with a fallback. *)
Record ConfigLib : Type := mkConfigLib {
  Parser : Type;
  Error : Type;
  ConfigParser : Parser;
  parser_read : Parser -> string -> Parser * option Error;
  parser_get : Parser -> string -> string -> string -> string + Error
}.

(** [os.getenv] *)
Definition Env : Type := string -> option string.

(** What a call sees outside the class: the environment, and the text of
    [test-config.ini] when the file exists. *)
Record World : Type := mkWorld {
  getenv : Env;
  config_file : option string
}.

Section TestConfig.

Variable C : ConfigLib.

(** The class attribute [_config]: [None] until the first load. *)
Definition State : Type := option (Parser C).

(** [cls._config] is bound to the new parser before the file is read, so it
    stays bound when [read] raises. *)
Definition _load_config (w : World) (st : State)
  : (Parser C + Error C) * State :=
  match st with
  | Some config => (inl config, st)
  | None =>
      match config_file w with
      | Some text =>
          let r := parser_read C (ConfigParser C) text in
          match snd r with
          | None => (inl (fst r), Some (fst r))
          | Some e => (inr e, Some (fst r))
          end
      | None => (inl (ConfigParser C), Some (ConfigParser C))
      end
  end.

Definition get_registry_name (w : World) (st : State)
  : (string + Error C) * State :=
  match getenv w "GLUE_REGISTRY_NAME" with
  | Some (String c rest) => (inl (String c rest), st)
  | _ =>
      let r := _load_config w st in
      match fst r with
      | inl config =>
          (parser_get C config "test" "glue.registry.name"
             "glue-schema-registry-ansumanroy-6219", snd r)
      | inr e => (inr e, snd r)
      end
  end.

Definition get_aws_region (w : World) (st : State)
  : (string + Error C) * State :=
  match getenv w "AWS_REGION" with
  | Some (String c rest) => (inl (String c rest), st)
  | _ =>
      let r := _load_config w st in
      match fst r with
      | inl config => (parser_get C config "test" "aws.region" "us-east-1", snd r)
      | inr e => (inr e, snd r)
      end
  end.

Definition get_avro_schema_name (w : World) (st : State)
  : (string + Error C) * State :=
  match getenv w "SCHEMA_NAME_AVRO" with
  | Some (String c rest) => (inl (String c rest), st)
  | _ =>
      let r := _load_config w st in
      match fst r with
      | inl config =>
          (parser_get C config "test" "schema.name.avro" "SalesforceAudit", snd r)
      | inr e => (inr e, snd r)
      end
  end.

Definition get_json_schema_name (w : World) (st : State)
  : (string + Error C) * State :=
  match getenv w "SCHEMA_NAME_JSON" with
  | Some (String c rest) => (inl (String c rest), st)
  | _ =>
      let r := _load_config w st in
      match fst r with
      | inl config =>
          (parser_get C config "test" "schema.name.json" "SalesAuditJSON", snd r)
      | inr e => (inr e, snd r)
      end
  end.

End TestConfig.

(** A reader for the plain fragment of INI files that [configparser] reads
    with its default settings: section headers, [key = value] lines, comment
    lines, the [DEFAULT] section, option names in lower case, a section or
    an option repeated in one file refused.  Left out: indented continuation
    lines and values with a percent sign (interpolation).

    While a file is read, the value of an option is a list of lines; [read]
    joins the lists to strings after the last line, before it reports the
    lines it could not parse.  An error that stops the reading at a line
    leaves the values read so far unjoined, and an unjoined value makes a
    later [get] raise [AttributeError]. *)
Module Ini.

Inductive IniError : Type :=
| MissingSectionHeaderError (line : string)
| DuplicateSectionError (section : string)
| DuplicateOptionError (section option : string)
| ParsingError (lines : list string)
| AttributeError (msg : string).

(** The value of an option: a string, or the line of a value that was read
    and has not been joined. *)
Inductive Value : Type :=
| Joined (s : string)
| Unjoined (line : string).

Definition Content : Type := list (string * list (string * Value)).

Fixpoint split_lines (s : string) : list string :=
  match s with
  | EmptyString => [EmptyString]
  | String c rest =>
      if Ref.code c =? 10 then EmptyString :: split_lines rest
      else match split_lines rest with
           | l :: ls => String c l :: ls
           | [] => [String c EmptyString]
           end
  end.

(** [str.isspace] on one character. *)
Definition is_space (c : ascii) : bool :=
  let n := Ref.code c in
  ((9 <=? n) && (n <=? 13)) || ((28 <=? n) && (n <=? 32))
  || (n =? 133) || (n =? 160).

Fixpoint lstrip (s : string) : string :=
  match s with
  | String c rest => if is_space c then lstrip rest else s
  | EmptyString => s
  end.

Fixpoint rstrip (s : string) : string :=
  match s with
  | EmptyString => EmptyString
  | String c rest =>
      match rstrip rest with
      | EmptyString => if is_space c then EmptyString else String c EmptyString
      | r => String c r
      end
  end.

Definition strip (s : string) : string := rstrip (lstrip s).

(** [optionxform]: [str.lower]. *)
Definition lower_char (c : ascii) : ascii :=
  let n := Ref.code c in
  if ((65 <=? n) && (n <=? 90))
     || ((192 <=? n) && (n <=? 222) && negb (n =? 215))
  then Ref.chr (n + 32)
  else c.

Fixpoint lower (s : string) : string :=
  match s with
  | EmptyString => EmptyString
  | String c rest => String (lower_char c) (lower rest)
  end.

(** Splits a line at its first [=] or [:]. *)
Fixpoint split_at_delimiter (s : string) : option (string * string) :=
  match s with
  | EmptyString => None
  | String c rest =>
      if (Ref.code c =? 61) || (Ref.code c =? 58) then Some (EmptyString, rest)
      else match split_at_delimiter rest with
           | Some kv => Some (String c (fst kv), snd kv)
           | None => None
           end
  end.

(** The text before the last closing bracket of a section header. *)
Fixpoint until_bracket (s : string) : option string :=
  match s with
  | EmptyString => None
  | String c rest =>
      match until_bracket rest with
      | Some n => Some (String c n)
      | None => if Ref.code c =? 93 then Some EmptyString else None
      end
  end.

(** The name of the section a stripped line opens, if it is a header: an
    opening bracket, a name that is not empty, a closing bracket. *)
Definition header_of (line : string) : option string :=
  match line with
  | String c body =>
      if Ref.code c =? 91 then
        match until_bracket body with
        | Some (String h name) => Some (String h name)
        | _ => None
        end
      else None
  | EmptyString => None
  end.

Fixpoint find_section (content : Content) (name : string)
  : option (list (string * Value)) :=
  match content with
  | [] => None
  | (n, opts) :: rest =>
      if String.eqb n name then Some opts else find_section rest name
  end.

Fixpoint find_option (opts : list (string * Value)) (key : string)
  : option Value :=
  match opts with
  | [] => None
  | (k, v) :: rest => if String.eqb k key then Some v else find_option rest key
  end.

Fixpoint set_option (content : Content) (section key : string) (v : Value)
  : Content :=
  match content with
  | [] => []
  | (n, opts) :: rest =>
      if String.eqb n section then (n, (key, v) :: opts) :: rest
      else (n, opts) :: set_option rest section key v
  end.

(** The section of a header line: an existing one is taken up again, a new
    one is added empty. *)
Definition open_section (content : Content) (name : string) : Content :=
  match find_section content name with
  | Some _ => content
  | None => (content ++ [(name, [])])%list
  end.

Definition handle_error (pending : option IniError) (line : string)
  : option IniError :=
  match pending with
  | Some (ParsingError lines) => Some (ParsingError (lines ++ [line])%list)
  | Some e => Some e
  | None => Some (ParsingError [line])
  end.

Definition mem (x : string) (l : list string) : bool :=
  existsb (String.eqb x) l.

Definition mem_option (s k : string) (l : list (string * string)) : bool :=
  existsb (fun p => String.eqb (fst p) s && String.eqb (snd p) k) l.

(** The loop of [_read].  [sections] and [options] are the sections and the
    options added from this file so far.  A line outside any section, a
    section or an option repeated in the file stop the reading at once;
    lines that are no [key = value] are collected and reported after the
    last line. *)
Fixpoint read_lines (lines : list string) (content : Content)
    (current : option string) (sections : list string)
    (options : list (string * string)) (pending : option IniError)
  : Content * option IniError :=
  match lines with
  | [] => (content, pending)
  | l :: rest =>
      match strip l with
      | EmptyString => read_lines rest content current sections options pending
      | String c body =>
          if (Ref.code c =? 35) || (Ref.code c =? 59)
          then read_lines rest content current sections options pending
          else
            match header_of (String c body) with
            | Some name =>
                if String.eqb name "DEFAULT"
                then read_lines rest (open_section content name) (Some name)
                       sections options pending
                else if mem name sections
                then (content, Some (DuplicateSectionError name))
                else read_lines rest (open_section content name) (Some name)
                       (name :: sections) options pending
            | None =>
                match current with
                | None =>
                    (content, Some (MissingSectionHeaderError l))
                | Some section =>
                    match split_at_delimiter (String c body) with
                    | Some kv =>
                        let key := lower (rstrip (fst kv)) in
                        let pending' :=
                          match fst kv with
                          | EmptyString => handle_error pending l
                          | _ => pending
                          end in
                        if mem_option section key options
                        then (content, Some (DuplicateOptionError section key))
                        else read_lines rest
                               (set_option content section key
                                  (Unjoined (strip (snd kv))))
                               current sections ((section, key) :: options)
                               pending'
                    | None =>
                        read_lines rest content current sections options
                          (handle_error pending l)
                    end
                end
            end
      end
  end.

(** [_join_multiline_values], for values of one line. *)
Definition join_value (v : Value) : Value :=
  match v with
  | Joined s => Joined s
  | Unjoined line => Joined (rstrip line)
  end.

Definition join_values (content : Content) : Content :=
  map (fun sec => (fst sec, map (fun o => (fst o, join_value (snd o))) (snd sec)))
      content.

(** [parser.read] on the text of a file: the values are joined when the
    last line was reached. *)
Definition read (parser : Content) (text : string) : Content * option IniError :=
  let r := read_lines (split_lines text) parser None [] [] None in
  match snd r with
  | None => (join_values (fst r), None)
  | Some (ParsingError lines) => (join_values (fst r), Some (ParsingError lines))
  | Some e => (fst r, Some e)
  end.

(** [parser.get(section, option, fallback=fallback)]: the option of the
    section, else of [DEFAULT]; the fallback when the section or the option
    is missing. *)
Definition get (parser : Content) (section option fallback : string)
  : string + IniError :=
  let defaults :=
    match find_section parser "DEFAULT" with
    | Some opts => opts
    | None => []
    end in
  let found :=
    if String.eqb section "DEFAULT" then Some defaults
    else match find_section parser section with
         | Some opts => Some (opts ++ defaults)%list
         | None => None
         end in
  match found with
  | Some opts =>
      match find_option opts (lower option) with
      | Some (Joined v) => inl v
      | Some (Unjoined _) =>
          inr (AttributeError "'list' object has no attribute 'find'")
      | None => inl fallback
      end
  | None => inl fallback
  end.

Definition lib : ConfigLib := mkConfigLib Content IniError [] read get.

(** Lines of a file, joined by line feeds. *)
Fixpoint unlines (ls : list string) : string :=
  match ls with
  | [] => EmptyString
  | l :: rest => l ++ String (Ref.chr 10) (unlines rest)
  end.

End Ini.

End test_config.

(* ================================================================== *)
(** * Basic facts about the error monad and the Record constructor      *)
(* ================================================================== *)

Lemma bind_ok_inv {A B : Type} (m : Res A) (k : A -> Res B) (b : B) :
  bind m k = Ok b -> exists a, m = Ok a /\ k a = Ok b.
Proof.
  destruct m as [a|e]; simpl; intros H.
  - exists a. split; [reflexivity | exact H].
  - discriminate H.
Qed.

Lemma bind_ok {A B : Type} (m : Res A) (k : A -> Res B) (a : A) :
  m = Ok a -> bind m k = k a.
Proof. intros ->. reflexivity. Qed.

Lemma bind_raise {A B : Type} (m : Res A) (k : A -> Res B) (e : PyExc) :
  m = Raise e -> bind m k = Raise e.
Proof. intros ->. reflexivity. Qed.

Lemma bind_assoc {A B C : Type} (m : Res A) (k : A -> Res B) (g : B -> Res C) :
  bind (bind m k) g = bind m (fun a => bind (k a) g).
Proof. destruct m; reflexivity. Qed.

Lemma except_Exception_ok_inv {A : Type} (msg : string) (body : Res A) (a : A) :
  except_Exception msg body = Ok a -> body = Ok a.
Proof. destruct body; simpl; intros H; [exact H | discriminate H]. Qed.

Lemma except_Exception_raise_inv {A : Type} (msg : string) (body : Res A) (x : PyExc) :
  except_Exception msg body = Raise x ->
  exists e, body = Raise e /\ x = mkExc SchemaRegistryException (msg ++ exc_str e).
Proof.
  destruct body as [a|e]; simpl; intros H; [discriminate H|].
  exists e. split; [reflexivity | congruence].
Qed.

(** Closes a goal between closed terms by evaluation, one goal at a time, so
    that what an earlier goal computed is known to the next one. *)
Ltac by_computation :=
  lazymatch goal with |- _ => vm_compute; reflexivity end.

(** Peels one statement off a [try] block known to return. *)
Ltac peel H x Hx :=
  apply bind_ok_inv in H; destruct H as [x [Hx H]].

Lemma valid_timestamp_spec (v : PyVal) :
  valid_timestamp v = true <-> isinstance_int v = true /\ 0 <= int_value v.
Proof.
  unfold valid_timestamp. rewrite andb_true_iff, Z.leb_le. reflexivity.
Qed.

Lemma new_valid (a b t d : PyVal) :
  valid_timestamp t = true ->
  model.new a b t d = Ok (mkSalesforceAudit a b t d).
Proof.
  intros H. apply valid_timestamp_spec in H. destruct H as [Hi Hn].
  unfold model.new, __post_init__. simpl. rewrite Hi. simpl.
  destruct (int_value t <? 0) eqn:E; [apply Z.ltb_lt in E; lia | reflexivity].
Qed.

Lemma new_invalid (a b t d : PyVal) :
  valid_timestamp t = false ->
  model.new a b t d =
    Raise (mkExc ValueError
             (if isinstance_int t then "timestamp must be non-negative"
              else "timestamp must be an integer")).
Proof.
  unfold valid_timestamp, model.new, __post_init__. simpl.
  destruct (isinstance_int t); simpl; intros H; [|reflexivity].
  destruct (int_value t <? 0) eqn:E; [reflexivity|].
  apply Z.ltb_ge in E. apply Z.leb_gt in H. lia.
Qed.

Lemma new_ok_inv (a b t d : PyVal) (r : SalesforceAudit) :
  model.new a b t d = Ok r ->
  r = mkSalesforceAudit a b t d /\ valid_timestamp t = true.
Proof.
  intros H. destruct (valid_timestamp t) eqn:V.
  - rewrite (new_valid a b t d V) in H. split; congruence.
  - rewrite (new_invalid a b t d V) in H. discriminate H.
Qed.

Lemma get_dict (items : list (string * PyVal)) (key : string) (default : PyVal) :
  get (PDict items) key default = Ok (lookup_default items key default).
Proof. unfold get, lookup_default. destruct (lookup items key); reflexivity. Qed.

Lemma from_dict_dict (items : list (string * PyVal)) :
  from_dict (PDict items) =
    model.new (lookup_default items "eventId" (PStr ""))
              (lookup_default items "eventName" (PStr ""))
              (lookup_default items "timestamp" (PInt 0))
              (lookup_default items "eventDetails" (PStr "")).
Proof. unfold from_dict. rewrite !get_dict. reflexivity. Qed.

(** Both serializers open with the same fetch. *)
Lemma avro_serialize_body_fetch (L : Libs) c n r :
  AvroSerializer.serialize_body L c n r =
    (schema_definition <- fetch_definition c n ;;
     schema_dict <- py_json_loads L schema_definition ;;
     avro_schema <- parse_schema L schema_dict ;;
     schemaless_writer L avro_schema (AvroSerializer.record_of r)).
Proof.
  unfold AvroSerializer.serialize_body, fetch_definition, fetch_version.
  destruct (get_schema c n) as [resp|e]; simpl; [|reflexivity].
  destruct (getitem resp "LatestSchemaVersion") as [ver|e]; simpl; [|reflexivity].
  destruct (get_schema_version c n ver) as [resp2|e]; simpl; reflexivity.
Qed.

Lemma avro_deserialize_body_fetch (L : Libs) c n data :
  AvroSerializer.deserialize_body L c n data =
    (schema_definition <- fetch_definition c n ;;
     schema_dict <- py_json_loads L schema_definition ;;
     avro_schema <- parse_schema L schema_dict ;;
     record <- schemaless_reader L avro_schema data ;;
     a <- getitem record "eventId" ;;
     b <- getitem record "eventName" ;;
     c <- getitem record "timestamp" ;;
     d <- getitem record "eventDetails" ;;
     model.new a b c d).
Proof.
  unfold AvroSerializer.deserialize_body, fetch_definition, fetch_version.
  destruct (get_schema c n) as [resp|e]; simpl; [|reflexivity].
  destruct (getitem resp "LatestSchemaVersion") as [ver|e]; simpl; [|reflexivity].
  destruct (get_schema_version c n ver) as [resp2|e]; simpl; reflexivity.
Qed.

Lemma json_serialize_body_fetch (L : Libs) c n r :
  JsonSerializer.serialize_body L c n r =
    (_ <- fetch_version c n ;;
     json_str <- json_dumps L (to_dict r) ;;
     encode_utf8 L json_str).
Proof.
  unfold JsonSerializer.serialize_body, fetch_version.
  destruct (get_schema c n) as [resp|e]; simpl; [|reflexivity].
  destruct (getitem resp "LatestSchemaVersion") as [ver|e]; simpl; reflexivity.
Qed.

Lemma json_deserialize_body_fetch (L : Libs) c n data :
  JsonSerializer.deserialize_body L c n data =
    (_ <- fetch_version c n ;;
     json_str <- decode_utf8 L data ;;
     data_dict <- json_loads L json_str ;;
     from_dict data_dict).
Proof.
  unfold JsonSerializer.deserialize_body, fetch_version.
  destruct (get_schema c n) as [resp|e]; simpl; [|reflexivity].
  destruct (getitem resp "LatestSchemaVersion") as [ver|e]; simpl; reflexivity.
Qed.

(* ================================================================== *)
(** * Record construction (model.py)                                   *)
(* ================================================================== *)

(** C4.  Constructing a Record raises the validation error ([ValueError])
    exactly when the timestamp is not an [int] instance or is negative, and
    otherwise returns the Record with the four fields as given, whatever the
    other three fields are.  In particular timestamp [-1] is refused, and
    every non-negative integer timestamp is accepted. *)
Theorem construction_fails_iff_timestamp_invalid :
  forall a b t d : PyVal,
    ((exists e, model.new a b t d = Raise e /\ exc_class e = ValueError)
       <-> (isinstance_int t = false \/ int_value t < 0))
    /\ (model.new a b t d = Ok (mkSalesforceAudit a b t d)
          <-> (isinstance_int t = true /\ 0 <= int_value t))
    /\ (exists e, model.new a b (PInt (-1)) d = Raise e /\ exc_class e = ValueError)
    /\ (forall z, 0 <= z ->
          model.new a b (PInt z) d = Ok (mkSalesforceAudit a b (PInt z) d)).
Proof.
  intros a b t d.
  assert (Hsplit : valid_timestamp t = false
                   <-> (isinstance_int t = false \/ int_value t < 0)).
  { unfold valid_timestamp. rewrite andb_false_iff, Z.leb_gt. reflexivity. }
  repeat split.
  - intros [e [He _]]. apply Hsplit.
    destruct (valid_timestamp t) eqn:V; [|reflexivity].
    rewrite (new_valid a b t d V) in He. discriminate He.
  - intros H. apply Hsplit in H. rewrite (new_invalid a b t d H).
    eexists. split; [reflexivity | reflexivity].
  - apply new_ok_inv in H. apply valid_timestamp_spec. apply H.
  - apply new_ok_inv in H. apply valid_timestamp_spec. apply H.
  - intros H. apply new_valid. apply valid_timestamp_spec. exact H.
  - eexists. split; reflexivity.
  - intros z Hz. apply new_valid. apply valid_timestamp_spec.
    split; [reflexivity | exact Hz].
Qed.

(* ================================================================== *)
(** * The binary adapter wraps every failure (avro_serializer.py)      *)
(* ================================================================== *)

Lemma avro_serialize_raise (L : Libs) c n r (e : PyExc) :
  AvroSerializer.serialize_body L c n r = Raise e ->
  AvroSerializer.serialize L c n r =
    Raise (mkExc SchemaRegistryException
             ("Failed to serialize SalesforceAudit: " ++ exc_str e)).
Proof. unfold AvroSerializer.serialize. intros ->. reflexivity. Qed.

Lemma avro_deserialize_raise (L : Libs) c n data (e : PyExc) :
  AvroSerializer.deserialize_body L c n data = Raise e ->
  AvroSerializer.deserialize L c n data =
    Raise (mkExc SchemaRegistryException
             ("Failed to deserialize SalesforceAudit: " ++ exc_str e)).
Proof. unfold AvroSerializer.deserialize. intros ->. reflexivity. Qed.

(** C2.  In the binary adapter a failure of the schema fetch, of the schema
    parse ([json.loads] or [parse_schema]), of the row encoder or of the row
    decoder makes [serialize] / [deserialize] raise one
    [SchemaRegistryException] whose text is the fixed prefix followed by the
    text of the cause; and whatever [serialize] or [deserialize] raises has
    that form, so a call that fails returns no bytes and no Record. *)
Theorem avro_failures_are_wrapped :
  forall (L : Libs) c n r data,
    (forall e, fetch_definition c n = Raise e ->
       AvroSerializer.serialize L c n r =
         Raise (mkExc SchemaRegistryException
                  ("Failed to serialize SalesforceAudit: " ++ exc_str e))
       /\ AvroSerializer.deserialize L c n data =
            Raise (mkExc SchemaRegistryException
                     ("Failed to deserialize SalesforceAudit: " ++ exc_str e)))
    /\ (forall defn e,
          fetch_definition c n = Ok defn ->
          (py_json_loads L defn = Raise e
           \/ exists sd, py_json_loads L defn = Ok sd /\ parse_schema L sd = Raise e) ->
          AvroSerializer.serialize L c n r =
            Raise (mkExc SchemaRegistryException
                     ("Failed to serialize SalesforceAudit: " ++ exc_str e))
          /\ AvroSerializer.deserialize L c n data =
               Raise (mkExc SchemaRegistryException
                        ("Failed to deserialize SalesforceAudit: " ++ exc_str e)))
    /\ (forall defn sd sch e,
          fetch_definition c n = Ok defn ->
          py_json_loads L defn = Ok sd ->
          parse_schema L sd = Ok sch ->
          schemaless_writer L sch (AvroSerializer.record_of r) = Raise e ->
          AvroSerializer.serialize L c n r =
            Raise (mkExc SchemaRegistryException
                     ("Failed to serialize SalesforceAudit: " ++ exc_str e)))
    /\ (forall defn sd sch e,
          fetch_definition c n = Ok defn ->
          py_json_loads L defn = Ok sd ->
          parse_schema L sd = Ok sch ->
          schemaless_reader L sch data = Raise e ->
          AvroSerializer.deserialize L c n data =
            Raise (mkExc SchemaRegistryException
                     ("Failed to deserialize SalesforceAudit: " ++ exc_str e)))
    /\ (forall x, AvroSerializer.serialize L c n r = Raise x ->
          exists e, AvroSerializer.serialize_body L c n r = Raise e
                    /\ x = mkExc SchemaRegistryException
                             ("Failed to serialize SalesforceAudit: " ++ exc_str e))
    /\ (forall x, AvroSerializer.deserialize L c n data = Raise x ->
          exists e, AvroSerializer.deserialize_body L c n data = Raise e
                    /\ x = mkExc SchemaRegistryException
                             ("Failed to deserialize SalesforceAudit: " ++ exc_str e)).
Proof.
  intros L c n r data. repeat split.
  - apply avro_serialize_raise. rewrite avro_serialize_body_fetch.
    apply bind_raise. assumption.
  - apply avro_deserialize_raise. rewrite avro_deserialize_body_fetch.
    apply bind_raise. assumption.
  - apply avro_serialize_raise. rewrite avro_serialize_body_fetch.
    rewrite (bind_ok _ _ _ H). destruct H0 as [Hl | [sd [Hl Hp]]].
    + apply bind_raise. exact Hl.
    + rewrite (bind_ok _ _ _ Hl). apply bind_raise. exact Hp.
  - apply avro_deserialize_raise. rewrite avro_deserialize_body_fetch.
    rewrite (bind_ok _ _ _ H). destruct H0 as [Hl | [sd [Hl Hp]]].
    + apply bind_raise. exact Hl.
    + rewrite (bind_ok _ _ _ Hl). apply bind_raise. exact Hp.
  - intros defn sd sch e Hf Hl Hp Hw.
    apply avro_serialize_raise. rewrite avro_serialize_body_fetch.
    rewrite (bind_ok _ _ _ Hf), (bind_ok _ _ _ Hl), (bind_ok _ _ _ Hp).
    exact Hw.
  - intros defn sd sch e Hf Hl Hp Hr.
    apply avro_deserialize_raise. rewrite avro_deserialize_body_fetch.
    rewrite (bind_ok _ _ _ Hf), (bind_ok _ _ _ Hl), (bind_ok _ _ _ Hp).
    apply bind_raise. exact Hr.
  - intros x Hx. apply except_Exception_raise_inv in Hx. exact Hx.
  - intros x Hx. apply except_Exception_raise_inv in Hx. exact Hx.
Qed.

(** The test [test_deserialization_with_invalid_data]: five bytes that are
    no row of the audit schema. *)
Lemma avro_five_bytes_are_refused :
  AvroSerializer.deserialize Ref.libs (Ref.client_of Ref.registry)
    "SalesforceAudit" [x01; x02; x03; x04; x05]
  = Raise (mkExc SchemaRegistryException
             "Failed to deserialize SalesforceAudit: read past the end of the data")
  /\ AvroSerializer.serialize Ref.libs (Ref.client_of Ref.registry) "Unregistered"
       (mkSalesforceAudit (PStr "evt-001") (PStr "Create") (PInt 1609459200000)
          (PStr "Created new account"))
     = Raise (mkExc SchemaRegistryException
                "Failed to serialize SalesforceAudit: Failed to get schema: An error occurred (EntityNotFoundException) when calling the GetSchema operation: Schema is not found.").
Proof.
  split.
  - refine (proj1 (proj2 (proj2 (proj2
      (avro_failures_are_wrapped Ref.libs (Ref.client_of Ref.registry)
         "SalesforceAudit"
         (mkSalesforceAudit PNone PNone PNone PNone)
         [x01; x02; x03; x04; x05]))))
      (PStr Ref.audit_schema_text) _ _
      (mkExc EOFError "read past the end of the data") _ _ _ _);
      by_computation.
  - refine (proj1 (proj1
      (avro_failures_are_wrapped Ref.libs (Ref.client_of Ref.registry)
         "Unregistered" _ [])
      (mkExc SchemaRegistryException _) _)).
    vm_compute. reflexivity.
Defined.

(* ================================================================== *)
(** * Validation on the deserialization path                           *)
(* ================================================================== *)

Lemma avro_deserialize_ok_inv (L : Libs) c n data r :
  AvroSerializer.deserialize L c n data = Ok r ->
  exists defn sd sch row,
    fetch_definition c n = Ok defn
    /\ py_json_loads L defn = Ok sd
    /\ parse_schema L sd = Ok sch
    /\ schemaless_reader L sch data = Ok row
    /\ getitem row "eventId" = Ok (event_id r)
    /\ getitem row "eventName" = Ok (event_name r)
    /\ getitem row "timestamp" = Ok (timestamp r)
    /\ getitem row "eventDetails" = Ok (event_details r)
    /\ valid_timestamp (timestamp r) = true.
Proof.
  intros H. apply except_Exception_ok_inv in H.
  rewrite avro_deserialize_body_fetch in H.
  peel H defn Hf. peel H sd Hl. peel H sch Hp. peel H row Hr.
  peel H a Ha. peel H b Hb. peel H t Ht. peel H d Hd.
  apply new_ok_inv in H. destruct H as [-> V]. simpl.
  exists defn, sd, sch, row. repeat split; assumption.
Qed.

Lemma json_deserialize_ok_inv (L : Libs) c n data r :
  JsonSerializer.deserialize L c n data = Ok r ->
  exists v s doc,
    fetch_version c n = Ok v
    /\ decode_utf8 L data = Ok s
    /\ json_loads L s = Ok doc
    /\ get doc "eventId" (PStr "") = Ok (event_id r)
    /\ get doc "eventName" (PStr "") = Ok (event_name r)
    /\ get doc "timestamp" (PInt 0) = Ok (timestamp r)
    /\ get doc "eventDetails" (PStr "") = Ok (event_details r)
    /\ valid_timestamp (timestamp r) = true.
Proof.
  intros H. apply except_Exception_ok_inv in H.
  rewrite json_deserialize_body_fetch in H.
  peel H v Hf. peel H s Hs. peel H doc Hl.
  unfold from_dict in H.
  peel H a Ha. peel H b Hb. peel H t Ht. peel H d Hd.
  apply new_ok_inv in H. destruct H as [-> V]. simpl.
  exists v, s, doc. repeat split; assumption.
Qed.

(** C10.  A Record returned by [deserialize], of either adapter, has an
    [int] timestamp that is not negative; a decoded row or JSON object whose
    timestamp entry is negative or not an [int] makes [deserialize] raise
    [SchemaRegistryException] instead, because the constructor runs
    [__post_init__] inside the [try] block. *)
Theorem deserialize_enforces_timestamp_validity :
  forall (L : Libs) c n data,
    (forall r,
       AvroSerializer.deserialize L c n data = Ok r
       \/ JsonSerializer.deserialize L c n data = Ok r ->
       isinstance_int (timestamp r) = true /\ 0 <= int_value (timestamp r))
    /\ (forall defn sd sch row t,
          fetch_definition c n = Ok defn ->
          py_json_loads L defn = Ok sd ->
          parse_schema L sd = Ok sch ->
          schemaless_reader L sch data = Ok row ->
          getitem row "timestamp" = Ok t ->
          valid_timestamp t = false ->
          exists cause,
            AvroSerializer.deserialize L c n data =
              Raise (mkExc SchemaRegistryException
                       ("Failed to deserialize SalesforceAudit: " ++ cause)))
    /\ (forall v s items t,
          fetch_version c n = Ok v ->
          decode_utf8 L data = Ok s ->
          json_loads L s = Ok (PDict items) ->
          lookup items "timestamp" = Some t ->
          valid_timestamp t = false ->
          JsonSerializer.deserialize L c n data =
            Raise (mkExc SchemaRegistryException
                     ("Failed to deserialize JSON to SalesforceAudit: "
                        ++ (if isinstance_int t
                            then "timestamp must be non-negative"
                            else "timestamp must be an integer")))).
Proof.
  intros L c n data. split; [|split].
  - intros r [H|H]; apply valid_timestamp_spec.
    + apply avro_deserialize_ok_inv in H.
      destruct H as (? & ? & ? & ? & H). apply H.
    + apply json_deserialize_ok_inv in H.
      destruct H as (? & ? & ? & H). apply H.
  - intros defn sd sch row t Hf Hl Hp Hr Ht V.
    destruct (AvroSerializer.deserialize L c n data) as [r|x] eqn:E.
    + exfalso. apply avro_deserialize_ok_inv in E.
      destruct E as (defn' & sd' & sch' & row' & Hf' & Hl' & Hp' & Hr'
                     & _ & _ & Ht' & _ & V').
      assert (defn' = defn) by congruence. subst defn'.
      assert (sd' = sd) by congruence. subst sd'.
      assert (sch' = sch) by congruence. subst sch'.
      assert (row' = row) by congruence. subst row'.
      assert (timestamp r = t) by congruence. congruence.
    + apply except_Exception_raise_inv in E. destruct E as [e [_ ->]].
      exists (exc_str e). reflexivity.
  - intros v s items t Hf Hs Hl Ht V.
    unfold JsonSerializer.deserialize. rewrite json_deserialize_body_fetch.
    rewrite (bind_ok _ _ _ Hf), (bind_ok _ _ _ Hs), (bind_ok _ _ _ Hl).
    rewrite from_dict_dict.
    assert (Hd : lookup_default items "timestamp" (PInt 0) = t).
    { unfold lookup_default. rewrite Ht. reflexivity. }
    rewrite Hd. rewrite (new_invalid _ _ _ _ V). simpl.
    destruct (isinstance_int t); reflexivity.
Qed.

(** JSON payloads [{"timestamp": -1}] and [{"timestamp": 1.5}], and an Avro
    row whose long is [-1]: none yields a Record. *)
Lemma invalid_timestamp_payloads_are_refused :
  JsonSerializer.deserialize Ref.libs (Ref.client_of Ref.registry) "SalesAuditJSON"
    (Ref.str_encode (Ref.json_text "{'timestamp': -1}"))
  = Raise (mkExc SchemaRegistryException
             "Failed to deserialize JSON to SalesforceAudit: timestamp must be non-negative")
  /\ JsonSerializer.deserialize Ref.libs (Ref.client_of Ref.registry) "SalesAuditJSON"
       (Ref.str_encode (Ref.json_text "{'timestamp': 1.5}"))
     = Raise (mkExc SchemaRegistryException
                "Failed to deserialize JSON to SalesforceAudit: timestamp must be an integer")
  /\ (exists cause,
        AvroSerializer.deserialize Ref.libs (Ref.client_of Ref.registry)
          "SalesforceAudit" [x00; x00; x01; x00]
        = Raise (mkExc SchemaRegistryException
                   ("Failed to deserialize SalesforceAudit: " ++ cause)))
  /\ (isinstance_int (PInt 1609459200000) = true
      /\ 0 <= int_value (PInt 1609459200000)).
Proof.
  split; [|split; [|split]].
  - refine (proj2 (proj2
      (deserialize_enforces_timestamp_validity Ref.libs
         (Ref.client_of Ref.registry) "SalesAuditJSON" _))
      (PDict [("SchemaDefinition", PStr (Ref.json_text "{'type': 'object'}"));
              ("VersionNumber", PInt 1)])
      (Ref.json_text "{'timestamp': -1}")
      [("timestamp", PInt (-1))] (PInt (-1)) _ _ _ _ _);
      by_computation.
  - refine (proj2 (proj2
      (deserialize_enforces_timestamp_validity Ref.libs
         (Ref.client_of Ref.registry) "SalesAuditJSON" _))
      (PDict [("SchemaDefinition", PStr (Ref.json_text "{'type': 'object'}"));
              ("VersionNumber", PInt 1)])
      (Ref.json_text "{'timestamp': 1.5}")
      [("timestamp", PFloat "1.5")] (PFloat "1.5") _ _ _ _ _);
      by_computation.
  - refine (proj1 (proj2
      (deserialize_enforces_timestamp_validity Ref.libs
         (Ref.client_of Ref.registry) "SalesforceAudit" [x00; x00; x01; x00]))
      (PStr Ref.audit_schema_text) _ _
      (PDict [("eventId", PStr ""); ("eventName", PStr "");
              ("timestamp", PInt (-1)); ("eventDetails", PStr "")])
      (PInt (-1)) _ _ _ _ _ _);
      by_computation.
  - refine (proj1
      (deserialize_enforces_timestamp_validity Ref.libs
         (Ref.client_of Ref.registry) "SalesforceAudit"
         (Ref.str_encode (String (Ref.chr 14) "evt-001")
            ++ Ref.str_encode (String (Ref.chr 12) "Create")
            ++ [x80; xc0; xf3; xb3; xd7; x5d]
            ++ Ref.str_encode (String (Ref.chr 38) "Created new account"))%list)
      (mkSalesforceAudit (PStr "evt-001") (PStr "Create") (PInt 1609459200000)
         (PStr "Created new account")) _).
    left. vm_compute. reflexivity.
Defined.

(* ================================================================== *)
(** * Lenient defaults of the textual adapter (json_serializer.py)     *)
(* ================================================================== *)

(** C3.  When the payload decodes to a JSON object, [deserialize] of the
    textual adapter builds the Record from [get] with defaults: a key that
    is missing is replaced by the empty string (by [0] for the timestamp)
    and never makes the call fail.  The call returns whenever the timestamp
    entry is missing or valid, and the only failure left is an invalid
    timestamp entry that is present.  The object with the single key
    [eventId], value [x], gives the Record [x], empty, [0], empty. *)
Theorem json_deserialize_defaults_missing_keys :
  forall (L : Libs) c n data v s items,
    fetch_version c n = Ok v ->
    decode_utf8 L data = Ok s ->
    json_loads L s = Ok (PDict items) ->
    (valid_timestamp (lookup_default items "timestamp" (PInt 0)) = true ->
       JsonSerializer.deserialize L c n data =
         Ok (mkSalesforceAudit
               (lookup_default items "eventId" (PStr ""))
               (lookup_default items "eventName" (PStr ""))
               (lookup_default items "timestamp" (PInt 0))
               (lookup_default items "eventDetails" (PStr ""))))
    /\ (lookup items "timestamp" = None ->
          JsonSerializer.deserialize L c n data =
            Ok (mkSalesforceAudit
                  (lookup_default items "eventId" (PStr ""))
                  (lookup_default items "eventName" (PStr ""))
                  (PInt 0)
                  (lookup_default items "eventDetails" (PStr ""))))
    /\ (forall e, JsonSerializer.deserialize L c n data = Raise e ->
          exists t, lookup items "timestamp" = Some t
                    /\ valid_timestamp t = false)
    /\ (items = [("eventId", PStr "x")] ->
          JsonSerializer.deserialize L c n data =
            Ok (mkSalesforceAudit (PStr "x") (PStr "") (PInt 0) (PStr ""))).
Proof.
  intros L c n data v s items Hf Hs Hl.
  assert (E : JsonSerializer.deserialize L c n data =
              except_Exception "Failed to deserialize JSON to SalesforceAudit: "
                (model.new (lookup_default items "eventId" (PStr ""))
                           (lookup_default items "eventName" (PStr ""))
                           (lookup_default items "timestamp" (PInt 0))
                           (lookup_default items "eventDetails" (PStr "")))).
  { unfold JsonSerializer.deserialize. rewrite json_deserialize_body_fetch.
    rewrite (bind_ok _ _ _ Hf), (bind_ok _ _ _ Hs), (bind_ok _ _ _ Hl).
    rewrite from_dict_dict. reflexivity. }
  split; [|split; [|split]].
  - intros V. rewrite E, (new_valid _ _ _ _ V). reflexivity.
  - intros Hm. rewrite E. unfold lookup_default at 3. rewrite Hm.
    rewrite new_valid; reflexivity.
  - intros e He. rewrite E in He.
    unfold lookup_default at 3 in He.
    destruct (lookup items "timestamp") as [t|] eqn:Ht.
    + exists t. split; [reflexivity|].
      destruct (valid_timestamp t) eqn:V; [|reflexivity].
      rewrite (new_valid _ _ _ _ V) in He. discriminate He.
    + rewrite new_valid in He; [discriminate He | reflexivity].
  - intros ->. rewrite E. reflexivity.
Qed.

(** The payload [{"eventId": "x"}], as bytes. *)
Lemma json_deserialize_event_id_only :
  JsonSerializer.deserialize Ref.libs (Ref.client_of Ref.registry) "SalesAuditJSON"
    (Ref.str_encode (Ref.json_text "{'eventId': 'x'}"))
  = Ok (mkSalesforceAudit (PStr "x") (PStr "") (PInt 0) (PStr ""))
  /\ JsonSerializer.deserialize Ref.libs (Ref.client_of Ref.registry) "SalesAuditJSON"
       (Ref.str_encode (Ref.json_text "{'eventName': 'Create', 'extra': [1, 2]}"))
     = Ok (mkSalesforceAudit (PStr "") (PStr "Create") (PInt 0) (PStr "")).
Proof.
  split.
  - refine (proj2 (proj2 (proj2
      (json_deserialize_defaults_missing_keys Ref.libs
         (Ref.client_of Ref.registry) "SalesAuditJSON"
         (Ref.str_encode (Ref.json_text "{'eventId': 'x'}"))
         (PDict [("SchemaDefinition", PStr (Ref.json_text "{'type': 'object'}"));
                 ("VersionNumber", PInt 1)])
         (Ref.json_text "{'eventId': 'x'}")
         [("eventId", PStr "x")] _ _ _))) _);
      by_computation.
  - refine (proj1 (proj2
      (json_deserialize_defaults_missing_keys Ref.libs
         (Ref.client_of Ref.registry) "SalesAuditJSON"
         (Ref.str_encode (Ref.json_text "{'eventName': 'Create', 'extra': [1, 2]}"))
         (PDict [("SchemaDefinition", PStr (Ref.json_text "{'type': 'object'}"));
                 ("VersionNumber", PInt 1)])
         (Ref.json_text "{'eventName': 'Create', 'extra': [1, 2]}")
         [("eventName", PStr "Create"); ("extra", PList [PInt 1; PInt 2])] _ _ _)) _);
      by_computation.
Defined.

(* ================================================================== *)
(** * The wire names                                                   *)
(* ================================================================== *)

Lemma avro_serialize_ok_inv (L : Libs) c n r b :
  AvroSerializer.serialize L c n r = Ok b ->
  exists defn sd sch,
    fetch_definition c n = Ok defn
    /\ py_json_loads L defn = Ok sd
    /\ parse_schema L sd = Ok sch
    /\ schemaless_writer L sch (AvroSerializer.record_of r) = Ok b.
Proof.
  intros H. apply except_Exception_ok_inv in H.
  rewrite avro_serialize_body_fetch in H.
  peel H defn Hf. peel H sd Hl. peel H sch Hp.
  exists defn, sd, sch. repeat split; assumption.
Qed.

Lemma json_serialize_ok_inv (L : Libs) c n r b :
  JsonSerializer.serialize L c n r = Ok b ->
  exists v s,
    fetch_version c n = Ok v
    /\ json_dumps L (to_dict r) = Ok s
    /\ encode_utf8 L s = Ok b.
Proof.
  intros H. apply except_Exception_ok_inv in H.
  rewrite json_serialize_body_fetch in H.
  peel H v Hf. peel H s Hs.
  exists v, s. repeat split; assumption.
Qed.

(** C5.  The two encoders hand their codec the same mapping: exactly the
    keys [eventId], [eventName], [timestamp], [eventDetails], holding the
    fields [event_id], [event_name], [timestamp], [event_details]; and the
    two decoders fill each field of the Record they return from the entry of
    the decoded mapping under the same name.  Forwards: once the schema is
    fetched, [serialize] returns what the codec returns on that mapping, and
    [deserialize] returns what the constructor returns on the four entries
    of the decoded mapping, a failure of either under the method's prefix;
    backwards: whatever they return was obtained that way. *)
Theorem wire_name_mapping_is_shared :
  forall (L : Libs) c n,
    (forall r,
       AvroSerializer.record_of r = to_dict r
       /\ exists items,
            to_dict r = PDict items
            /\ keys items = wire_names
            /\ lookup items "eventId" = Some (event_id r)
            /\ lookup items "eventName" = Some (event_name r)
            /\ lookup items "timestamp" = Some (timestamp r)
            /\ lookup items "eventDetails" = Some (event_details r))
    /\ (forall r b,
          AvroSerializer.serialize L c n r = Ok b ->
          exists sch,
            schemaless_writer L sch
              (PDict [("eventId", event_id r); ("eventName", event_name r);
                      ("timestamp", timestamp r);
                      ("eventDetails", event_details r)]) = Ok b)
    /\ (forall r b,
          JsonSerializer.serialize L c n r = Ok b ->
          exists s,
            json_dumps L
              (PDict [("eventId", event_id r); ("eventName", event_name r);
                      ("timestamp", timestamp r);
                      ("eventDetails", event_details r)]) = Ok s
            /\ encode_utf8 L s = Ok b)
    /\ (forall data r,
          AvroSerializer.deserialize L c n data = Ok r ->
          exists sch row,
            schemaless_reader L sch data = Ok row
            /\ getitem row "eventId" = Ok (event_id r)
            /\ getitem row "eventName" = Ok (event_name r)
            /\ getitem row "timestamp" = Ok (timestamp r)
            /\ getitem row "eventDetails" = Ok (event_details r))
    /\ (forall data r,
          JsonSerializer.deserialize L c n data = Ok r ->
          exists s doc,
            decode_utf8 L data = Ok s
            /\ json_loads L s = Ok doc
            /\ get doc "eventId" (PStr "") = Ok (event_id r)
            /\ get doc "eventName" (PStr "") = Ok (event_name r)
            /\ get doc "timestamp" (PInt 0) = Ok (timestamp r)
            /\ get doc "eventDetails" (PStr "") = Ok (event_details r))
    /\ (forall r defn sd sch,
          fetch_definition c n = Ok defn ->
          py_json_loads L defn = Ok sd ->
          parse_schema L sd = Ok sch ->
          AvroSerializer.serialize L c n r
          = except_Exception "Failed to serialize SalesforceAudit: "
              (schemaless_writer L sch
                 (PDict [("eventId", event_id r); ("eventName", event_name r);
                         ("timestamp", timestamp r);
                         ("eventDetails", event_details r)])))
    /\ (forall r ver,
          fetch_version c n = Ok ver ->
          JsonSerializer.serialize L c n r
          = except_Exception "Failed to serialize SalesforceAudit to JSON: "
              (json_str <- json_dumps L
                             (PDict [("eventId", event_id r);
                                     ("eventName", event_name r);
                                     ("timestamp", timestamp r);
                                     ("eventDetails", event_details r)]) ;;
               encode_utf8 L json_str))
    /\ (forall data defn sd sch row a b t d,
          fetch_definition c n = Ok defn ->
          py_json_loads L defn = Ok sd ->
          parse_schema L sd = Ok sch ->
          schemaless_reader L sch data = Ok row ->
          getitem row "eventId" = Ok a ->
          getitem row "eventName" = Ok b ->
          getitem row "timestamp" = Ok t ->
          getitem row "eventDetails" = Ok d ->
          AvroSerializer.deserialize L c n data
          = except_Exception "Failed to deserialize SalesforceAudit: "
              (model.new a b t d))
    /\ (forall data ver s doc a b t d,
          fetch_version c n = Ok ver ->
          decode_utf8 L data = Ok s ->
          json_loads L s = Ok doc ->
          get doc "eventId" (PStr "") = Ok a ->
          get doc "eventName" (PStr "") = Ok b ->
          get doc "timestamp" (PInt 0) = Ok t ->
          get doc "eventDetails" (PStr "") = Ok d ->
          JsonSerializer.deserialize L c n data
          = except_Exception "Failed to deserialize JSON to SalesforceAudit: "
              (model.new a b t d)).
Proof.
  intros L c n.
  split; [|split; [|split; [|split; [|split; [|split; [|split; [|split]]]]]]].
  - intros r. split; [reflexivity|].
    eexists. split; [reflexivity|]. repeat split.
  - intros r b H. apply avro_serialize_ok_inv in H.
    destruct H as (defn & sd & sch & _ & _ & _ & Hw).
    exists sch. exact Hw.
  - intros r b H. apply json_serialize_ok_inv in H.
    destruct H as (v & s & _ & Hd & He).
    exists s. split; assumption.
  - intros data r H. apply avro_deserialize_ok_inv in H.
    destruct H as (defn & sd & sch & row & _ & _ & _ & Hr & Ha & Hb & Ht & Hd & _).
    exists sch, row. repeat split; assumption.
  - intros data r H. apply json_deserialize_ok_inv in H.
    destruct H as (v & s & doc & _ & Hs & Hl & Ha & Hb & Ht & Hd & _).
    exists s, doc. repeat split; assumption.
  - intros r defn sd sch Hf Hl Hp.
    unfold AvroSerializer.serialize. rewrite avro_serialize_body_fetch.
    rewrite (bind_ok _ _ _ Hf), (bind_ok _ _ _ Hl), (bind_ok _ _ _ Hp).
    reflexivity.
  - intros r ver Hf.
    unfold JsonSerializer.serialize. rewrite json_serialize_body_fetch.
    rewrite (bind_ok _ _ _ Hf). reflexivity.
  - intros data defn sd sch row a b t d Hf Hl Hp Hr Ha Hb Ht Hd.
    unfold AvroSerializer.deserialize. rewrite avro_deserialize_body_fetch.
    rewrite (bind_ok _ _ _ Hf), (bind_ok _ _ _ Hl), (bind_ok _ _ _ Hp).
    rewrite (bind_ok _ _ _ Hr), (bind_ok _ _ _ Ha), (bind_ok _ _ _ Hb).
    rewrite (bind_ok _ _ _ Ht), (bind_ok _ _ _ Hd). reflexivity.
  - intros data ver s doc a b t d Hf Hs Hl Ha Hb Ht Hd.
    unfold JsonSerializer.deserialize. rewrite json_deserialize_body_fetch.
    rewrite (bind_ok _ _ _ Hf), (bind_ok _ _ _ Hs), (bind_ok _ _ _ Hl).
    unfold from_dict.
    rewrite (bind_ok _ _ _ Ha), (bind_ok _ _ _ Hb).
    rewrite (bind_ok _ _ _ Ht), (bind_ok _ _ _ Hd). reflexivity.
Qed.

(** The sample event of the tests: its mapping, its JSON text, its Avro
    bytes through [AvroSerializer.serialize] and back through
    [AvroSerializer.deserialize], and a JSON object with the keys in another
    order through [JsonSerializer.deserialize]. *)
Lemma wire_names_of_the_sample_event :
  (exists items,
     to_dict (mkSalesforceAudit (PStr "evt-001") (PStr "Create")
                (PInt 1609459200000) (PStr "Created new account")) = PDict items
     /\ keys items = ["eventId"; "eventName"; "timestamp"; "eventDetails"])
  /\ (exists s,
        Ref.json_dumps
          (PDict [("eventId", PStr "evt-001"); ("eventName", PStr "Create");
                  ("timestamp", PInt 1609459200000);
                  ("eventDetails", PStr "Created new account")]) = Ok s
        /\ Ref.encode_utf8 s =
             Ok (Ref.str_encode
                   (Ref.json_text
                      "{'eventId': 'evt-001', 'eventName': 'Create', 'timestamp': 1609459200000, 'eventDetails': 'Created new account'}")))
  /\ AvroSerializer.serialize Ref.libs (Ref.client_of Ref.registry) "SalesforceAudit"
       (mkSalesforceAudit (PStr "evt-001") (PStr "Create") (PInt 1609459200000)
          (PStr "Created new account"))
     = Ok (Ref.str_encode (String (Ref.chr 14) "evt-001")
             ++ Ref.str_encode (String (Ref.chr 12) "Create")
             ++ [x80; xc0; xf3; xb3; xd7; x5d]
             ++ Ref.str_encode (String (Ref.chr 38) "Created new account"))%list
  /\ AvroSerializer.deserialize Ref.libs (Ref.client_of Ref.registry) "SalesforceAudit"
       (Ref.str_encode (String (Ref.chr 14) "evt-001")
          ++ Ref.str_encode (String (Ref.chr 12) "Create")
          ++ [x80; xc0; xf3; xb3; xd7; x5d]
          ++ Ref.str_encode (String (Ref.chr 38) "Created new account"))%list
     = Ok (mkSalesforceAudit (PStr "evt-001") (PStr "Create") (PInt 1609459200000)
             (PStr "Created new account"))
  /\ JsonSerializer.deserialize Ref.libs (Ref.client_of Ref.registry) "SalesAuditJSON"
       (Ref.str_encode
          (Ref.json_text
             "{'timestamp': 7, 'eventDetails': 'd', 'eventName': 'Create', 'eventId': 'evt-001'}"))
     = Ok (mkSalesforceAudit (PStr "evt-001") (PStr "Create") (PInt 7) (PStr "d"))
  /\ JsonSerializer.serialize Ref.libs (Ref.client_of Ref.registry) "SalesAuditJSON"
       (mkSalesforceAudit (PStr "evt-001") (PStr "Create") (PInt 7) (PStr "d"))
     = Ok (Ref.str_encode
             (Ref.json_text
                "{'eventId': 'evt-001', 'eventName': 'Create', 'timestamp': 7, 'eventDetails': 'd'}")).
Proof.
  pose proof (wire_name_mapping_is_shared Ref.libs (Ref.client_of Ref.registry)
                "SalesAuditJSON")
    as (Henc & _ & Hjson & _ & _ & _ & Hjs & _ & Hjd).
  pose proof (wire_name_mapping_is_shared Ref.libs (Ref.client_of Ref.registry)
                "SalesforceAudit")
    as (_ & _ & _ & _ & _ & Has & _ & Had & _).
  split; [|split; [|split; [|split; [|split]]]].
  - destruct (Henc (mkSalesforceAudit (PStr "evt-001") (PStr "Create")
                      (PInt 1609459200000) (PStr "Created new account")))
      as [_ [items [Hi [Hk _]]]].
    exists items. split; assumption.
  - apply (Hjson (mkSalesforceAudit (PStr "evt-001") (PStr "Create")
                    (PInt 1609459200000) (PStr "Created new account"))).
    vm_compute. reflexivity.
  - refine (eq_trans
              (Has (mkSalesforceAudit (PStr "evt-001") (PStr "Create")
                      (PInt 1609459200000) (PStr "Created new account"))
                 (PStr Ref.audit_schema_text) _ _ _ _ _) _); by_computation.
  - refine (eq_trans
              (Had _ (PStr Ref.audit_schema_text) _ _ _ _ _ _ _ _ _ _ _ _ _ _ _) _);
      by_computation.
  - refine (eq_trans (Hjd _ _ _ _ _ _ _ _ _ _ _ _ _ _ _) _); by_computation.
  - refine (eq_trans
              (Hjs (mkSalesforceAudit (PStr "evt-001") (PStr "Create") (PInt 7)
                      (PStr "d")) _ _) _); by_computation.
Defined.

(* ================================================================== *)
(** * What the output of serialize depends on                          *)
(* ================================================================== *)

(** C6.  The bytes of the binary adapter are a function of the Record and of
    the schema definition that was fetched: two calls on the same Record
    whose fetches return the same definition (from the same or from
    different clients, under the same or different names and version
    numbers) have the same result. *)
Theorem avro_serialize_is_deterministic :
  forall (L : Libs) c1 c2 n1 n2 r defn,
    fetch_definition c1 n1 = Ok defn ->
    fetch_definition c2 n2 = Ok defn ->
    AvroSerializer.serialize L c1 n1 r = AvroSerializer.serialize L c2 n2 r.
Proof.
  intros L c1 c2 n1 n2 r defn H1 H2.
  unfold AvroSerializer.serialize. rewrite !avro_serialize_body_fetch.
  rewrite (bind_ok _ _ _ H1), (bind_ok _ _ _ H2). reflexivity.
Qed.

(** C9.  The bytes of the textual adapter do not depend on the schema: for
    two clients and names whose fetches both return, serializing the same
    Record has the same result, whatever the two definitions are. *)
Theorem json_serialize_ignores_the_schema :
  forall (L : Libs) c1 c2 n1 n2 r v1 v2,
    fetch_version c1 n1 = Ok v1 ->
    fetch_version c2 n2 = Ok v2 ->
    JsonSerializer.serialize L c1 n1 r = JsonSerializer.serialize L c2 n2 r.
Proof.
  intros L c1 c2 n1 n2 r v1 v2 H1 H2.
  unfold JsonSerializer.serialize. rewrite !json_serialize_body_fetch.
  rewrite (bind_ok _ _ _ H1), (bind_ok _ _ _ H2). reflexivity.
Qed.

(** A second registry: the audit schema under another name and version. *)
Lemma avro_serialize_same_definition_same_bytes :
  AvroSerializer.serialize Ref.libs (Ref.client_of Ref.registry) "SalesforceAudit"
    (mkSalesforceAudit (PStr "evt-001") (PStr "Create") (PInt 1609459200000)
       (PStr "Created new account"))
  = AvroSerializer.serialize Ref.libs
      (Ref.client_of [("Audit-v7", (7, Ref.audit_schema_text))]) "Audit-v7"
      (mkSalesforceAudit (PStr "evt-001") (PStr "Create") (PInt 1609459200000)
         (PStr "Created new account")).
Proof.
  apply (avro_serialize_is_deterministic Ref.libs _ _ _ _ _
           (PStr Ref.audit_schema_text)); by_computation.
Defined.

(** The same Record under the JSON schema and under the Avro schema of the
    reference registry. *)
Lemma json_serialize_two_schemas_same_bytes :
  JsonSerializer.serialize Ref.libs (Ref.client_of Ref.registry) "SalesAuditJSON"
    (mkSalesforceAudit (PStr "evt-001") (PStr "Create") (PInt 1609459200000)
       (PStr "Created new account"))
  = JsonSerializer.serialize Ref.libs (Ref.client_of Ref.registry) "IdOnly"
      (mkSalesforceAudit (PStr "evt-001") (PStr "Create") (PInt 1609459200000)
         (PStr "Created new account")).
Proof.
  apply (json_serialize_ignores_the_schema Ref.libs _ _ _ _ _
           (PDict [("SchemaDefinition", PStr (Ref.json_text "{'type': 'object'}"));
                   ("VersionNumber", PInt 1)])
           (PDict [("SchemaDefinition", PStr Ref.id_only_schema_text);
                   ("VersionNumber", PInt 3)]));
    by_computation.
Defined.

(* ================================================================== *)
(** * Failures of the registry calls (client.py)                       *)
(* ================================================================== *)

(** C8, as stated, fails: [get_schema] and [get_schema_version] catch
    [ClientError] only, so a network failure of the remote call leaves them
    as the botocore exception it is, not as [SchemaRegistryException]. *)
Lemma network_failure_is_not_wrapped_by_the_client :
  get_schema (mkClient "registry" Ref.unreachable_glue) "SalesforceAudit"
  = Raise (mkExc (BotoCoreError "EndpointConnectionError")
             "Could not connect to the endpoint URL")
  /\ get_schema_version (mkClient "registry" Ref.unreachable_glue) "SalesforceAudit"
       (PInt 1)
     = Raise (mkExc (BotoCoreError "EndpointConnectionError")
                "Could not connect to the endpoint URL")
  /\ BotoCoreError "EndpointConnectionError" <> SchemaRegistryException.
Proof. repeat split. discriminate. Qed.

(** C8, amended.  When the remote call fails with a [ClientError] (a service
    error response: not found, access denied, ...), [get_schema] and
    [get_schema_version] raise one [SchemaRegistryException] whose text is
    the fixed prefix followed by the text of the cause, whatever the error
    code; a failure of another class passes through them unchanged; and the
    four serializer methods turn either kind of fetch failure into one
    [SchemaRegistryException]. *)
Theorem client_wraps_service_errors :
  forall (L : Libs) (c : GlueSchemaRegistryClient) (n : string) (ver : PyVal),
    (forall e code,
       boto_get_schema (glue_client c) (registry_name c) n = Raise e ->
       exc_class e = ClientError code ->
       get_schema c n =
         Raise (mkExc SchemaRegistryException ("Failed to get schema: " ++ exc_str e)))
    /\ (forall e code,
          boto_get_schema_version (glue_client c) (registry_name c) n ver = Raise e ->
          exc_class e = ClientError code ->
          get_schema_version c n ver =
            Raise (mkExc SchemaRegistryException
                     ("Failed to get schema version: " ++ exc_str e)))
    /\ (forall e,
          boto_get_schema (glue_client c) (registry_name c) n = Raise e ->
          is_ClientError e = false ->
          get_schema c n = Raise e)
    /\ (forall e,
          boto_get_schema_version (glue_client c) (registry_name c) n ver = Raise e ->
          is_ClientError e = false ->
          get_schema_version c n ver = Raise e)
    /\ (forall v, boto_get_schema (glue_client c) (registry_name c) n = Ok v ->
          get_schema c n = Ok v)
    /\ (forall v,
          boto_get_schema_version (glue_client c) (registry_name c) n ver = Ok v ->
          get_schema_version c n ver = Ok v)
    /\ (forall e r data,
          fetch_version c n = Raise e ->
          (exists m, AvroSerializer.serialize L c n r
                     = Raise (mkExc SchemaRegistryException m))
          /\ (exists m, AvroSerializer.deserialize L c n data
                        = Raise (mkExc SchemaRegistryException m))
          /\ (exists m, JsonSerializer.serialize L c n r
                        = Raise (mkExc SchemaRegistryException m))
          /\ (exists m, JsonSerializer.deserialize L c n data
                        = Raise (mkExc SchemaRegistryException m))).
Proof.
  intros L c n ver. repeat split.
  - intros e code H Hc. unfold get_schema. rewrite H. unfold except_ClientError.
    unfold is_ClientError. rewrite Hc. reflexivity.
  - intros e code H Hc. unfold get_schema_version. rewrite H.
    unfold except_ClientError, is_ClientError. rewrite Hc. reflexivity.
  - intros e H Hc. unfold get_schema. rewrite H. unfold except_ClientError.
    rewrite Hc. reflexivity.
  - intros e H Hc. unfold get_schema_version. rewrite H. unfold except_ClientError.
    rewrite Hc. reflexivity.
  - intros v H. unfold get_schema. rewrite H. reflexivity.
  - intros v H. unfold get_schema_version. rewrite H. reflexivity.
  - eexists. apply avro_serialize_raise. rewrite avro_serialize_body_fetch.
    unfold fetch_definition. rewrite bind_assoc. apply bind_raise. eassumption.
  - eexists. apply avro_deserialize_raise. rewrite avro_deserialize_body_fetch.
    unfold fetch_definition. rewrite bind_assoc. apply bind_raise. eassumption.
  - eexists. unfold JsonSerializer.serialize. rewrite json_serialize_body_fetch.
    rewrite (bind_raise _ _ _ H). reflexivity.
  - eexists. unfold JsonSerializer.deserialize. rewrite json_deserialize_body_fetch.
    rewrite (bind_raise _ _ _ H). reflexivity.
Qed.

(** The reference registry has no schema named [Unregistered]: the service
    answers with an [EntityNotFoundException], a [ClientError]. *)
Lemma missing_schema_is_wrapped_by_the_client :
  get_schema (Ref.client_of Ref.registry) "Unregistered"
  = Raise (mkExc SchemaRegistryException
             "Failed to get schema: An error occurred (EntityNotFoundException) when calling the GetSchema operation: Schema is not found.")
  /\ get_schema_version (Ref.client_of Ref.registry) "SalesforceAudit" (PInt 2)
     = Raise (mkExc SchemaRegistryException
                "Failed to get schema version: An error occurred (EntityNotFoundException) when calling the GetSchemaVersion operation: Schema is not found.")
  /\ (exists m,
        JsonSerializer.serialize Ref.libs (mkClient "registry" Ref.unreachable_glue)
          "SalesAuditJSON" (mkSalesforceAudit (PStr "") (PStr "") (PInt 0) (PStr ""))
        = Raise (mkExc SchemaRegistryException m)).
Proof.
  split; [|split].
  - refine (proj1
      (client_wraps_service_errors Ref.libs (Ref.client_of Ref.registry)
         "Unregistered" PNone)
      (mkExc (ClientError "EntityNotFoundException") _)
      "EntityNotFoundException" _ _); by_computation.
  - refine (proj1 (proj2
      (client_wraps_service_errors Ref.libs (Ref.client_of Ref.registry)
         "SalesforceAudit" (PInt 2)))
      (mkExc (ClientError "EntityNotFoundException") _)
      "EntityNotFoundException" _ _); by_computation.
  - pose proof (client_wraps_service_errors Ref.libs
                  (mkClient "registry" Ref.unreachable_glue) "SalesAuditJSON" PNone)
      as (_ & _ & _ & _ & _ & _ & H).
    refine (proj1 (proj2 (proj2
      (H (mkExc (BotoCoreError "EndpointConnectionError") _) _ [] _)))).
    vm_compute. reflexivity.
Defined.

(* ================================================================== *)
(** * Round trip                                                       *)
(* ================================================================== *)


(** The binary adapter composes the codec's steps. *)
Lemma avro_roundtrip_steps (L : Libs) c n r defn sd sch b row :
  valid_timestamp (timestamp r) = true ->
  fetch_definition c n = Ok defn ->
  py_json_loads L defn = Ok sd ->
  parse_schema L sd = Ok sch ->
  schemaless_writer L sch (AvroSerializer.record_of r) = Ok b ->
  schemaless_reader L sch b = Ok row ->
  getitem row "eventId" = Ok (event_id r) ->
  getitem row "eventName" = Ok (event_name r) ->
  getitem row "timestamp" = Ok (timestamp r) ->
  getitem row "eventDetails" = Ok (event_details r) ->
  AvroSerializer.serialize L c n r = Ok b
  /\ AvroSerializer.deserialize L c n b = Ok r.
Proof.
  intros V Hf Hl Hp Hw Hr Ha Hb Ht Hd. split.
  - unfold AvroSerializer.serialize. rewrite avro_serialize_body_fetch.
    rewrite (bind_ok _ _ _ Hf), (bind_ok _ _ _ Hl), (bind_ok _ _ _ Hp), Hw.
    reflexivity.
  - unfold AvroSerializer.deserialize. rewrite avro_deserialize_body_fetch.
    rewrite (bind_ok _ _ _ Hf), (bind_ok _ _ _ Hl), (bind_ok _ _ _ Hp).
    rewrite (bind_ok _ _ _ Hr), (bind_ok _ _ _ Ha), (bind_ok _ _ _ Hb).
    rewrite (bind_ok _ _ _ Ht), (bind_ok _ _ _ Hd).
    rewrite (new_valid _ _ _ _ V). destruct r; reflexivity.
Qed.

(** The textual adapter composes the codec's steps. *)
Lemma json_roundtrip_steps (L : Libs) c n r v s b s' doc :
  valid_timestamp (timestamp r) = true ->
  fetch_version c n = Ok v ->
  json_dumps L (to_dict r) = Ok s ->
  encode_utf8 L s = Ok b ->
  decode_utf8 L b = Ok s' ->
  json_loads L s' = Ok doc ->
  get doc "eventId" (PStr "") = Ok (event_id r) ->
  get doc "eventName" (PStr "") = Ok (event_name r) ->
  get doc "timestamp" (PInt 0) = Ok (timestamp r) ->
  get doc "eventDetails" (PStr "") = Ok (event_details r) ->
  JsonSerializer.serialize L c n r = Ok b
  /\ JsonSerializer.deserialize L c n b = Ok r.
Proof.
  intros V Hf Hj He Hu Hl Ha Hb Ht Hd. split.
  - unfold JsonSerializer.serialize. rewrite json_serialize_body_fetch.
    rewrite (bind_ok _ _ _ Hf), (bind_ok _ _ _ Hj), He. reflexivity.
  - unfold JsonSerializer.deserialize. rewrite json_deserialize_body_fetch.
    rewrite (bind_ok _ _ _ Hf), (bind_ok _ _ _ Hu), (bind_ok _ _ _ Hl).
    unfold from_dict.
    rewrite (bind_ok _ _ _ Ha), (bind_ok _ _ _ Hb).
    rewrite (bind_ok _ _ _ Ht), (bind_ok _ _ _ Hd).
    rewrite (new_valid _ _ _ _ V). destruct r; reflexivity.
Qed.





(** Record construction at the boundary values. *)
Lemma construction_at_the_boundaries :
  model.new (PStr "") (PStr "") (PInt 0) (PStr "")
  = Ok (mkSalesforceAudit (PStr "") (PStr "") (PInt 0) (PStr ""))
  /\ (exists e, model.new (PStr "evt-001") (PStr "Create") (PInt (-1)) (PStr "d")
                = Raise e /\ exc_class e = ValueError)
  /\ (exists e, model.new (PStr "evt-001") (PStr "Create") (PFloat "1.5") (PStr "d")
                = Raise e /\ exc_class e = ValueError)
  /\ (exists e, model.new (PStr "evt-001") (PStr "Create") (PStr "12") (PStr "d")
                = Raise e /\ exc_class e = ValueError).
Proof.
  split; [|split; [|split]].
  - apply (proj2 (proj2 (proj2
      (construction_fails_iff_timestamp_invalid (PStr "") (PStr "") (PInt 0)
         (PStr "")))) 0). discriminate.
  - apply (proj1 (proj2 (proj2
      (construction_fails_iff_timestamp_invalid (PStr "evt-001") (PStr "Create")
         (PInt 0) (PStr "d"))))).
  - apply (proj1
      (construction_fails_iff_timestamp_invalid (PStr "evt-001") (PStr "Create")
         (PFloat "1.5") (PStr "d"))). left. reflexivity.
  - apply (proj1
      (construction_fails_iff_timestamp_invalid (PStr "evt-001") (PStr "Create")
         (PStr "12") (PStr "d"))). left. reflexivity.
Defined.

(* ================================================================== *)
(** * Records in the store: calls of the package and assignments       *)
(* ================================================================== *)

Import Runtime.

Lemma from_dict_ok_valid (data : PyVal) (rec : SalesforceAudit) :
  from_dict data = Ok rec -> valid rec.
Proof.
  unfold from_dict. intros H.
  peel H a Ha. peel H b Hb. peel H t Ht. peel H d Hd.
  apply new_ok_inv in H. destruct H as [-> V]. exact V.
Qed.

Lemma alloc_extends (h : Heap) (r : Res SalesforceAudit) :
  (forall rec, r = Ok rec -> valid rec) ->
  fst (alloc h r) = h
  \/ exists rec, fst (alloc h r) = (h ++ [rec])%list /\ valid rec.
Proof.
  intros Hv. destruct r as [rec|e]; simpl.
  - right. exists rec. split; [reflexivity | apply Hv; reflexivity].
  - left. reflexivity.
Qed.

Lemma reading_keeps (h : Heap) (self : addr) (k : SalesforceAudit -> Outcome) :
  fst (reading h self k) = h.
Proof. unfold reading. destruct (nth_error h self); reflexivity. Qed.

(** A call into the package leaves the store as it is, or appends one valid
    Record. *)
Lemma step_extends (L : Libs) (h : Heap) (op : Op) :
  package_op op = true ->
  fst (step L h op) = h
  \/ exists rec, fst (step L h op) = (h ++ [rec])%list /\ valid rec.
Proof.
  intros P. destruct op; simpl in P; try discriminate P; simpl;
    try (left; apply reading_keeps);
    try (left; reflexivity);
    apply alloc_extends; intros rec H.
  - apply new_ok_inv in H. destruct H as [-> V]. exact V.
  - apply (from_dict_ok_valid _ _ H).
  - apply avro_deserialize_ok_inv in H.
    destruct H as (? & ? & ? & ? & H). apply H.
  - apply json_deserialize_ok_inv in H.
    destruct H as (? & ? & ? & H). apply H.
Qed.

Lemma step_keeps_records (L : Libs) (h : Heap) (op : Op) (a : addr) rec :
  package_op op = true ->
  nth_error h a = Some rec -> nth_error (fst (step L h op)) a = Some rec.
Proof.
  intros P H. destruct (step_extends L h op P) as [-> | [r [-> _]]]; [exact H|].
  rewrite nth_error_app1; [exact H|].
  apply nth_error_Some. rewrite H. discriminate.
Qed.

Lemma step_keeps_validity (L : Libs) (h : Heap) (op : Op) :
  package_op op = true ->
  Forall valid h -> Forall valid (fst (step L h op)).
Proof.
  intros P H. destruct (step_extends L h op P) as [-> | [r [-> V]]]; [exact H|].
  apply Forall_app. split; [exact H|]. constructor; [exact V | constructor].
Qed.

Lemma run_keeps_records (L : Libs) (ops : list Op) :
  forallb package_op ops = true ->
  forall h a rec,
    nth_error h a = Some rec -> nth_error (run L h ops) a = Some rec.
Proof.
  induction ops as [|op rest IH]; intros P h a rec H; simpl.
  - exact H.
  - simpl in P. apply andb_true_iff in P. destruct P as [P1 P2].
    apply (IH P2). apply step_keeps_records; [exact P1 | exact H].
Qed.

Lemma run_keeps_validity (L : Libs) (ops : list Op) :
  forallb package_op ops = true ->
  forall h, Forall valid h -> Forall valid (run L h ops).
Proof.
  induction ops as [|op rest IH]; intros P h H; simpl.
  - exact H.
  - simpl in P. apply andb_true_iff in P. destruct P as [P1 P2].
    apply (IH P2). apply step_keeps_validity; [exact P1 | exact H].
Qed.

Lemma store_at_same (h : Heap) :
  forall (a : addr) (old rec : SalesforceAudit),
    nth_error h a = Some old -> nth_error (store_at h a rec) a = Some rec.
Proof.
  induction h as [|x rest IH]; intros [|a] old rec H; simpl in *;
    try discriminate H.
  - reflexivity.
  - apply (IH a old rec H).
Qed.

Lemma store_at_other (h : Heap) :
  forall (a a' : addr) (rec : SalesforceAudit),
    a' <> a -> nth_error (store_at h a rec) a' = nth_error h a'.
Proof.
  induction h as [|x rest IH]; intros [|a] [|a'] rec H; simpl;
    try reflexivity.
  - exfalso. apply H. reflexivity.
  - apply IH. intros E. apply H. rewrite E. reflexivity.
Qed.

Lemma store_at_length (h : Heap) :
  forall (a : addr) (rec : SalesforceAudit),
    List.length (store_at h a rec) = List.length h.
Proof.
  induction h as [|x rest IH]; intros [|a] rec; simpl; try reflexivity.
  rewrite IH. reflexivity.
Qed.

(** C7, as stated, fails: the dataclass is not frozen, so a caller that
    holds a constructed Record can assign to its [timestamp].  The
    assignment is accepted, the Record of the store then holds [-3], which
    the constructor would refuse, and [JsonSerializer.serialize] writes it
    without a check. *)
Lemma an_assignment_changes_a_constructed_record :
  let evt := CallNew (PStr "evt-001") (PStr "Create") (PInt 1609459200000)
               (PStr "d") in
  let c := Ref.client_of Ref.registry in
  nth_error (run Ref.libs [] [evt]) 0%nat
    = Some (mkSalesforceAudit (PStr "evt-001") (PStr "Create")
              (PInt 1609459200000) (PStr "d"))
  /\ step Ref.libs (run Ref.libs [] [evt]) (Assign 0%nat F_timestamp (PInt (-3)))
     = ([mkSalesforceAudit (PStr "evt-001") (PStr "Create") (PInt (-3)) (PStr "d")],
        Returned PNone)
  /\ valid_timestamp (PInt (-3)) = false
  /\ (exists e, model.new (PStr "evt-001") (PStr "Create") (PInt (-3)) (PStr "d")
                = Raise e)
  /\ snd (step Ref.libs
            (run Ref.libs [] [evt; Assign 0%nat F_timestamp (PInt (-3))])
            (CallJsonSerialize c "SalesAuditJSON" 0%nat))
     = ReturnedBytes
         (Ref.str_encode
            (Ref.json_text
               "{'eventId': 'evt-001', 'eventName': 'Create', 'timestamp': -3, 'eventDetails': 'd'}")).
Proof.
  cbv zeta. split; [by_computation|]. split; [by_computation|].
  split; [by_computation|]. split; [eexists; by_computation|]. by_computation.
Qed.

(** C7, amended.  A Record is a mutable object.  The calls into the package
    (the constructor, [to_dict], [from_dict], the registry calls and the
    four serializer methods) write to no Record that exists: after any
    sequence of them every Record of the store holds the four fields it held
    before, and every Record they have created has a valid timestamp,
    checked by the constructor only.  An attribute assignment, which the
    dataclass permits, stores the value in the addressed field of the
    addressed Record, whatever the value is, and changes nothing else; the
    constructor's check is not run again, and the serializers hand the
    mapping of the Record to their codec without looking at the timestamp. *)
Theorem records_change_by_assignment_only :
  forall (L : Libs),
    (forall ops h a rec,
       forallb package_op ops = true ->
       nth_error h a = Some rec -> nth_error (run L h ops) a = Some rec)
    /\ (forall ops h,
          forallb package_op ops = true ->
          Forall valid h -> Forall valid (run L h ops))
    /\ (forall ops, forallb package_op ops = true -> Forall valid (run L [] ops))
    /\ (forall h a rec f v,
          nth_error h a = Some rec ->
          snd (step L h (Assign a f v)) = Returned PNone
          /\ nth_error (fst (step L h (Assign a f v))) a = Some (setattr rec f v)
          /\ (forall a', a' <> a ->
                nth_error (fst (step L h (Assign a f v))) a' = nth_error h a')
          /\ List.length (fst (step L h (Assign a f v))) = List.length h)
    /\ (forall rec v,
          timestamp (setattr rec F_timestamp v) = v
          /\ event_id (setattr rec F_timestamp v) = event_id rec
          /\ event_name (setattr rec F_timestamp v) = event_name rec
          /\ event_details (setattr rec F_timestamp v) = event_details rec)
    /\ (forall c n rec defn sd sch,
          fetch_definition c n = Ok defn ->
          py_json_loads L defn = Ok sd ->
          parse_schema L sd = Ok sch ->
          AvroSerializer.serialize L c n rec
          = except_Exception "Failed to serialize SalesforceAudit: "
              (schemaless_writer L sch
                 (PDict [ ("eventId", event_id rec);
                          ("eventName", event_name rec);
                          ("timestamp", timestamp rec);
                          ("eventDetails", event_details rec) ])))
    /\ (forall c n rec ver,
          fetch_version c n = Ok ver ->
          JsonSerializer.serialize L c n rec
          = except_Exception "Failed to serialize SalesforceAudit to JSON: "
              (json_str <- json_dumps L
                             (PDict [ ("eventId", event_id rec);
                                      ("eventName", event_name rec);
                                      ("timestamp", timestamp rec);
                                      ("eventDetails", event_details rec) ]) ;;
               encode_utf8 L json_str)).
Proof.
  intros L. repeat split.
  - intros ops h a rec P H. apply (run_keeps_records L ops P h a rec H).
  - intros ops h P H. apply (run_keeps_validity L ops P h H).
  - intros ops P. apply (run_keeps_validity L ops P). constructor.
  - simpl. unfold assigning. rewrite H. reflexivity.
  - simpl. unfold assigning. rewrite H. simpl.
    apply (store_at_same h a rec _ H).
  - intros a' Ha. simpl. unfold assigning. rewrite H. simpl.
    apply store_at_other. exact Ha.
  - simpl. unfold assigning. rewrite H. simpl. apply store_at_length.
  - intros c n rec defn sd sch Hd Hs Hp.
    unfold AvroSerializer.serialize. rewrite avro_serialize_body_fetch.
    rewrite Hd. simpl. rewrite Hs. simpl. rewrite Hp. reflexivity.
  - intros c n rec ver Hv.
    unfold JsonSerializer.serialize. rewrite json_serialize_body_fetch.
    rewrite Hv. reflexivity.
Qed.

(** A session on the reference registry: two constructor calls (the second
    refused), both serializers on the first Record, a [deserialize] that
    allocates a second Record, and [to_dict]; then the same first Record
    after an assignment to its [event_name]. *)
Lemma sample_session_keeps_the_first_record :
  nth_error
    (run Ref.libs
       [mkSalesforceAudit (PStr "evt-001") (PStr "Create") (PInt 1609459200000)
          (PStr "Created new account")]
       [CallNew (PStr "evt-002") (PStr "Update") (PInt (-1)) (PStr "refused");
        CallAvroSerialize (Ref.client_of Ref.registry) "SalesforceAudit" 0%nat;
        CallJsonSerialize (Ref.client_of Ref.registry) "SalesAuditJSON" 0%nat;
        CallJsonDeserialize (Ref.client_of Ref.registry) "SalesAuditJSON"
          (Ref.str_encode (Ref.json_text "{'eventId': 'x'}"));
        CallToDict 0%nat])
    0%nat
  = Some (mkSalesforceAudit (PStr "evt-001") (PStr "Create") (PInt 1609459200000)
            (PStr "Created new account"))
  /\ Forall valid
       (run Ref.libs []
          [CallNew (PStr "evt-001") (PStr "Create") (PInt 1609459200000)
             (PStr "Created new account");
           CallNew (PStr "evt-002") (PStr "Update") (PInt (-1)) (PStr "refused");
           CallAvroDeserialize (Ref.client_of Ref.registry) "SalesforceAudit"
             [x00; x00; x01; x00];
           CallFromDict (PDict [("timestamp", PBool true)])])
  /\ nth_error
       (fst (step Ref.libs
               [mkSalesforceAudit (PStr "evt-001") (PStr "Create")
                  (PInt 1609459200000) (PStr "Created new account")]
               (Assign 0%nat F_event_name (PStr "Update"))))
       0%nat
     = Some (mkSalesforceAudit (PStr "evt-001") (PStr "Update")
               (PInt 1609459200000) (PStr "Created new account")).
Proof.
  split; [|split].
  - apply (proj1 (records_change_by_assignment_only Ref.libs));
      reflexivity.
  - apply (proj1 (proj2 (proj2 (records_change_by_assignment_only Ref.libs)))).
    reflexivity.
  - apply (proj1 (proj2
             (proj1 (proj2 (proj2 (proj2
                (records_change_by_assignment_only Ref.libs))))
                [mkSalesforceAudit (PStr "evt-001") (PStr "Create")
                   (PInt 1609459200000) (PStr "Created new account")]
                0%nat _ F_event_name (PStr "Update") eq_refl))).
Defined.

(* ================================================================== *)
(** * The reference codec inverts itself                               *)
(* ================================================================== *)

Lemma Z_of_byte_of_Z (n : Z) :
  0 <= n < 256 -> Ref.Z_of_byte (Ref.byte_of_Z n) = n.
Proof.
  intros H. unfold Ref.Z_of_byte, Ref.byte_of_Z.
  destruct (Byte.of_N (Z.to_N n)) as [b|] eqn:E.
  - apply Byte.to_of_N in E. rewrite E. lia.
  - apply Byte.of_N_None_iff in E. lia.
Qed.

Lemma code_range (c : ascii) : 0 <= Ref.code c < 256.
Proof.
  unfold Ref.code. pose proof (N_ascii_bounded c). lia.
Qed.

Lemma chr_code (c : ascii) : Ref.chr (Ref.code c) = c.
Proof.
  unfold Ref.chr, Ref.code. rewrite N2Z.id. apply ascii_N_embedding.
Qed.

Lemma code_chr (n : Z) : 0 <= n < 256 -> Ref.code (Ref.chr n) = n.
Proof.
  intros H. unfold Ref.chr, Ref.code.
  rewrite N_ascii_embedding; lia.
Qed.

(** ** Zig-zag and varint *)

Lemma land_1 (m : Z) : Z.land m 1 = m mod 2.
Proof. change 1 with (Z.ones 1). rewrite Z.land_ones by lia. reflexivity. Qed.

Lemma zigzag_value (n : Z) :
  - 2 ^ 63 <= n < 2 ^ 63 ->
  Ref.zigzag n = if n <? 0 then - 2 * n - 1 else 2 * n.
Proof.
  intros H. unfold Ref.zigzag.
  rewrite Z.shiftl_mul_pow2, Z.shiftr_div_pow2 by lia.
  change (2 ^ 1) with 2.
  destruct (n <? 0) eqn:E.
  - apply Z.ltb_lt in E.
    assert (Hq : n / 2 ^ 63 = -1).
    { symmetry. apply (Z.div_unique n (2 ^ 63) (-1) (n + 2 ^ 63)); lia. }
    rewrite Hq, Z.lxor_m1_r. unfold Z.lnot. lia.
  - apply Z.ltb_ge in E.
    rewrite Z.div_small by lia. rewrite Z.lxor_0_r. lia.
Qed.

Lemma zigzag_range (n : Z) :
  - 2 ^ 63 <= n < 2 ^ 63 -> 0 <= Ref.zigzag n < 2 ^ 64.
Proof.
  intros H. rewrite (zigzag_value n H). destruct (n <? 0) eqn:E.
  - apply Z.ltb_lt in E. lia.
  - apply Z.ltb_ge in E. lia.
Qed.

Lemma unzigzag_zigzag (n : Z) :
  - 2 ^ 63 <= n < 2 ^ 63 -> Ref.unzigzag (Ref.zigzag n) = n.
Proof.
  intros H. rewrite (zigzag_value n H). unfold Ref.unzigzag.
  rewrite land_1, Z.shiftr_div_pow2 by lia. change (2 ^ 1) with 2.
  destruct (n <? 0) eqn:E.
  - apply Z.ltb_lt in E.
    replace (- 2 * n - 1) with (1 + (- n - 1) * 2) by lia.
    rewrite Z.div_add, Z.mod_add by lia.
    change (1 / 2) with 0. change (1 mod 2) with 1.
    rewrite Z.lxor_m1_r. unfold Z.lnot. lia.
  - replace (2 * n) with (0 + n * 2) by lia.
    rewrite Z.div_add, Z.mod_add by lia.
    change (0 / 2) with 0. change (0 mod 2) with 0.
    rewrite Z.lxor_0_r. lia.
Qed.

Lemma lor_add (a b : Z) : Z.land a b = 0 -> Z.lor a b = a + b.
Proof. intros H. rewrite <- (Z.add_lor_land a b), H. lia. Qed.

(** A property of bytes that holds by enumeration. *)
Lemma byte_range_check (P : Z -> bool) :
  forallb P (map Z.of_nat (seq 0 256)) = true ->
  forall x, 0 <= x < 256 -> P x = true.
Proof.
  intros H x Hx. rewrite forallb_forall in H. apply H.
  apply in_map_iff. exists (Z.to_nat x). split; [lia|].
  apply in_seq. lia.
Qed.

Lemma low_seven_bits (m : Z) :
  0 <= m < 128 ->
  Z.land m 127 = m /\ Z.land m 128 = 0
  /\ Z.lor m 128 = m + 128
  /\ Z.land (m + 128) 127 = m
  /\ (Z.land (m + 128) 128 =? 0) = false.
Proof.
  intros H.
  pose proof (byte_range_check
    (fun x => (128 <=? x)
              || ((Z.land x 127 =? x) && (Z.land x 128 =? 0)
                  && (Z.lor x 128 =? x + 128)
                  && (Z.land (x + 128) 127 =? x)
                  && negb (Z.land (x + 128) 128 =? 0)))
    ltac:(vm_compute; reflexivity) m ltac:(lia)) as C.
  cbv beta in C. apply orb_true_iff in C. destruct C as [C|C].
  - apply Z.leb_le in C. lia.
  - repeat (apply andb_true_iff in C; destruct C as [C ?]).
    repeat match goal with
           | E : (_ =? _) = true |- _ => apply Z.eqb_eq in E
           | E : negb _ = true |- _ => apply negb_true_iff in E
           end.
    repeat split; assumption.
Qed.

(** A varint of [fuel] bytes holds [7 * fuel] bits. *)
Lemma read_write_varint (fuel : nat) :
  forall (n shift acc : Z) (rest : bytes),
    0 <= n < 2 ^ (7 * Z.of_nat fuel) ->
    0 <= shift ->
    (0 < fuel)%nat ->
    Ref.read_varint (Ref.write_varint fuel n ++ rest)%list shift acc
    = Ok (Z.lor acc (Z.shiftl n shift), rest).
Proof.
  induction fuel as [|fuel IH]; intros n shift acc rest Hn Hs Hf; [lia|].
  simpl Ref.write_varint.
  assert (Hhigh : Z.land n (Z.lnot 127) = n / 128 * 128).
  { change 127 with (Z.ones 7). rewrite <- Z.ldiff_land.
    rewrite Z.ldiff_ones_r by lia.
    rewrite Z.shiftl_mul_pow2, Z.shiftr_div_pow2 by lia. reflexivity. }
  assert (Hlow : Z.land n 127 = n mod 128).
  { change 127 with (Z.ones 7). rewrite Z.land_ones by lia. reflexivity. }
  pose proof (Z.div_mod n 128 ltac:(lia)) as Hdm.
  pose proof (Z.mod_pos_bound n 128 ltac:(lia)) as Hm.
  rewrite Hhigh, Hlow.
  destruct (low_seven_bits (n mod 128) Hm) as (L1 & L2 & L3 & L4 & L5).
  destruct (n / 128 * 128 =? 0) eqn:E.
  - apply Z.eqb_eq in E.
    assert (Hsmall : n mod 128 = n) by lia.
    rewrite Hsmall in L1, L2.
    simpl. rewrite Z_of_byte_of_Z by lia.
    rewrite L1, L2. reflexivity.
  - apply Z.eqb_neq in E.
    simpl. rewrite L3. rewrite Z_of_byte_of_Z by lia.
    rewrite L4, L5.
    destruct fuel as [|fuel'].
    { exfalso. change (7 * Z.of_nat 1) with 7 in Hn.
      change (2 ^ 7) with 128 in Hn.
      rewrite Z.div_small in E by lia. lia. }
    rewrite Z.shiftr_div_pow2 by lia. change (2 ^ 7) with 128.
    rewrite IH.
    + f_equal. f_equal.
      rewrite <- Z.lor_assoc. f_equal.
      rewrite !Z.shiftl_mul_pow2 by lia.
      rewrite Z.pow_add_r by lia. change (2 ^ 7) with 128.
      rewrite lor_add; [nia|].
      apply Z.bits_inj'. intros k Hk. rewrite Z.land_spec, Z.bits_0.
      replace (n / 128 * (2 ^ shift * 128)) with (n / 128 * 2 ^ (shift + 7)).
      2:{ rewrite Z.pow_add_r by lia. change (2 ^ 7) with 128. reflexivity. }
      rewrite <- !Z.shiftl_mul_pow2 by lia.
      rewrite !Z.shiftl_spec by lia.
      destruct (Z_lt_le_dec (k - shift) 7).
      * rewrite (Z.testbit_neg_r _ (k - (shift + 7))) by lia.
        apply andb_false_r.
      * rewrite <- L1. rewrite Z.land_spec.
        change 127 with (Z.ones 7). rewrite Z.ones_spec_high by lia.
        rewrite andb_false_r. reflexivity.
    + split; [apply Z.div_pos; lia|].
      apply Z.div_lt_upper_bound; [lia|].
      replace (7 * Z.of_nat (S (S fuel'))) with (7 + 7 * Z.of_nat (S fuel')) in Hn by lia.
      rewrite Z.pow_add_r in Hn by lia. change (2 ^ 7) with 128 in Hn.
      exact (proj2 Hn).
    + lia.
    + lia.
Qed.

Lemma write_long_ok (n : Z) :
  - 2 ^ 63 <= n < 2 ^ 63 ->
  Ref.write_long n = Ok (Ref.write_varint 10 (Ref.zigzag n)).
Proof.
  intros [H1 H2]. unfold Ref.write_long.
  apply Z.leb_le in H1. apply Z.ltb_lt in H2. rewrite H1, H2. reflexivity.
Qed.

Lemma read_write_long (n : Z) (rest : bytes) :
  - 2 ^ 63 <= n < 2 ^ 63 ->
  Ref.read_long (Ref.write_varint 10 (Ref.zigzag n) ++ rest)%list = Ok (n, rest).
Proof.
  intros H. unfold Ref.read_long.
  rewrite read_write_varint.
  - unfold bind. cbv [fst snd]. rewrite Z.shiftl_0_r, Z.lor_0_l.
    rewrite unzigzag_zigzag by exact H. reflexivity.
  - pose proof (zigzag_range n H).
    change (7 * Z.of_nat 10) with 70.
    assert (2 ^ 64 < 2 ^ 70) by (apply Z.pow_lt_mono_r; lia). lia.
  - lia.
  - lia.
Qed.

(** ** UTF-8 *)

Lemma decode_utf8_cons (b : byte) (rest : bytes) :
  Ref.decode_utf8 (b :: rest) =
    (let n := Ref.Z_of_byte b in
     if n <? 128 then
       s <- Ref.decode_utf8 rest ;; Ok (String (Ref.chr n) s)
     else if (n =? 194) || (n =? 195) then
       match rest with
       | b2 :: rest2 =>
           let m := Ref.Z_of_byte b2 in
           if Z.land m 192 =? 128 then
             s <- Ref.decode_utf8 rest2 ;;
             Ok (String (Ref.chr (Z.lor (Z.shiftl (Z.land n 31) 6) (Z.land m 63))) s)
           else Raise (mkExc UnicodeDecodeError "invalid continuation byte")
       | [] => Raise (mkExc UnicodeDecodeError "unexpected end of data")
       end
     else Raise (mkExc UnicodeDecodeError "invalid start byte")).
Proof. reflexivity. Qed.

Lemma two_byte_sequence (n : Z) :
  128 <= n < 256 ->
  0 <= Z.lor 192 (Z.shiftr n 6) < 256
  /\ 0 <= Z.lor 128 (Z.land n 63) < 256
  /\ (Z.lor 192 (Z.shiftr n 6) <? 128) = false
  /\ ((Z.lor 192 (Z.shiftr n 6) =? 194) || (Z.lor 192 (Z.shiftr n 6) =? 195)) = true
  /\ (Z.land (Z.lor 128 (Z.land n 63)) 192 =? 128) = true
  /\ Z.lor (Z.shiftl (Z.land (Z.lor 192 (Z.shiftr n 6)) 31) 6)
           (Z.land (Z.lor 128 (Z.land n 63)) 63) = n.
Proof.
  intros H.
  pose proof (byte_range_check
    (fun x => (x <? 128)
              || ((0 <=? Z.lor 192 (Z.shiftr x 6))
                  && (Z.lor 192 (Z.shiftr x 6) <? 256)
                  && (0 <=? Z.lor 128 (Z.land x 63))
                  && (Z.lor 128 (Z.land x 63) <? 256)
                  && negb (Z.lor 192 (Z.shiftr x 6) <? 128)
                  && ((Z.lor 192 (Z.shiftr x 6) =? 194)
                      || (Z.lor 192 (Z.shiftr x 6) =? 195))
                  && (Z.land (Z.lor 128 (Z.land x 63)) 192 =? 128)
                  && (Z.lor (Z.shiftl (Z.land (Z.lor 192 (Z.shiftr x 6)) 31) 6)
                            (Z.land (Z.lor 128 (Z.land x 63)) 63) =? x)))
    ltac:(vm_compute; reflexivity) n ltac:(lia)) as C.
  cbv beta in C. apply orb_true_iff in C. destruct C as [C|C].
  - apply Z.ltb_lt in C. lia.
  - apply andb_true_iff in C. destruct C as [C C8].
    apply andb_true_iff in C. destruct C as [C C7].
    apply andb_true_iff in C. destruct C as [C C6].
    apply andb_true_iff in C. destruct C as [C C5].
    apply andb_true_iff in C. destruct C as [C C4].
    apply andb_true_iff in C. destruct C as [C C3].
    apply andb_true_iff in C. destruct C as [C1 C2].
    apply Z.leb_le in C1. apply Z.ltb_lt in C2.
    apply Z.leb_le in C3. apply Z.ltb_lt in C4.
    apply negb_true_iff in C5. apply Z.eqb_eq in C8.
    repeat split; assumption.
Qed.

Lemma decode_encode_utf8 (s : string) :
  Ref.decode_utf8 (Ref.str_encode s) = Ok s.
Proof.
  induction s as [|c rest IH]; [reflexivity|].
  cbn [Ref.str_encode]. cbv zeta.
  pose proof (code_range c) as Hc.
  destruct (Ref.code c <? 128) eqn:E.
  - rewrite decode_utf8_cons. cbv zeta.
    rewrite Z_of_byte_of_Z by lia. rewrite E, IH.
    unfold bind. rewrite chr_code. reflexivity.
  - apply Z.ltb_ge in E.
    destruct (two_byte_sequence (Ref.code c) ltac:(lia))
      as (R1 & R2 & F1 & F2 & F3 & F4).
    rewrite decode_utf8_cons. cbv zeta.
    rewrite !Z_of_byte_of_Z by assumption.
    rewrite F1, F2, F3, F4, IH.
    unfold bind. rewrite chr_code. reflexivity.
Qed.

(** ** One string field, one long field *)

Lemma write_string_ok (s : string) :
  Z.of_nat (List.length (Ref.str_encode s)) < 2 ^ 63 ->
  Ref.write_data Ref.AvString (PStr s)
  = Ok (Ref.write_varint 10 (Ref.zigzag (Z.of_nat (List.length (Ref.str_encode s))))
          ++ Ref.str_encode s)%list.
Proof.
  intros Hlen. unfold Ref.write_data.
  rewrite write_long_ok by lia. reflexivity.
Qed.

Lemma read_string (s : string) (rest : bytes) :
  Z.of_nat (List.length (Ref.str_encode s)) < 2 ^ 63 ->
  Ref.read_data Ref.AvString
    ((Ref.write_varint 10 (Ref.zigzag (Z.of_nat (List.length (Ref.str_encode s))))
        ++ Ref.str_encode s) ++ rest)%list
  = Ok (PStr s, rest).
Proof.
  intros Hlen.
  set (payload := Ref.str_encode s) in *.
  assert (Hr : - 2 ^ 63 <= Z.of_nat (List.length payload) < 2 ^ 63) by lia.
  unfold Ref.read_data. rewrite <- app_assoc.
  rewrite (read_write_long _ _ Hr). unfold bind at 1. cbv [fst snd]. cbv zeta.
  assert (Hsz : (Z.of_nat (List.length payload) <? 0) = false)
    by (apply Z.ltb_ge; lia).
  assert (Hav : (Z.of_nat (List.length (payload ++ rest))
                 <? Z.of_nat (List.length payload)) = false).
  { apply Z.ltb_ge. rewrite length_app. lia. }
  rewrite Hsz, Hav. cbn [orb]. rewrite Nat2Z.id.
  rewrite firstn_app, firstn_all, Nat.sub_diag, firstn_O, app_nil_r.
  rewrite skipn_app, skipn_all, Nat.sub_diag, skipn_O.
  unfold payload. rewrite decode_encode_utf8. reflexivity.
Qed.

Lemma write_timestamp_ok (t : Z) :
  - 2 ^ 63 <= t < 2 ^ 63 ->
  Ref.write_data Ref.AvLong (PInt t) = Ok (Ref.write_varint 10 (Ref.zigzag t)).
Proof.
  intros Hr. unfold Ref.write_data. cbn [isinstance_int int_value].
  apply write_long_ok. exact Hr.
Qed.

Lemma read_timestamp (t : Z) (rest : bytes) :
  - 2 ^ 63 <= t < 2 ^ 63 ->
  Ref.read_data Ref.AvLong (Ref.write_varint 10 (Ref.zigzag t) ++ rest)%list
  = Ok (PInt t, rest).
Proof.
  intros Hr. unfold Ref.read_data. rewrite (read_write_long _ _ Hr). reflexivity.
Qed.

(** ** The binary adapter on the audit schema *)

(** With the reference codec and the audit schema in the registry, the
    binary adapter returns every Record of three texts and a timestamp
    within the range of a long. *)
Theorem reference_avro_roundtrip (a b d : string) (t : Z) :
  0 <= t < 2 ^ 63 ->
  Z.of_nat (List.length (Ref.str_encode a)) < 2 ^ 63 ->
  Z.of_nat (List.length (Ref.str_encode b)) < 2 ^ 63 ->
  Z.of_nat (List.length (Ref.str_encode d)) < 2 ^ 63 ->
  exists data,
    AvroSerializer.serialize Ref.libs (Ref.client_of Ref.registry) "SalesforceAudit"
      (mkSalesforceAudit (PStr a) (PStr b) (PInt t) (PStr d)) = Ok data
    /\ AvroSerializer.deserialize Ref.libs (Ref.client_of Ref.registry)
         "SalesforceAudit" data
       = Ok (mkSalesforceAudit (PStr a) (PStr b) (PInt t) (PStr d)).
Proof.
  intros Ht Ha Hb Hd.
  assert (Hfields :
    Ref.parse_schema
      (PDict [("type", PStr "record"); ("name", PStr "SalesforceAudit");
              ("fields",
               PList [PDict [("name", PStr "eventId"); ("type", PStr "string")];
                      PDict [("name", PStr "eventName"); ("type", PStr "string")];
                      PDict [("name", PStr "timestamp"); ("type", PStr "long")];
                      PDict [("name", PStr "eventDetails"); ("type", PStr "string")]])])
    = Ok (Ref.SRecord "SalesforceAudit"
            [("eventId", Ref.AvString); ("eventName", Ref.AvString);
             ("timestamp", Ref.AvLong); ("eventDetails", Ref.AvString)]))
    by (vm_compute; reflexivity).
  eexists.
  eapply (avro_roundtrip_steps Ref.libs _ _ _ (PStr Ref.audit_schema_text)).
  - cbn [timestamp]. unfold valid_timestamp. cbn [isinstance_int int_value andb].
    apply Z.leb_le. lia.
  - vm_compute. reflexivity.
  - vm_compute. reflexivity.
  - exact Hfields.
  - cbn [schemaless_writer Ref.libs Ref.schemaless_writer AvroSerializer.record_of
         event_id event_name timestamp event_details].
    cbn [Ref.write_record].
    change (lookup _ "eventId") with (Some (PStr a)).
    change (lookup _ "eventName") with (Some (PStr b)).
    change (lookup _ "timestamp") with (Some (PInt t)).
    change (lookup _ "eventDetails") with (Some (PStr d)).
    cbv beta iota.
    rewrite (write_string_ok a Ha), (write_string_ok b Hb), (write_string_ok d Hd).
    rewrite (write_timestamp_ok t) by lia.
    cbn [bind]. reflexivity.
  - cbn [schemaless_reader Ref.libs Ref.schemaless_reader].
    cbn [Ref.read_record].
    rewrite (read_string a _ Ha). cbn [bind fst snd].
    rewrite (read_string b _ Hb). cbn [bind fst snd].
    rewrite (read_timestamp t) by lia. cbn [bind fst snd].
    rewrite (read_string d _ Hd). cbn [bind fst snd].
    reflexivity.
  - reflexivity.
  - reflexivity.
  - reflexivity.
  - reflexivity.
Qed.

(** The bound on the timestamp is needed: [2 ^ 63] is the timestamp of a
    valid Record and does not fit an Avro long. *)
Lemma timestamp_beyond_a_long_is_not_encoded :
  model.new (PStr "") (PStr "") (PInt (2 ^ 63)) (PStr "")
  = Ok (mkSalesforceAudit (PStr "") (PStr "") (PInt (2 ^ 63)) (PStr ""))
  /\ AvroSerializer.serialize Ref.libs (Ref.client_of Ref.registry) "SalesforceAudit"
       (mkSalesforceAudit (PStr "") (PStr "") (PInt (2 ^ 63)) (PStr ""))
     = Raise (mkExc SchemaRegistryException
                "Failed to serialize SalesforceAudit: Python int too large to convert to C long").
Proof. split; vm_compute; reflexivity. Qed.

(** ** JSON strings *)

Lemma append_assoc (a b c : string) : (a ++ b) ++ c = a ++ (b ++ c).
Proof. induction a as [|x a IH]; simpl; [reflexivity | rewrite IH; reflexivity]. Qed.

Lemma scan_escaped_char (c : ascii) (tail : string) :
  Ref.scan_string (Ref.escape_char c ++ tail) =
    (p <- Ref.scan_string tail ;; Ok (String c (fst p), snd p)).
Proof.
  destruct c as [b0 b1 b2 b3 b4 b5 b6 b7].
  destruct b0, b1, b2, b3, b4, b5, b6, b7; reflexivity.
Qed.

Lemma scan_escaped (s rest : string) :
  Ref.scan_string (Ref.escape s ++ Ref.dquote ++ rest) = Ok (s, rest).
Proof.
  induction s as [|c s IH].
  - reflexivity.
  - cbn [Ref.escape]. rewrite append_assoc, scan_escaped_char, IH. reflexivity.
Qed.

Lemma parse_quoted (fuel : nat) (s rest : string) :
  Ref.parse_value (S fuel) (Ref.quote s ++ rest) = Ok (PStr s, rest).
Proof.
  unfold Ref.quote. rewrite !append_assoc.
  change (Ref.dquote ++ Ref.escape s ++ Ref.dquote ++ rest)
    with (String (Ref.chr 34) (Ref.escape s ++ Ref.dquote ++ rest)).
  cbn [Ref.parse_value]. 
  change (Ref.code (Ref.chr 34) =? 34) with true. cbv iota.
  rewrite scan_escaped. reflexivity.
Qed.

(** ** JSON integers *)

Lemma digit_char (k : Z) :
  0 <= k < 10 ->
  Ref.is_digit (Ref.chr (48 + k)) = true /\ Ref.code (Ref.chr (48 + k)) - 48 = k.
Proof.
  intros H. unfold Ref.is_digit. rewrite code_chr by lia.
  split; [|lia]. apply andb_true_iff. split; apply Z.leb_le; lia.
Qed.

Lemma digits_value_app (ds rest : string) :
  forall acc, Ref.digits_value acc (ds ++ rest)
              = Ref.digits_value (Ref.digits_value acc ds) rest.
Proof.
  induction ds as [|c ds IH]; intros acc; simpl; [reflexivity | apply IH].
Qed.

Lemma length_append_one (x : string) (c : ascii) :
  String.length (x ++ String c EmptyString) = S (String.length x).
Proof.
  induction x as [|y x IH]; cbn [append String.length];
    [reflexivity | rewrite IH; reflexivity].
Qed.

Lemma append_empty (x : string) : x ++ EmptyString = x.
Proof.
  induction x as [|y x IH]; cbn [append]; [reflexivity | rewrite IH; reflexivity].
Qed.

Lemma take_digits_digit (c : ascii) (rest : string) :
  Ref.is_digit c = true ->
  Ref.take_digits (String c rest)
  = (String c (fst (Ref.take_digits rest)), snd (Ref.take_digits rest)).
Proof. intros H. simpl. rewrite H. reflexivity. Qed.

(** What [digits_of] prepends: digits only, with the value [n], and with no
    leading zero unless [n] is zero. *)
Lemma digits_of_spec (fuel : nat) :
  forall (n : Z) (acc : string),
    (0 < fuel)%nat ->
    0 <= n < 10 ^ Z.of_nat fuel ->
    exists h tl,
      Ref.digits_of fuel n acc = String h tl ++ acc
      /\ Ref.is_digit h = true
      /\ (forall rest,
            Ref.take_digits (String h tl ++ rest)
            = (String h tl ++ fst (Ref.take_digits rest), snd (Ref.take_digits rest)))
      /\ (forall a, Ref.digits_value a (String h tl)
                    = a * 10 ^ Z.of_nat (String.length (String h tl)) + n)
      /\ ((Ref.code h =? 48) = true -> n = 0 /\ tl = EmptyString).
Proof.
  induction fuel as [|fuel IH]; intros n acc Hf Hn; [lia|].
  cbn [Ref.digits_of]. cbv zeta.
  pose proof (Z.mod_pos_bound n 10 ltac:(lia)) as Hm.
  destruct (digit_char (n mod 10) Hm) as [Hd Hv].
  destruct (n <? 10) eqn:E.
  - apply Z.ltb_lt in E.
    exists (Ref.chr (48 + n mod 10)), EmptyString.
    rewrite Z.mod_small in * by lia.
    split; [reflexivity|]. split; [exact Hd|]. split; [|split].
    + intros rest. cbn [append]. apply take_digits_digit. exact Hd.
    + intros a. cbn [Ref.digits_value String.length]. rewrite Hv.
      change (10 ^ Z.of_nat 1) with 10. lia.
    + intros H0. apply Z.eqb_eq in H0. split; [lia | reflexivity].
  - apply Z.ltb_ge in E.
    assert (Hfuel : (0 < fuel)%nat).
    { destruct fuel; [|lia]. change (10 ^ Z.of_nat 1) with 10 in Hn. lia. }
    assert (Hq : 0 <= n / 10 < 10 ^ Z.of_nat fuel).
    { split; [apply Z.div_pos; lia|].
      apply Z.div_lt_upper_bound; [lia|].
      rewrite Nat2Z.inj_succ, Z.pow_succ_r in Hn by lia. lia. }
    destruct (IH (n / 10) (String (Ref.chr (48 + n mod 10)) acc) Hfuel Hq)
      as (h & tl & Hp & Hh & Ht & Hval & Hz).
    exists h, (tl ++ String (Ref.chr (48 + n mod 10)) EmptyString).
    split; [|split; [|split; [|split]]].
    + rewrite Hp. cbn [append]. rewrite append_assoc. reflexivity.
    + exact Hh.
    + intros rest.
      assert (E1 : String h (tl ++ String (Ref.chr (48 + n mod 10)) EmptyString) ++ rest
                   = String h tl ++ String (Ref.chr (48 + n mod 10)) rest).
      { cbn [append]. rewrite append_assoc. reflexivity. }
      rewrite E1, Ht, (take_digits_digit _ rest Hd). cbn [fst snd].
      f_equal. cbn [append]. rewrite append_assoc. reflexivity.
    + intros a.
      change (String h (tl ++ String (Ref.chr (48 + n mod 10)) EmptyString))
        with (String h tl ++ String (Ref.chr (48 + n mod 10)) EmptyString).
      rewrite digits_value_app, Hval. cbn [Ref.digits_value]. rewrite Hv.
      assert (Hlen : String.length (String h tl ++ String (Ref.chr (48 + n mod 10)) EmptyString)
                     = S (String.length (String h tl))).
      { apply length_append_one. }
      rewrite Hlen, Nat2Z.inj_succ, Z.pow_succ_r by lia.
      pose proof (Z.div_mod n 10 ltac:(lia)). nia.
    + intros H0. apply Hz in H0. destruct H0 as [H0 _].
      assert (n / 10 >= 1). { apply Z.le_ge. apply Z.div_le_lower_bound; lia. }
      lia.
Qed.

Lemma decimal_spec (n : Z) :
  0 <= n ->
  exists h tl,
    Ref.decimal n = String h tl
    /\ Ref.is_digit h = true
    /\ (forall rest,
          Ref.take_digits (String h tl ++ rest)
          = (String h tl ++ fst (Ref.take_digits rest), snd (Ref.take_digits rest)))
    /\ Ref.digits_value 0 (String h tl) = n
    /\ ((Ref.code h =? 48) = true -> n = 0 /\ tl = EmptyString).
Proof.
  intros Hn. unfold Ref.decimal.
  assert (Hb : 0 <= n < 10 ^ Z.of_nat (S (Z.to_nat (Z.log2 n)))).
  { split; [exact Hn|].
    rewrite Nat2Z.inj_succ, Z2Nat.id by apply Z.log2_nonneg.
    destruct (Z.eq_dec n 0) as [->|Hne].
    - simpl. lia.
    - pose proof (Z.log2_spec n ltac:(lia)) as [_ Hlt].
      apply Z.lt_le_trans with (2 ^ Z.succ (Z.log2 n)); [exact Hlt|].
      apply Z.pow_le_mono_l. lia. }
  destruct (digits_of_spec _ n EmptyString (Nat.lt_0_succ _) Hb)
    as (h & tl & Hp & Hh & Ht & Hval & Hz).
  exists h, tl. split; [|split; [|split; [|split]]].
  - rewrite Hp. apply append_empty.
  - exact Hh.
  - exact Ht.
  - rewrite Hval. lia.
  - exact Hz.
Qed.

Lemma digit_bounds (h : ascii) :
  Ref.is_digit h = true -> 48 <= Ref.code h <= 57.
Proof.
  unfold Ref.is_digit. intros H. apply andb_true_iff in H.
  destruct H as [H1 H2]. apply Z.leb_le in H1. apply Z.leb_le in H2. lia.
Qed.

(** A digit is not the first letter of a JSON word or a minus sign. *)
Ltac not_a_digit :=
  match goal with
  | Hh : Ref.is_digit ?h = true |- context [Ascii.eqb ?x ?h] =>
      destruct (Ascii.eqb_spec x h) as [Heq|_];
      [rewrite <- Heq in Hh; vm_compute in Hh; discriminate Hh|]
  end.

Lemma scan_literal_digit (h : ascii) (s : string) :
  Ref.is_digit h = true ->
  Ref.scan_literal (String h s) = Ref.scan_number (String h s).
Proof.
  intros Hh. unfold Ref.scan_literal. cbn [Ref.strip_prefix].
  repeat not_a_digit. reflexivity.
Qed.

Lemma scan_decimal (n : Z) (c : ascii) (rest : string) :
  0 <= n ->
  Ref.is_digit c = false ->
  Ascii.eqb "."%char c = false ->
  (Ref.code c =? 101) || (Ref.code c =? 69) = false ->
  Ref.scan_number (Ref.decimal n ++ String c rest) = Ok (PInt n, String c rest).
Proof.
  intros Hn Hc Hdot Hexp.
  destruct (decimal_spec n Hn) as (h & tl & Hp & Hh & Ht & Hval & Hz).
  rewrite Hp.
  assert (Htake : Ref.take_digits (String h tl ++ String c rest)
                  = (String h tl, String c rest)).
  { rewrite Ht. cbn [Ref.take_digits]. rewrite Hc. cbn [fst snd].
    rewrite append_empty. reflexivity. }
  unfold Ref.scan_number.
  assert (Hminus : Ref.strip_prefix "-" (String h tl ++ String c rest) = None).
  { cbn [append Ref.strip_prefix]. not_a_digit. reflexivity. }
  rewrite Hminus, Htake. cbn [fst snd].
  destruct (Ref.code h =? 48) eqn:E0.
  - destruct (Hz eq_refl) as [-> ->].
    cbn [append Ref.strip_prefix]. rewrite Hdot. cbn [fst snd].
    rewrite Hexp. cbn [fst snd]. reflexivity.
  - cbn [Ref.strip_prefix]. rewrite Hdot. cbn [fst snd].
    rewrite Hexp. cbn [fst snd]. rewrite Hval. reflexivity.
Qed.

Lemma parse_decimal (fuel : nat) (n : Z) (c : ascii) (rest : string) :
  0 <= n ->
  Ref.is_digit c = false ->
  Ascii.eqb "."%char c = false ->
  (Ref.code c =? 101) || (Ref.code c =? 69) = false ->
  Ref.parse_value (S fuel) (Ref.str_of_Z n ++ String c rest)
  = Ok (PInt n, String c rest).
Proof.
  intros Hn Hc Hdot Hexp.
  unfold Ref.str_of_Z.
  assert (Hs : (n <? 0) = false) by (apply Z.ltb_ge; lia).
  rewrite Hs.
  pose proof (scan_decimal n c rest Hn Hc Hdot Hexp) as Hscan.
  destruct (decimal_spec n Hn) as (h & tl & Hp & Hh & _).
  rewrite Hp in *.
  pose proof (digit_bounds h Hh) as Hb.
  cbn [append Ref.parse_value]. cbv zeta.
  assert (H34 : (Ref.code h =? 34) = false) by (apply Z.eqb_neq; lia).
  assert (H123 : (Ref.code h =? 123) = false) by (apply Z.eqb_neq; lia).
  assert (H91 : (Ref.code h =? 91) = false) by (apply Z.eqb_neq; lia).
  rewrite H34, H123, H91.
  rewrite scan_literal_digit by exact Hh.
  exact Hscan.
Qed.

(** ** JSON objects *)

Lemma scan_escaped_quote (s rest : string) :
  Ref.scan_string (Ref.escape s ++ String (Ref.chr 34) rest) = Ok (s, rest).
Proof. apply (scan_escaped s rest). Qed.

(** Runs the scanner over the punctuation of an object. *)
Ltac punctuation :=
  repeat (progress
    (cbn [bind fst snd Ref.skip_ws];
     change (Ref.is_ws ":") with false;
     change (Ref.is_ws ",") with false;
     change (Ref.is_ws "}") with false;
     change (Ref.is_ws " ") with true;
     change (Ref.code (Ref.chr 34) =? 34) with true;
     change (Ref.code ":" =? 58) with true;
     change (Ref.code "," =? 44) with true;
     change (Ref.code "}" =? 44) with false;
     change (Ref.code "}" =? 125) with true;
     cbv iota)).

Lemma members_continue (f : nat) acc (k vtext : string) (v : PyVal) (next : string) :
  Ref.parse_value f (vtext ++ ", " ++ next) = Ok (v, ", " ++ next) ->
  Ref.skip_ws (vtext ++ ", " ++ next) = vtext ++ ", " ++ next ->
  Ref.skip_ws next = next ->
  Ref.parse_members (S f) acc (Ref.quote k ++ ": " ++ vtext ++ ", " ++ next)
  = Ref.parse_members f (store acc k v) next.
Proof.
  intros Hv Hws Hnext.
  unfold Ref.quote, Ref.dquote. rewrite !append_assoc.
  cbn [append Ref.parse_members]. cbn [append] in Hws, Hv.
  punctuation. rewrite scan_escaped_quote.
  punctuation. rewrite Hws, Hv.
  punctuation. rewrite Hnext. reflexivity.
Qed.

Lemma members_close (f : nat) acc (k vtext : string) (v : PyVal) (tail : string) :
  Ref.parse_value f (vtext ++ "}" ++ tail) = Ok (v, "}" ++ tail) ->
  Ref.skip_ws (vtext ++ "}" ++ tail) = vtext ++ "}" ++ tail ->
  Ref.parse_members (S f) acc (Ref.quote k ++ ": " ++ vtext ++ "}" ++ tail)
  = Ok (PDict (store acc k v), tail).
Proof.
  intros Hv Hws.
  unfold Ref.quote, Ref.dquote. rewrite !append_assoc.
  cbn [append Ref.parse_members]. cbn [append] in Hws, Hv.
  punctuation. rewrite scan_escaped_quote.
  punctuation. rewrite Hws, Hv.
  punctuation. reflexivity.
Qed.

Lemma skip_ws_quote (s rest : string) :
  Ref.skip_ws (Ref.quote s ++ rest) = Ref.quote s ++ rest.
Proof. reflexivity. Qed.

Lemma skip_ws_decimal (n : Z) (rest : string) :
  0 <= n -> Ref.skip_ws (Ref.str_of_Z n ++ rest) = Ref.str_of_Z n ++ rest.
Proof.
  intros Hn. unfold Ref.str_of_Z.
  assert (Hs : (n <? 0) = false) by (apply Z.ltb_ge; lia).
  rewrite Hs.
  destruct (decimal_spec n Hn) as (h & tl & Hp & Hh & _).
  rewrite Hp. cbn [append Ref.skip_ws].
  pose proof (digit_bounds h Hh) as Hb.
  assert (Hw : Ref.is_ws h = false).
  { unfold Ref.is_ws. cbv zeta.
    repeat (apply orb_false_iff; split); apply Z.eqb_neq; lia. }
  rewrite Hw. reflexivity.
Qed.

Lemma object_open (f : nat) (k rest : string) :
  Ref.parse_value (S f) (String "{" (Ref.quote k ++ rest))
  = Ref.parse_members f [] (Ref.quote k ++ rest).
Proof. reflexivity. Qed.

Lemma object_fuel (k rest : string) :
  exists n, (2 * String.length (String "{" (Ref.quote k ++ rest)) + 2 = 6 + n)%nat.
Proof.
  unfold Ref.quote, Ref.dquote. cbn [append String.length].
  match goal with
  | |- exists n, (2 * S (S ?m) + 2 = 6 + n)%nat => exists (2 * m)%nat
  end.
  lia.
Qed.

(** [json.loads] of what [json.dumps] prints for the mapping of a Record of
    three texts and a timestamp that is not negative. *)
Lemma loads_dumps_audit (a b d : string) (t : Z) :
  0 <= t ->
  Ref.json_loads
    (Ref.dumps (PDict [("eventId", PStr a); ("eventName", PStr b);
                       ("timestamp", PInt t); ("eventDetails", PStr d)]))
  = Ok (PDict [("eventId", PStr a); ("eventName", PStr b);
               ("timestamp", PInt t); ("eventDetails", PStr d)]).
Proof.
  intros Ht.
  cbn [Ref.dumps map Ref.join]. rewrite !append_assoc. cbn [append].
  unfold Ref.json_loads.
  destruct (object_fuel "eventId"
              (": " ++ Ref.quote a ++ ", " ++ Ref.quote "eventName" ++ ": "
                 ++ Ref.quote b ++ ", " ++ Ref.quote "timestamp" ++ ": "
                 ++ Ref.str_of_Z t ++ ", " ++ Ref.quote "eventDetails" ++ ": "
                 ++ Ref.quote d ++ "}")) as [n Hn].
  cbn [append] in Hn. rewrite Hn. cbn [Nat.add].
  cbn [Ref.skip_ws]. change (Ref.is_ws "{") with false. cbv iota.
  rewrite object_open.
  rewrite (members_continue _ [] "eventId" (Ref.quote a) (PStr a)
             (Ref.quote "eventName" ++ ": " ++ Ref.quote b ++ ", "
                ++ Ref.quote "timestamp" ++ ": " ++ Ref.str_of_Z t ++ ", "
                ++ Ref.quote "eventDetails" ++ ": " ++ Ref.quote d ++ "}")
             (parse_quoted _ _ _) (skip_ws_quote _ _) (skip_ws_quote _ _)).
  rewrite (members_continue _ _ "eventName" (Ref.quote b) (PStr b)
             (Ref.quote "timestamp" ++ ": " ++ Ref.str_of_Z t ++ ", "
                ++ Ref.quote "eventDetails" ++ ": " ++ Ref.quote d ++ "}")
             (parse_quoted _ _ _) (skip_ws_quote _ _) (skip_ws_quote _ _)).
  rewrite (members_continue _ _ "timestamp" (Ref.str_of_Z t) (PInt t)
             (Ref.quote "eventDetails" ++ ": " ++ Ref.quote d ++ "}")
             (parse_decimal _ t "," _ Ht eq_refl eq_refl eq_refl)
             (skip_ws_decimal _ _ Ht) (skip_ws_quote _ _)).
  rewrite (members_close _ _ "eventDetails" (Ref.quote d) (PStr d) EmptyString
             (parse_quoted _ _ _) (skip_ws_quote _ _)).
  reflexivity.
Qed.

(** With the reference codec, the textual adapter returns every Record of
    three texts and a timestamp that is not negative, under any registered
    schema. *)
Theorem reference_json_roundtrip (a b d : string) (t : Z) :
  0 <= t ->
  JsonSerializer.serialize Ref.libs (Ref.client_of Ref.registry) "SalesAuditJSON"
    (mkSalesforceAudit (PStr a) (PStr b) (PInt t) (PStr d))
  = Ok (Ref.str_encode
          (Ref.dumps (to_dict (mkSalesforceAudit (PStr a) (PStr b) (PInt t) (PStr d)))))
  /\ JsonSerializer.deserialize Ref.libs (Ref.client_of Ref.registry) "SalesAuditJSON"
       (Ref.str_encode
          (Ref.dumps (to_dict (mkSalesforceAudit (PStr a) (PStr b) (PInt t) (PStr d)))))
     = Ok (mkSalesforceAudit (PStr a) (PStr b) (PInt t) (PStr d)).
Proof.
  intros Ht.
  eapply (json_roundtrip_steps Ref.libs _ _ _
            (PDict [("SchemaDefinition", PStr (Ref.json_text "{'type': 'object'}"));
                    ("VersionNumber", PInt 1)])).
  - cbn [timestamp]. unfold valid_timestamp. cbn [isinstance_int int_value andb].
    apply Z.leb_le. exact Ht.
  - vm_compute. reflexivity.
  - reflexivity.
  - reflexivity.
  - apply decode_encode_utf8.
  - apply (loads_dumps_audit a b d t Ht).
  - reflexivity.
  - reflexivity.
  - reflexivity.
  - reflexivity.
Qed.

(** ** The reference codecs meet the two contracts *)








(* ================================================================== *)
(** * More of model.py: to_dict and from_dict together                 *)
(* ================================================================== *)

Lemma from_dict_to_dict (r : SalesforceAudit) :
  from_dict (to_dict r)
  = model.new (event_id r) (event_name r) (timestamp r) (event_details r).
Proof. reflexivity. Qed.

Lemma from_dict_to_dict_valid (r : SalesforceAudit) :
  valid_timestamp (timestamp r) = true -> from_dict (to_dict r) = Ok r.
Proof.
  intros V. rewrite from_dict_to_dict, (new_valid _ _ _ _ V).
  destruct r; reflexivity.
Qed.

(** X1.  [from_dict(to_dict(r))] returns [r] exactly when the timestamp of
    [r] is valid; for a Record whose timestamp was made invalid after
    construction it raises [ValueError]. *)
Theorem from_dict_inverts_to_dict :
  forall r : SalesforceAudit,
    (from_dict (to_dict r) = Ok r <-> valid_timestamp (timestamp r) = true)
    /\ (valid_timestamp (timestamp r) = false ->
        exists e, from_dict (to_dict r) = Raise e /\ exc_class e = ValueError).
Proof.
  intros r. rewrite from_dict_to_dict. split; [split|].
  - intros H. apply new_ok_inv in H. apply H.
  - intros V. rewrite <- from_dict_to_dict. apply from_dict_to_dict_valid. exact V.
  - intros V. rewrite (new_invalid _ _ _ _ V). eexists. split; reflexivity.
Qed.

(** X2.  [from_dict] reads the four wire names and nothing else: two dicts
    that agree on them give the same result, whatever other keys they hold
    and in whatever order; so do two payloads of the textual adapter that
    decode to such dicts. *)
Theorem from_dict_reads_only_the_wire_names :
  forall items1 items2 : list (string * PyVal),
    (forall k, In k wire_names -> lookup items1 k = lookup items2 k) ->
    from_dict (PDict items1) = from_dict (PDict items2)
    /\ (forall (L : Libs) c n data1 data2 s1 s2,
          decode_utf8 L data1 = Ok s1 ->
          json_loads L s1 = Ok (PDict items1) ->
          decode_utf8 L data2 = Ok s2 ->
          json_loads L s2 = Ok (PDict items2) ->
          JsonSerializer.deserialize L c n data1
          = JsonSerializer.deserialize L c n data2).
Proof.
  intros items1 items2 H.
  assert (E : from_dict (PDict items1) = from_dict (PDict items2)).
  { rewrite !from_dict_dict. unfold lookup_default.
    rewrite (H "eventId"), (H "eventName"), (H "timestamp"), (H "eventDetails");
      [reflexivity | | | |]; simpl; tauto. }
  split; [exact E|].
  intros L c n data1 data2 s1 s2 Hd1 Hl1 Hd2 Hl2.
  unfold JsonSerializer.deserialize. rewrite !json_deserialize_body_fetch.
  destruct (fetch_version c n) as [v|e]; [|reflexivity].
  cbn [bind].
  rewrite Hd1, Hd2. cbn [bind]. rewrite Hl1, Hl2. cbn [bind].
  rewrite E. reflexivity.
Qed.

Lemma from_dict_ignores_order_and_extra_keys :
  from_dict (PDict [("eventId", PStr "x"); ("timestamp", PInt 7)])
  = from_dict (PDict [("source", PStr "crm"); ("timestamp", PInt 7);
                      ("eventId", PStr "x"); ("tags", PList [])])
  /\ JsonSerializer.deserialize Ref.libs (Ref.client_of Ref.registry) "SalesAuditJSON"
       (Ref.str_encode (Ref.json_text "{'eventId': 'x', 'timestamp': 7}"))
     = JsonSerializer.deserialize Ref.libs (Ref.client_of Ref.registry) "SalesAuditJSON"
         (Ref.str_encode
            (Ref.json_text
               "{'source': 'crm', 'timestamp': 7, 'eventId': 'x', 'tags': []}")).
Proof.
  assert (A : forall k, In k wire_names ->
                lookup [("eventId", PStr "x"); ("timestamp", PInt 7)] k
                = lookup [("source", PStr "crm"); ("timestamp", PInt 7);
                          ("eventId", PStr "x"); ("tags", PList [])] k).
  { intros k Hk. simpl in Hk.
    destruct Hk as [<-|[<-|[<-|[<-|[]]]]]; reflexivity. }
  destruct (from_dict_reads_only_the_wire_names _ _ A) as [H1 H2].
  split; [exact H1|].
  eapply (H2 Ref.libs); by_computation.
Defined.

(** X3.  [from_dict] normalises: the Record it returns maps back, through
    [to_dict], to exactly the four wire names in their fixed order with the
    defaults filled in; and reading that dict again gives the same Record,
    so [from_dict], [to_dict], [from_dict] in a row is [from_dict]. *)
Theorem from_dict_normalises :
  forall data : PyVal,
    (r <- from_dict data ;; from_dict (to_dict r)) = from_dict data
    /\ (forall items r,
          data = PDict items ->
          from_dict data = Ok r ->
          to_dict r
          = PDict [("eventId", lookup_default items "eventId" (PStr ""));
                   ("eventName", lookup_default items "eventName" (PStr ""));
                   ("timestamp", lookup_default items "timestamp" (PInt 0));
                   ("eventDetails", lookup_default items "eventDetails" (PStr ""))]).
Proof.
  intros data. split.
  - destruct (from_dict data) as [r|e] eqn:E; [|reflexivity].
    cbn [bind]. apply from_dict_ok_valid in E.
    apply from_dict_to_dict_valid. exact E.
  - intros items r -> H. rewrite from_dict_dict in H.
    apply new_ok_inv in H. destruct H as [-> _]. reflexivity.
Qed.

(* ================================================================== *)
(** * More of the two serializers                                      *)
(* ================================================================== *)

(** X4.  When the payload of the textual adapter decodes to a JSON document
    that is no object (a list, a string, a number, [null]), [deserialize]
    raises [SchemaRegistryException] with the text of the [AttributeError]
    of the first [data.get]. *)
Theorem json_deserialize_refuses_non_objects :
  forall (L : Libs) c n data v s doc,
    fetch_version c n = Ok v ->
    decode_utf8 L data = Ok s ->
    json_loads L s = Ok doc ->
    (forall items, doc <> PDict items) ->
    JsonSerializer.deserialize L c n data
    = Raise (mkExc SchemaRegistryException
               ("Failed to deserialize JSON to SalesforceAudit: "
                  ++ squote ++ type_name doc ++ "' object has no attribute 'get'")).
Proof.
  intros L c n data v s doc Hf Hs Hl Hn.
  unfold JsonSerializer.deserialize. rewrite json_deserialize_body_fetch.
  rewrite (bind_ok _ _ _ Hf), (bind_ok _ _ _ Hs), (bind_ok _ _ _ Hl).
  destruct doc; try reflexivity.
  exfalso. apply (Hn items). reflexivity.
Qed.

Lemma json_list_payload_is_refused :
  JsonSerializer.deserialize Ref.libs (Ref.client_of Ref.registry) "SalesAuditJSON"
    (Ref.str_encode (Ref.json_text "[{'eventId': 'x'}]"))
  = Raise (mkExc SchemaRegistryException
             "Failed to deserialize JSON to SalesforceAudit: 'list' object has no attribute 'get'").
Proof.
  refine (json_deserialize_refuses_non_objects Ref.libs _ _ _
            (PDict [("SchemaDefinition", PStr (Ref.json_text "{'type': 'object'}"));
                    ("VersionNumber", PInt 1)])
            (Ref.json_text "[{'eventId': 'x'}]")
            (PList [PDict [("eventId", PStr "x")]]) _ _ _ _);
    try by_computation.
  intros items H. discriminate H.
Defined.

Lemma first_missing_none (items : list (string * PyVal)) :
  first_missing items = None ->
  exists a b t d,
    lookup items "eventId" = Some a /\ lookup items "eventName" = Some b
    /\ lookup items "timestamp" = Some t /\ lookup items "eventDetails" = Some d.
Proof.
  unfold first_missing, wire_names. cbn [find].
  destruct (lookup items "eventId") as [a|]; [|discriminate].
  destruct (lookup items "eventName") as [b|]; [|discriminate].
  destruct (lookup items "timestamp") as [t|]; [|discriminate].
  destruct (lookup items "eventDetails") as [d|]; [|discriminate].
  intros _. exists a, b, t, d. repeat split.
Qed.

(** X5.  The binary adapter is strict where the textual one is lenient: when
    the decoded row lacks one of the four wire names, [deserialize] raises
    [SchemaRegistryException] with the [KeyError] text of the first name
    missing, in the order [eventId], [eventName], [timestamp],
    [eventDetails]; when none is missing its result is that of the
    constructor on the four entries. *)
Theorem avro_deserialize_requires_every_wire_name :
  forall (L : Libs) c n data defn sd sch items,
    fetch_definition c n = Ok defn ->
    py_json_loads L defn = Ok sd ->
    parse_schema L sd = Ok sch ->
    schemaless_reader L sch data = Ok (PDict items) ->
    (forall k,
       first_missing items = Some k ->
       AvroSerializer.deserialize L c n data
       = Raise (mkExc SchemaRegistryException
                  ("Failed to deserialize SalesforceAudit: "
                     ++ squote ++ k ++ squote)))
    /\ (first_missing items = None ->
        exists a b t d,
          lookup items "eventId" = Some a /\ lookup items "eventName" = Some b
          /\ lookup items "timestamp" = Some t
          /\ lookup items "eventDetails" = Some d
          /\ AvroSerializer.deserialize L c n data
             = except_Exception "Failed to deserialize SalesforceAudit: "
                 (model.new a b t d)).
Proof.
  intros L c n data defn sd sch items Hf Hl Hp Hr.
  assert (E : AvroSerializer.deserialize L c n data
              = except_Exception "Failed to deserialize SalesforceAudit: "
                  (a <- getitem (PDict items) "eventId" ;;
                   b <- getitem (PDict items) "eventName" ;;
                   t <- getitem (PDict items) "timestamp" ;;
                   d <- getitem (PDict items) "eventDetails" ;;
                   model.new a b t d)).
  { unfold AvroSerializer.deserialize. rewrite avro_deserialize_body_fetch.
    rewrite (bind_ok _ _ _ Hf), (bind_ok _ _ _ Hl), (bind_ok _ _ _ Hp).
    rewrite (bind_ok _ _ _ Hr). reflexivity. }
  split.
  - intros k Hk. rewrite E. clear E.
    unfold first_missing, wire_names in Hk. cbn [find] in Hk.
    cbn [getitem].
    destruct (lookup items "eventId") as [a|];
      [|injection Hk as <-; reflexivity].
    destruct (lookup items "eventName") as [b|];
      [|injection Hk as <-; reflexivity].
    destruct (lookup items "timestamp") as [t|];
      [|injection Hk as <-; reflexivity].
    destruct (lookup items "eventDetails") as [d|];
      [discriminate Hk | injection Hk as <-; reflexivity].
  - intros Hnone. destruct (first_missing_none items Hnone)
      as (a & b & t & d & Ha & Hb & Ht & Hd).
    exists a, b, t, d. repeat (split; [assumption|]).
    rewrite E. cbn [getitem]. rewrite Ha, Hb, Ht, Hd. reflexivity.
Qed.

(** A row of the schema that declares [eventId] only. *)
Lemma avro_row_without_event_name_is_refused :
  AvroSerializer.deserialize Ref.libs (Ref.client_of Ref.registry) "IdOnly"
    (Ref.str_encode (String (Ref.chr 2) "x"))
  = Raise (mkExc SchemaRegistryException
             "Failed to deserialize SalesforceAudit: 'eventName'").
Proof.
  pose proof (avro_deserialize_requires_every_wire_name Ref.libs
                (Ref.client_of Ref.registry) "IdOnly"
                (Ref.str_encode (String (Ref.chr 2) "x"))
                (PStr Ref.id_only_schema_text)
                (PDict [("type", PStr "record"); ("name", PStr "SalesforceAudit");
                        ("fields",
                         PList [PDict [("name", PStr "eventId");
                                       ("type", PStr "string")]])])
                (Ref.SRecord "SalesforceAudit" [("eventId", Ref.AvString)])
                [("eventId", PStr "x")]
                ltac:(by_computation) ltac:(by_computation)
                ltac:(by_computation) ltac:(by_computation)) as [H _].
  apply (H "eventName"). reflexivity.
Defined.

Lemma fetch_version_get_schema_raise c n (e : PyExc) :
  get_schema c n = Raise e -> fetch_version c n = Raise e.
Proof. intros H. unfold fetch_version. rewrite H. reflexivity. Qed.

(** What the four methods raise when the shared fetch raises [e]. *)
Lemma fetch_failure_in_all_methods (L : Libs) c n r data (e : PyExc) :
  fetch_version c n = Raise e ->
  AvroSerializer.serialize L c n r
  = Raise (mkExc SchemaRegistryException
             ("Failed to serialize SalesforceAudit: " ++ exc_str e))
  /\ AvroSerializer.deserialize L c n data
     = Raise (mkExc SchemaRegistryException
                ("Failed to deserialize SalesforceAudit: " ++ exc_str e))
  /\ JsonSerializer.serialize L c n r
     = Raise (mkExc SchemaRegistryException
                ("Failed to serialize SalesforceAudit to JSON: " ++ exc_str e))
  /\ JsonSerializer.deserialize L c n data
     = Raise (mkExc SchemaRegistryException
                ("Failed to deserialize JSON to SalesforceAudit: " ++ exc_str e)).
Proof.
  intros H. repeat split.
  - apply avro_serialize_raise. rewrite avro_serialize_body_fetch.
    unfold fetch_definition. rewrite bind_assoc. apply bind_raise. exact H.
  - apply avro_deserialize_raise. rewrite avro_deserialize_body_fetch.
    unfold fetch_definition. rewrite bind_assoc. apply bind_raise. exact H.
  - unfold JsonSerializer.serialize. rewrite json_serialize_body_fetch.
    rewrite (bind_raise _ _ _ H). reflexivity.
  - unfold JsonSerializer.deserialize. rewrite json_deserialize_body_fetch.
    rewrite (bind_raise _ _ _ H). reflexivity.
Qed.

(** X6.  A service error of the registry reaches the caller of a serializer
    method under two prefixes, the method's and the client's: the text is
    the method's prefix, then [Failed to get schema: ] (or
    [Failed to get schema version: ]), then the text of the [ClientError].
    A failure of another class, of [get_schema] or of [get_schema_version]
    after [get_schema] has returned, carries the method's prefix only.  In
    all cases the codec is not consulted and, when [get_schema] fails,
    neither is [get_schema_version]. *)
Theorem registry_errors_carry_both_prefixes :
  forall (L : Libs) c n r data,
    (forall e code,
       boto_get_schema (glue_client c) (registry_name c) n = Raise e ->
       exc_class e = ClientError code ->
       AvroSerializer.serialize L c n r
       = Raise (mkExc SchemaRegistryException
                  ("Failed to serialize SalesforceAudit: "
                     ++ "Failed to get schema: " ++ exc_str e))
       /\ AvroSerializer.deserialize L c n data
          = Raise (mkExc SchemaRegistryException
                     ("Failed to deserialize SalesforceAudit: "
                        ++ "Failed to get schema: " ++ exc_str e))
       /\ JsonSerializer.serialize L c n r
          = Raise (mkExc SchemaRegistryException
                     ("Failed to serialize SalesforceAudit to JSON: "
                        ++ "Failed to get schema: " ++ exc_str e))
       /\ JsonSerializer.deserialize L c n data
          = Raise (mkExc SchemaRegistryException
                     ("Failed to deserialize JSON to SalesforceAudit: "
                        ++ "Failed to get schema: " ++ exc_str e)))
    /\ (forall resp ver e code,
          boto_get_schema (glue_client c) (registry_name c) n = Ok resp ->
          getitem resp "LatestSchemaVersion" = Ok ver ->
          boto_get_schema_version (glue_client c) (registry_name c) n ver = Raise e ->
          exc_class e = ClientError code ->
          AvroSerializer.serialize L c n r
          = Raise (mkExc SchemaRegistryException
                     ("Failed to serialize SalesforceAudit: "
                        ++ "Failed to get schema version: " ++ exc_str e))
          /\ AvroSerializer.deserialize L c n data
             = Raise (mkExc SchemaRegistryException
                        ("Failed to deserialize SalesforceAudit: "
                           ++ "Failed to get schema version: " ++ exc_str e))
          /\ JsonSerializer.serialize L c n r
             = Raise (mkExc SchemaRegistryException
                        ("Failed to serialize SalesforceAudit to JSON: "
                           ++ "Failed to get schema version: " ++ exc_str e))
          /\ JsonSerializer.deserialize L c n data
             = Raise (mkExc SchemaRegistryException
                        ("Failed to deserialize JSON to SalesforceAudit: "
                           ++ "Failed to get schema version: " ++ exc_str e)))
    /\ (forall e,
          boto_get_schema (glue_client c) (registry_name c) n = Raise e ->
          is_ClientError e = false ->
          AvroSerializer.serialize L c n r
          = Raise (mkExc SchemaRegistryException
                     ("Failed to serialize SalesforceAudit: " ++ exc_str e))
          /\ AvroSerializer.deserialize L c n data
             = Raise (mkExc SchemaRegistryException
                        ("Failed to deserialize SalesforceAudit: " ++ exc_str e))
          /\ JsonSerializer.serialize L c n r
             = Raise (mkExc SchemaRegistryException
                        ("Failed to serialize SalesforceAudit to JSON: " ++ exc_str e))
          /\ JsonSerializer.deserialize L c n data
             = Raise (mkExc SchemaRegistryException
                        ("Failed to deserialize JSON to SalesforceAudit: "
                           ++ exc_str e)))
    /\ (forall resp ver e,
          boto_get_schema (glue_client c) (registry_name c) n = Ok resp ->
          getitem resp "LatestSchemaVersion" = Ok ver ->
          boto_get_schema_version (glue_client c) (registry_name c) n ver = Raise e ->
          is_ClientError e = false ->
          AvroSerializer.serialize L c n r
          = Raise (mkExc SchemaRegistryException
                     ("Failed to serialize SalesforceAudit: " ++ exc_str e))
          /\ AvroSerializer.deserialize L c n data
             = Raise (mkExc SchemaRegistryException
                        ("Failed to deserialize SalesforceAudit: " ++ exc_str e))
          /\ JsonSerializer.serialize L c n r
             = Raise (mkExc SchemaRegistryException
                        ("Failed to serialize SalesforceAudit to JSON: " ++ exc_str e))
          /\ JsonSerializer.deserialize L c n data
             = Raise (mkExc SchemaRegistryException
                        ("Failed to deserialize JSON to SalesforceAudit: "
                           ++ exc_str e))).
Proof.
  intros L c n r data. split; [|split; [|split]].
  - intros e code H Hc.
    apply (fetch_failure_in_all_methods L c n r data
             (mkExc SchemaRegistryException ("Failed to get schema: " ++ exc_str e))).
    apply fetch_version_get_schema_raise.
    unfold get_schema, except_ClientError, is_ClientError. rewrite H, Hc.
    reflexivity.
  - intros resp ver e code H Hv He Hc.
    apply (fetch_failure_in_all_methods L c n r data
             (mkExc SchemaRegistryException
                ("Failed to get schema version: " ++ exc_str e))).
    unfold fetch_version, get_schema. rewrite H. cbn [except_ClientError bind].
    rewrite Hv. cbn [bind].
    unfold get_schema_version, except_ClientError, is_ClientError.
    rewrite He, Hc. reflexivity.
  - intros e H Hc.
    apply (fetch_failure_in_all_methods L c n r data e).
    apply fetch_version_get_schema_raise.
    unfold get_schema, except_ClientError. rewrite H, Hc. reflexivity.
  - intros resp ver e H Hv He Hc.
    apply (fetch_failure_in_all_methods L c n r data e).
    unfold fetch_version, get_schema. rewrite H. cbn [except_ClientError bind].
    rewrite Hv. cbn [bind].
    unfold get_schema_version, except_ClientError. rewrite He, Hc. reflexivity.
Qed.

(** A schema that is not registered, an endpoint that cannot be reached,
    and an endpoint that is lost between the two calls. *)
Lemma registry_errors_in_the_reference_registry :
  JsonSerializer.deserialize Ref.libs (Ref.client_of Ref.registry) "Unregistered"
    (Ref.str_encode (Ref.json_text "{'eventId': 'x'}"))
  = Raise (mkExc SchemaRegistryException
             "Failed to deserialize JSON to SalesforceAudit: Failed to get schema: An error occurred (EntityNotFoundException) when calling the GetSchema operation: Schema is not found.")
  /\ AvroSerializer.serialize Ref.libs (mkClient "registry" Ref.unreachable_glue)
       "SalesforceAudit" (mkSalesforceAudit (PStr "") (PStr "") (PInt 0) (PStr ""))
     = Raise (mkExc SchemaRegistryException
                "Failed to serialize SalesforceAudit: Could not connect to the endpoint URL")
  /\ AvroSerializer.deserialize Ref.libs
       (mkClient "registry" (Ref.disconnecting_glue Ref.registry))
       "SalesforceAudit" [x00; x00; x00; x00]
     = Raise (mkExc SchemaRegistryException
                "Failed to deserialize SalesforceAudit: Could not connect to the endpoint URL").
Proof.
  split; [|split].
  - pose proof (registry_errors_carry_both_prefixes Ref.libs
                  (Ref.client_of Ref.registry) "Unregistered"
                  (mkSalesforceAudit PNone PNone PNone PNone)
                  (Ref.str_encode (Ref.json_text "{'eventId': 'x'}")))
      as [H _].
    refine (proj2 (proj2 (proj2
      (H (mkExc (ClientError "EntityNotFoundException") _)
         "EntityNotFoundException" _ _)))); by_computation.
  - pose proof (registry_errors_carry_both_prefixes Ref.libs
                  (mkClient "registry" Ref.unreachable_glue) "SalesforceAudit"
                  (mkSalesforceAudit (PStr "") (PStr "") (PInt 0) (PStr "")) [])
      as [_ [_ [H _]]].
    refine (proj1
      (H (mkExc (BotoCoreError "EndpointConnectionError") _) _ _)); by_computation.
  - pose proof (registry_errors_carry_both_prefixes Ref.libs
                  (mkClient "registry" (Ref.disconnecting_glue Ref.registry))
                  "SalesforceAudit"
                  (mkSalesforceAudit (PStr "") (PStr "") (PInt 0) (PStr ""))
                  [x00; x00; x00; x00])
      as [_ [_ [_ H]]].
    refine (proj1 (proj2
      (H (PDict [("SchemaName", PStr "SalesforceAudit");
                 ("LatestSchemaVersion", PInt 1)])
         (PInt 1)
         (mkExc (BotoCoreError "EndpointConnectionError")
            "Could not connect to the endpoint URL") _ _ _ _))); by_computation.
Defined.

(** X7.  A registry response without the expected key: when the response of
    [get_schema] has no [LatestSchemaVersion], the four methods raise
    [SchemaRegistryException] with the [KeyError] text; when the response
    of [get_schema_version] has no [SchemaDefinition], the two methods of
    the binary adapter do, while [serialize] of the textual adapter, which
    never reads that entry, returns what the JSON codec gives. *)
Theorem responses_without_the_expected_key :
  forall (L : Libs) c n r data,
    (forall items,
       get_schema c n = Ok (PDict items) ->
       lookup items "LatestSchemaVersion" = None ->
       AvroSerializer.serialize L c n r
       = Raise (mkExc SchemaRegistryException
                  "Failed to serialize SalesforceAudit: 'LatestSchemaVersion'")
       /\ AvroSerializer.deserialize L c n data
          = Raise (mkExc SchemaRegistryException
                     "Failed to deserialize SalesforceAudit: 'LatestSchemaVersion'")
       /\ JsonSerializer.serialize L c n r
          = Raise (mkExc SchemaRegistryException
                     "Failed to serialize SalesforceAudit to JSON: 'LatestSchemaVersion'")
       /\ JsonSerializer.deserialize L c n data
          = Raise (mkExc SchemaRegistryException
                     "Failed to deserialize JSON to SalesforceAudit: 'LatestSchemaVersion'"))
    /\ (forall items,
          fetch_version c n = Ok (PDict items) ->
          lookup items "SchemaDefinition" = None ->
          AvroSerializer.serialize L c n r
          = Raise (mkExc SchemaRegistryException
                     "Failed to serialize SalesforceAudit: 'SchemaDefinition'")
          /\ AvroSerializer.deserialize L c n data
             = Raise (mkExc SchemaRegistryException
                        "Failed to deserialize SalesforceAudit: 'SchemaDefinition'")
          /\ (forall s b,
                json_dumps L (to_dict r) = Ok s ->
                encode_utf8 L s = Ok b ->
                JsonSerializer.serialize L c n r = Ok b)).
Proof.
  intros L c n r data. split.
  - intros items Hg Hm.
    apply (fetch_failure_in_all_methods L c n r data
             (mkExc KeyError "'LatestSchemaVersion'")).
    unfold fetch_version. rewrite Hg. cbn [bind getitem]. rewrite Hm. reflexivity.
  - intros items Hf Hm. split; [|split].
    + apply avro_serialize_raise with (e := mkExc KeyError "'SchemaDefinition'").
      rewrite avro_serialize_body_fetch. unfold fetch_definition.
      rewrite Hf. cbn [bind getitem]. rewrite Hm. reflexivity.
    + apply avro_deserialize_raise with (e := mkExc KeyError "'SchemaDefinition'").
      rewrite avro_deserialize_body_fetch. unfold fetch_definition.
      rewrite Hf. cbn [bind getitem]. rewrite Hm. reflexivity.
    + intros s b Hd He. unfold JsonSerializer.serialize.
      rewrite json_serialize_body_fetch.
      rewrite (bind_ok _ _ _ Hf), (bind_ok _ _ _ Hd), He. reflexivity.
Qed.

(** A registry whose version response carries no definition. *)
Lemma version_response_without_definition :
  AvroSerializer.serialize Ref.libs
    (mkClient "registry"
       (mkGlueClient
          (fun _ _ => Ok (PDict [("LatestSchemaVersion", PInt 1)]))
          (fun _ _ _ => Ok (PDict [("VersionNumber", PInt 1)]))))
    "SalesforceAudit" (mkSalesforceAudit (PStr "x") (PStr "") (PInt 0) (PStr ""))
  = Raise (mkExc SchemaRegistryException
             "Failed to serialize SalesforceAudit: 'SchemaDefinition'")
  /\ JsonSerializer.serialize Ref.libs
       (mkClient "registry"
          (mkGlueClient
             (fun _ _ => Ok (PDict [("LatestSchemaVersion", PInt 1)]))
             (fun _ _ _ => Ok (PDict [("VersionNumber", PInt 1)]))))
       "SalesforceAudit" (mkSalesforceAudit (PStr "x") (PStr "") (PInt 0) (PStr ""))
     = Ok (Ref.str_encode
             (Ref.json_text
                "{'eventId': 'x', 'eventName': '', 'timestamp': 0, 'eventDetails': ''}")).
Proof.
  pose proof (responses_without_the_expected_key Ref.libs
                (mkClient "registry"
                   (mkGlueClient
                      (fun _ _ => Ok (PDict [("LatestSchemaVersion", PInt 1)]))
                      (fun _ _ _ => Ok (PDict [("VersionNumber", PInt 1)]))))
                "SalesforceAudit"
                (mkSalesforceAudit (PStr "x") (PStr "") (PInt 0) (PStr "")) [])
    as [_ H].
  destruct (H [("VersionNumber", PInt 1)] eq_refl eq_refl) as (Ha & _ & Hj).
  split; [exact Ha|].
  eapply Hj; by_computation.
Defined.

(* ================================================================== *)
(** * More of client.py                                                *)
(* ================================================================== *)

Import registry.

(** X8.  [list_schemas] returns the [Schemas] entry of the response as it
    is, and the empty list when the response has no such entry; a
    [ClientError] of the call is wrapped under [Failed to list schemas: ],
    a failure of another class is passed on. *)
Theorem list_schemas_defaults_to_the_empty_list :
  forall self : Client,
    (forall items,
       boto_list_schemas (glue_admin self) (registry_name (this self))
       = Ok (PDict items) ->
       list_schemas self = Ok (lookup_default items "Schemas" (PList []))
       /\ (lookup items "Schemas" = None -> list_schemas self = Ok (PList [])))
    /\ (forall e code,
          boto_list_schemas (glue_admin self) (registry_name (this self)) = Raise e ->
          exc_class e = ClientError code ->
          list_schemas self
          = Raise (mkExc SchemaRegistryException
                     ("Failed to list schemas: " ++ exc_str e)))
    /\ (forall e,
          boto_list_schemas (glue_admin self) (registry_name (this self)) = Raise e ->
          is_ClientError e = false ->
          list_schemas self = Raise e).
Proof.
  intros self. split; [|split].
  - intros items H. unfold list_schemas. rewrite H. cbn [bind].
    rewrite get_dict. cbn [except_ClientError]. split; [reflexivity|].
    intros Hm. unfold lookup_default. rewrite Hm. reflexivity.
  - intros e code H Hc. unfold list_schemas. rewrite H. cbn [bind].
    unfold except_ClientError, is_ClientError. rewrite Hc. reflexivity.
  - intros e H Hc. unfold list_schemas. rewrite H. cbn [bind].
    unfold except_ClientError. rewrite Hc. reflexivity.
Qed.

(** X9.  [update_schema_compatibility] looks the schema up first.  When
    that lookup fails with a [ClientError], the caller gets the exception of
    [get_schema], [Failed to get schema: ...], not one about the update, and
    the update is not sent: the result is the same whatever the other calls
    of the boto3 client do.  When the lookup returns, the update is sent
    with the [Description] the schema has (the empty string when it has
    none) and the value of the mode, and a [ClientError] of the update is
    wrapped under [Failed to update schema compatibility: ]. *)
Theorem update_looks_the_schema_up_first :
  forall (self : Client) (n : string) (mode : Compatibility),
    (forall e code,
       boto_get_schema (glue_client (this self)) (registry_name (this self)) n
       = Raise e ->
       exc_class e = ClientError code ->
       update_schema_compatibility self n mode
       = Raise (mkExc SchemaRegistryException
                  ("Failed to get schema: " ++ exc_str e))
       /\ forall other : GlueAdmin,
            update_schema_compatibility (mkFullClient (this self) other) n mode
            = update_schema_compatibility self n mode)
    /\ (forall items,
          boto_get_schema (glue_client (this self)) (registry_name (this self)) n
          = Ok (PDict items) ->
          (forall resp,
             boto_update_schema (glue_admin self) (registry_name (this self)) n
               (value mode) (lookup_default items "Description" (PStr ""))
             = Ok resp ->
             update_schema_compatibility self n mode = Ok resp)
          /\ (forall e code,
                boto_update_schema (glue_admin self) (registry_name (this self)) n
                  (value mode) (lookup_default items "Description" (PStr ""))
                = Raise e ->
                exc_class e = ClientError code ->
                update_schema_compatibility self n mode
                = Raise (mkExc SchemaRegistryException
                           ("Failed to update schema compatibility: "
                              ++ exc_str e)))).
Proof.
  intros self n mode. split.
  - intros e code H Hc.
    assert (G : forall admin,
              update_schema_compatibility (mkFullClient (this self) admin) n mode
              = Raise (mkExc SchemaRegistryException
                         ("Failed to get schema: " ++ exc_str e))).
    { intros admin. unfold update_schema_compatibility. cbn [this glue_admin].
      unfold get_schema. rewrite H.
      unfold except_ClientError at 2. unfold is_ClientError at 1. rewrite Hc.
      reflexivity. }
    split.
    + destruct self as [t a]. apply G.
    + intros other. rewrite G. destruct self as [t a]. symmetry. apply G.
  - intros items H.
    assert (G : update_schema_compatibility self n mode
                = except_ClientError "Failed to update schema compatibility: "
                    (boto_update_schema (glue_admin self) (registry_name (this self))
                       n (value mode)
                       (lookup_default items "Description" (PStr "")))).
    { unfold update_schema_compatibility, get_schema. rewrite H.
      cbn [except_ClientError bind]. rewrite get_dict. reflexivity. }
    split.
    + intros resp Hu. rewrite G, Hu. reflexivity.
    + intros e code Hu Hc. rewrite G, Hu.
      unfold except_ClientError, is_ClientError. rewrite Hc. reflexivity.
Qed.

(** On the reference registry, with an update call that answers with what
    it was sent. *)
Lemma update_on_the_reference_registry :
  update_schema_compatibility
    (mkFullClient (Ref.client_of Ref.registry)
       (mkGlueAdmin
          (fun _ _ _ _ _ => Ok PNone) (fun _ => Ok PNone)
          (fun _ n c d =>
             Ok (PDict [("SchemaName", PStr n); ("Compatibility", PStr c);
                        ("Description", d)]))
          (fun _ _ _ => Ok PNone)))
    "SalesforceAudit" FULL
  = Ok (PDict [("SchemaName", PStr "SalesforceAudit"); ("Compatibility", PStr "FULL");
               ("Description", PStr "")])
  /\ update_schema_compatibility
       (mkFullClient (Ref.client_of Ref.registry)
          (mkGlueAdmin
             (fun _ _ _ _ _ => Ok PNone) (fun _ => Ok PNone)
             (fun _ n c d =>
                Ok (PDict [("SchemaName", PStr n); ("Compatibility", PStr c);
                           ("Description", d)]))
             (fun _ _ _ => Ok PNone)))
       "Unregistered" FULL
     = Raise (mkExc SchemaRegistryException
                "Failed to get schema: An error occurred (EntityNotFoundException) when calling the GetSchema operation: Schema is not found.").
Proof.
  split.
  - pose proof (update_looks_the_schema_up_first
                  (mkFullClient (Ref.client_of Ref.registry)
                     (mkGlueAdmin
                        (fun _ _ _ _ _ => Ok PNone) (fun _ => Ok PNone)
                        (fun _ n c d =>
                           Ok (PDict [("SchemaName", PStr n);
                                      ("Compatibility", PStr c);
                                      ("Description", d)]))
                        (fun _ _ _ => Ok PNone)))
                  "SalesforceAudit" FULL) as [_ H].
    destruct (H [("SchemaName", PStr "SalesforceAudit");
                 ("LatestSchemaVersion", PInt 1)] eq_refl) as [Hok _].
    apply Hok. reflexivity.
  - pose proof (update_looks_the_schema_up_first
                  (mkFullClient (Ref.client_of Ref.registry)
                     (mkGlueAdmin
                        (fun _ _ _ _ _ => Ok PNone) (fun _ => Ok PNone)
                        (fun _ n c d =>
                           Ok (PDict [("SchemaName", PStr n);
                                      ("Compatibility", PStr c);
                                      ("Description", d)]))
                        (fun _ _ _ => Ok PNone)))
                  "Unregistered" FULL) as [H _].
    refine (proj1 (H (mkExc (ClientError "EntityNotFoundException") _)
                     "EntityNotFoundException" _ _)); by_computation.
Defined.

(** X10.  [create_schema] and [register_schema_version] return the response
    of the service unchanged, wrap a [ClientError] under their own prefix and
    pass a failure of another class on; [create_schema] sends the data
    format in upper case and the value of the compatibility mode. *)
Theorem create_and_register_wrap_service_errors :
  forall (upper : string -> string) (self : Client)
         (n fmt defn : string) (mode : Compatibility),
    (forall resp,
       boto_create_schema (glue_admin self) (registry_name (this self)) n
         (upper fmt) defn (value mode) = Ok resp ->
       create_schema upper self n fmt defn mode = Ok resp)
    /\ (forall e code,
          boto_create_schema (glue_admin self) (registry_name (this self)) n
            (upper fmt) defn (value mode) = Raise e ->
          exc_class e = ClientError code ->
          create_schema upper self n fmt defn mode
          = Raise (mkExc SchemaRegistryException
                     ("Failed to create schema: " ++ exc_str e)))
    /\ (forall e,
          boto_create_schema (glue_admin self) (registry_name (this self)) n
            (upper fmt) defn (value mode) = Raise e ->
          is_ClientError e = false ->
          create_schema upper self n fmt defn mode = Raise e)
    /\ (forall resp,
          boto_register_schema_version (glue_admin self) (registry_name (this self))
            n defn = Ok resp ->
          register_schema_version self n defn = Ok resp)
    /\ (forall e code,
          boto_register_schema_version (glue_admin self) (registry_name (this self))
            n defn = Raise e ->
          exc_class e = ClientError code ->
          register_schema_version self n defn
          = Raise (mkExc SchemaRegistryException
                     ("Failed to register schema version: " ++ exc_str e)))
    /\ (forall e,
          boto_register_schema_version (glue_admin self) (registry_name (this self))
            n defn = Raise e ->
          is_ClientError e = false ->
          register_schema_version self n defn = Raise e).
Proof.
  intros upper self n fmt defn mode.
  unfold create_schema, register_schema_version.
  repeat split.
  - intros resp H. rewrite H. reflexivity.
  - intros e code H Hc. rewrite H.
    unfold except_ClientError, is_ClientError. rewrite Hc. reflexivity.
  - intros e H Hc. rewrite H. unfold except_ClientError. rewrite Hc. reflexivity.
  - intros resp H. rewrite H. reflexivity.
  - intros e code H Hc. rewrite H.
    unfold except_ClientError, is_ClientError. rewrite Hc. reflexivity.
  - intros e H Hc. rewrite H. unfold except_ClientError. rewrite Hc. reflexivity.
Qed.

(** X11.  The eight compatibility modes have eight different values: the
    string sent to the service determines the mode. *)
Theorem compatibility_values_are_distinct :
  forall m1 m2 : Compatibility, value m1 = value m2 -> m1 = m2.
Proof.
  intros m1 m2 H. destruct m1, m2; try reflexivity; discriminate H.
Qed.

Lemma compatibility_full_all_from_its_value :
  FULL_ALL = FULL_ALL /\ value FULL <> value FULL_ALL.
Proof.
  split.
  - apply compatibility_values_are_distinct. reflexivity.
  - discriminate.
Defined.

(* ================================================================== *)
(** * tests/test_config.py                                             *)
(* ================================================================== *)

Import test_config.

(** X12.  An environment variable that is set and not empty wins over the
    configuration file: each getter returns it without loading the file, so
    the cache is left as it was; a variable set to the empty string counts
    as not set. *)
Theorem environment_overrides_the_config_file :
  forall (C : ConfigLib) (w : World) (st : State C),
    (forall v, getenv w "GLUE_REGISTRY_NAME" = Some v -> v <> EmptyString ->
               get_registry_name C w st = (inl v, st))
    /\ (forall v, getenv w "AWS_REGION" = Some v -> v <> EmptyString ->
                  get_aws_region C w st = (inl v, st))
    /\ (forall v, getenv w "SCHEMA_NAME_AVRO" = Some v -> v <> EmptyString ->
                  get_avro_schema_name C w st = (inl v, st))
    /\ (forall v, getenv w "SCHEMA_NAME_JSON" = Some v -> v <> EmptyString ->
                  get_json_schema_name C w st = (inl v, st))
    /\ (forall w',
          config_file w' = config_file w ->
          (getenv w "GLUE_REGISTRY_NAME" = Some EmptyString ->
           getenv w' "GLUE_REGISTRY_NAME" = None ->
           get_registry_name C w st = get_registry_name C w' st)
          /\ (getenv w "AWS_REGION" = Some EmptyString ->
              getenv w' "AWS_REGION" = None ->
              get_aws_region C w st = get_aws_region C w' st)
          /\ (getenv w "SCHEMA_NAME_AVRO" = Some EmptyString ->
              getenv w' "SCHEMA_NAME_AVRO" = None ->
              get_avro_schema_name C w st = get_avro_schema_name C w' st)
          /\ (getenv w "SCHEMA_NAME_JSON" = Some EmptyString ->
              getenv w' "SCHEMA_NAME_JSON" = None ->
              get_json_schema_name C w st = get_json_schema_name C w' st)).
Proof.
  intros C w st.
  assert (L : forall w', config_file w' = config_file w ->
                _load_config C w st = _load_config C w' st).
  { intros w' H. unfold _load_config. rewrite H. reflexivity. }
  repeat split.
  - intros v H Hv. unfold get_registry_name. rewrite H.
    destruct v; [contradiction | reflexivity].
  - intros v H Hv. unfold get_aws_region. rewrite H.
    destruct v; [contradiction | reflexivity].
  - intros v H Hv. unfold get_avro_schema_name. rewrite H.
    destruct v; [contradiction | reflexivity].
  - intros v H Hv. unfold get_json_schema_name. rewrite H.
    destruct v; [contradiction | reflexivity].
  - intros H1 H2. unfold get_registry_name. rewrite H1, H2, (L w' H). reflexivity.
  - intros H1 H2. unfold get_aws_region. rewrite H1, H2, (L w' H). reflexivity.
  - intros H1 H2. unfold get_avro_schema_name. rewrite H1, H2, (L w' H). reflexivity.
  - intros H1 H2. unfold get_json_schema_name. rewrite H1, H2, (L w' H). reflexivity.
Qed.

(** X13.  The configuration is loaded once.  After the first load the class
    holds a parser, and every later load returns that parser without
    reading the file, whatever the file has become.  This holds also when
    the first [read] raised: the error of [read] is raised by the first call
    only, and the parser stays bound as the failed [read] left it.  A later
    getter does not read the file again: it returns, or raises, what [get]
    does on that parser. *)
Theorem config_is_loaded_once :
  forall (C : ConfigLib) (w : World),
    (exists config,
       snd (_load_config C w None) = Some config
       /\ forall w' : World,
            _load_config C w' (Some config) = (inl config, Some config))
    /\ (forall text e,
          config_file w = Some text ->
          snd (parser_read C (ConfigParser C) text) = Some e ->
          fst (_load_config C w None) = inr e
          /\ forall w' : World,
               _load_config C w' (snd (_load_config C w None))
               = (inl (fst (parser_read C (ConfigParser C) text)),
                  Some (fst (parser_read C (ConfigParser C) text))))
    /\ (forall text e,
          config_file w = Some text ->
          snd (parser_read C (ConfigParser C) text) = Some e ->
          (forall name, getenv w name = None) ->
          let left := fst (parser_read C (ConfigParser C) text) in
          get_registry_name C w None = (inr e, Some left)
          /\ get_aws_region C w None = (inr e, Some left)
          /\ get_avro_schema_name C w None = (inr e, Some left)
          /\ get_json_schema_name C w None = (inr e, Some left)
          /\ forall w' : World,
               (forall name, getenv w' name = None) ->
               get_registry_name C w' (Some left)
               = (parser_get C left "test" "glue.registry.name"
                    "glue-schema-registry-ansumanroy-6219", Some left)
               /\ get_aws_region C w' (Some left)
                  = (parser_get C left "test" "aws.region" "us-east-1", Some left)
               /\ get_avro_schema_name C w' (Some left)
                  = (parser_get C left "test" "schema.name.avro" "SalesforceAudit",
                     Some left)
               /\ get_json_schema_name C w' (Some left)
                  = (parser_get C left "test" "schema.name.json" "SalesAuditJSON",
                     Some left))
    /\ (forall (config : Parser C) (w' : World),
          getenv w' = getenv w ->
          get_registry_name C w' (Some config) = get_registry_name C w (Some config)
          /\ get_aws_region C w' (Some config) = get_aws_region C w (Some config)
          /\ get_avro_schema_name C w' (Some config)
             = get_avro_schema_name C w (Some config)
          /\ get_json_schema_name C w' (Some config)
             = get_json_schema_name C w (Some config)).
Proof.
  intros C w. split; [|split; [|split]].
  - unfold _load_config. destruct (config_file w) as [text|].
    + cbv zeta. destruct (snd (parser_read C (ConfigParser C) text));
        (eexists; split; [reflexivity | intros w'; reflexivity]).
    + eexists. split; [reflexivity | intros w'; reflexivity].
  - intros text e Hf He. unfold _load_config at 1 3. rewrite Hf. cbv zeta.
    rewrite He. split; [reflexivity | intros w'; reflexivity].
  - intros text e Hf He Henv. cbv zeta.
    unfold get_registry_name, get_aws_region, get_avro_schema_name,
      get_json_schema_name.
    rewrite !Henv. unfold _load_config. rewrite Hf. cbv zeta. rewrite He.
    cbn [fst snd].
    split; [reflexivity|]. split; [reflexivity|]. split; [reflexivity|].
    split; [reflexivity|].
    intros w' Henv'. rewrite !Henv'. cbn [fst snd]. repeat split.
  - intros config w' H.
    unfold get_registry_name, get_aws_region, get_avro_schema_name,
      get_json_schema_name. rewrite H. repeat split.
Qed.

(** X14.  With no variable set and no configuration file, the four getters
    return their built-in defaults, provided [get] on a fresh parser
    returns its fallback. *)
Theorem getters_fall_back_to_their_defaults :
  forall (C : ConfigLib) (w : World),
    (forall section option fallback,
       parser_get C (ConfigParser C) section option fallback = inl fallback) ->
    (forall name, getenv w name = None \/ getenv w name = Some EmptyString) ->
    config_file w = None ->
    fst (get_registry_name C w None) = inl "glue-schema-registry-ansumanroy-6219"
    /\ fst (get_aws_region C w None) = inl "us-east-1"
    /\ fst (get_avro_schema_name C w None) = inl "SalesforceAudit"
    /\ fst (get_json_schema_name C w None) = inl "SalesAuditJSON".
Proof.
  intros C w Hget Henv Hfile.
  unfold get_registry_name, get_aws_region, get_avro_schema_name,
    get_json_schema_name, _load_config.
  rewrite Hfile. cbn [fst snd]. rewrite !Hget.
  destruct (Henv "GLUE_REGISTRY_NAME") as [-> | ->];
    destruct (Henv "AWS_REGION") as [-> | ->];
    destruct (Henv "SCHEMA_NAME_AVRO") as [-> | ->];
    destruct (Henv "SCHEMA_NAME_JSON") as [-> | ->];
    repeat split.
Qed.

Lemma defaults_with_the_ini_reader :
  fst (get_registry_name Ini.lib (mkWorld (fun _ => None) None) None)
  = inl "glue-schema-registry-ansumanroy-6219"
  /\ fst (get_aws_region Ini.lib (mkWorld (fun _ => None) None) None)
     = inl "us-east-1"
  /\ fst (get_avro_schema_name Ini.lib (mkWorld (fun _ => None) None) None)
     = inl "SalesforceAudit"
  /\ fst (get_json_schema_name Ini.lib (mkWorld (fun _ => None) None) None)
     = inl "SalesAuditJSON".
Proof.
  apply (getters_fall_back_to_their_defaults Ini.lib
           (mkWorld (fun _ => None) None)).
  - intros section option fallback.
    change (Ini.get [] section option fallback = inl fallback).
    unfold Ini.get. cbn [Ini.find_section].
    destruct (String.eqb section "DEFAULT"); reflexivity.
  - intros name. left. reflexivity.
  - reflexivity.
Defined.

(** A variable that is set wins over the file; an empty one does not. *)
Lemma registry_name_from_the_environment :
  get_registry_name Ini.lib
    (mkWorld (fun name => if String.eqb name "GLUE_REGISTRY_NAME"
                          then Some "prod-registry" else None)
       (Some (Ini.unlines ["[test]"; "glue.registry.name = file-registry"])))
    None
  = (inl "prod-registry", None)
  /\ get_registry_name Ini.lib
       (mkWorld (fun name => if String.eqb name "GLUE_REGISTRY_NAME"
                             then Some EmptyString else None)
          (Some (Ini.unlines ["[test]"; "glue.registry.name = file-registry"])))
       None
     = get_registry_name Ini.lib
         (mkWorld (fun _ => None)
            (Some (Ini.unlines ["[test]"; "glue.registry.name = file-registry"])))
         None.
Proof.
  split.
  - refine (proj1 (environment_overrides_the_config_file Ini.lib _ None)
              "prod-registry" _ _); [reflexivity | discriminate].
  - pose proof (environment_overrides_the_config_file Ini.lib
                  (mkWorld (fun name => if String.eqb name "GLUE_REGISTRY_NAME"
                                        then Some EmptyString else None)
                     (Some (Ini.unlines ["[test]";
                                         "glue.registry.name = file-registry"])))
                  None) as (_ & _ & _ & _ & H).
    refine (proj1 (H (mkWorld (fun _ => None) _) eq_refl) _ _); reflexivity.
Defined.

(** A file whose third line repeats a section: the first call raises the
    error of [read]; the second, although the file has been removed in
    between, does not read again and raises what [get] raises on the value
    that was left unjoined. *)
Lemma a_failed_read_is_reported_once :
  fst (_load_config Ini.lib
         (mkWorld (fun _ => None)
            (Some (Ini.unlines ["[test]"; "aws.region = eu-west-1"; "[test]"])))
         None)
  = inr (Ini.DuplicateSectionError "test")
  /\ _load_config Ini.lib (mkWorld (fun _ => None) None)
       (snd (_load_config Ini.lib
               (mkWorld (fun _ => None)
                  (Some (Ini.unlines ["[test]"; "aws.region = eu-west-1";
                                      "[test]"])))
               None))
     = (inl [("test", [("aws.region", Ini.Unjoined "eu-west-1")])],
        Some [("test", [("aws.region", Ini.Unjoined "eu-west-1")])])
  /\ get_aws_region Ini.lib
       (mkWorld (fun _ => None)
          (Some (Ini.unlines ["[test]"; "aws.region = eu-west-1"; "[test]"])))
       None
     = (inr (Ini.DuplicateSectionError "test"),
        Some [("test", [("aws.region", Ini.Unjoined "eu-west-1")])])
  /\ get_aws_region Ini.lib (mkWorld (fun _ => None) None)
       (Some [("test", [("aws.region", Ini.Unjoined "eu-west-1")])])
     = (inr (Ini.AttributeError "'list' object has no attribute 'find'"),
        Some [("test", [("aws.region", Ini.Unjoined "eu-west-1")])])
  /\ get_registry_name Ini.lib (mkWorld (fun _ => None) None)
       (Some [("test", [("aws.region", Ini.Unjoined "eu-west-1")])])
     = (inl "glue-schema-registry-ansumanroy-6219",
        Some [("test", [("aws.region", Ini.Unjoined "eu-west-1")])]).
Proof.
  pose proof (config_is_loaded_once Ini.lib
                (mkWorld (fun _ => None)
                   (Some (Ini.unlines ["[test]"; "aws.region = eu-west-1";
                                       "[test]"])))) as (_ & H & G & _).
  destruct (H (Ini.unlines ["[test]"; "aws.region = eu-west-1"; "[test]"])
              (Ini.DuplicateSectionError "test") eq_refl eq_refl) as [H1 H2].
  destruct (G (Ini.unlines ["[test]"; "aws.region = eu-west-1"; "[test]"])
              (Ini.DuplicateSectionError "test") eq_refl eq_refl
              (fun _ => eq_refl)) as (_ & G2 & _ & _ & G5).
  destruct (G5 (mkWorld (fun _ => None) None) (fun _ => eq_refl))
    as (G6 & G7 & _).
  split; [exact H1|].
  split; [exact (H2 (mkWorld (fun _ => None) None))|].
  split; [exact G2|].
  split; [exact G7 | exact G6].
Defined.
